(** * FSG Mod Assistant: renderer and preload glue

    A shallow embedding of three source files:
    - the preload bridge of the confirm window ([l10n.receive], [mods.receive]),
    - [renderer/renderJS/notes_ui.js] (the notes window),
    - [renderer/renderJS/savegame_ui.js] (the savegame detail window).

    A JavaScript string is modelled by the Rocq string of its UTF-16 code
    units, one character per code unit; the strings covered are those whose
    code units are below 256, so comparing characters is comparing code
    units.  An object used as a dictionary is a [gmap string _] of its own
    properties, read through [JS.get], which also finds what the object
    inherits from [Object.prototype]; [null] is [None].  Module-level
    variables and the part of the document a handler touches are threaded
    through explicitly as a window state. *)

From stdpp Require Import base strings list gmap sorting pretty.

(** ** Small pieces of the JavaScript string library *)

Module JS.

(** [s.startsWith(p)] *)
Definition startsWith (s p : string) : bool := String.prefix p s.

(** [s.endsWith(p)]: the last [p.length] characters of [s] are [p]. *)
Definition endsWith (s p : string) : bool :=
  (String.length p <=? String.length s)%nat &&
  String.eqb
    (String.substring (String.length s - String.length p) (String.length p) s) p.

(** [l.includes(x)] on an array of strings. *)
Definition includes (l : list string) (x : string) : bool :=
  existsb (String.eqb x) l.

(** [l.join(sep)] *)
Definition join (sep : string) (l : list string) : string :=
  String.concat sep l.

(** Drop the first [n] characters. *)
Fixpoint skip (n : nat) (s : string) : string :=
  match n, s with
  | O, _ => s
  | S n', String _ s' => skip n' s'
  | S _, EmptyString => EmptyString
  end.

(** [s.replace(pat, '')] with a string pattern: only the first occurrence
    of [pat] is removed. *)
Fixpoint removeFirst (pat s : string) : string :=
  if String.prefix pat s then skip (String.length pat) s
  else match s with
       | EmptyString => EmptyString
       | String c s' => String c (removeFirst pat s')
       end.

(** [s.toLowerCase()], code unit by code unit: the letters A to Z and the
    capital letters of the range 192 to 222 (215, the multiplication sign,
    apart) have their small letter 32 further. *)
Definition lowerAscii (c : Ascii.ascii) : Ascii.ascii :=
  let n := Ascii.nat_of_ascii c in
  if (65 <=? n)%nat && (n <=? 90)%nat then Ascii.ascii_of_nat (n + 32)
  else if (192 <=? n)%nat && (n <=? 222)%nat && negb (n =? 215)%nat
       then Ascii.ascii_of_nat (n + 32)
  else c.

Fixpoint toLowerCase (s : string) : string :=
  match s with
  | EmptyString => EmptyString
  | String c s' => String (lowerAscii c) (toLowerCase s')
  end.

(** [s.add(x)] on a [Set] of strings, kept as the list of its members in
    insertion order. *)
Definition Set_add (x : string) (s : list string) : list string :=
  if includes s x then s else s ++ [x].

(** [Array.from(s).sort()]: the default order on strings, code unit by
    code unit. *)
Definition sort (l : list string) : list string := merge_sort String.le l.

(** The double quote character. *)
Definition dquote : string := String (Ascii.ascii_of_nat 34) EmptyString.

(** Property keys and template literals both print [null] as the
    four-letter string. *)
Definition toKey (v : option string) : string := default "null" v.

(** The own properties of [Object.prototype]: every plain object inherits
    them. *)
Definition prototypeNames : list string :=
  ["constructor"; "__defineGetter__"; "__defineSetter__"; "hasOwnProperty";
   "__lookupGetter__"; "__lookupSetter__"; "isPrototypeOf";
   "propertyIsEnumerable"; "toString"; "valueOf"; "__proto__";
   "toLocaleString"].

(** What [o[k]] finds on a plain object: an own property, a property
    inherited from [Object.prototype] (a built-in function, or for
    [__proto__] the prototype object itself), or nothing, in which case
    the value is [undefined]. *)
Inductive property (A : Type) : Type :=
| Own (a : A)
| Inherited (name : string)
| Undefined.
Arguments Own {A}.
Arguments Inherited {A}.
Arguments Undefined {A}.

Definition get {A : Type} (o : gmap string A) (k : string) : property A :=
  match o !! k with
  | Some a => Own a
  | None => if includes prototypeNames k then Inherited k else Undefined
  end.

(** [typeof v !== 'undefined'] *)
Definition defined {A : Type} (v : property A) : bool :=
  match v with
  | Undefined => false
  | _ => true
  end.

(** [String(Object.prototype[name])]: the text of a built-in function, and
    of the prototype object for [__proto__]. *)
Definition nativeText (name : string) : string :=
  if String.eqb name "__proto__" then "[object Object]"
  else "function "
         +:+ (if String.eqb name "constructor" then "Object" else name)
         +:+ "() { [native code] }".

(** [Object.prototype[name].length]: the number of parameters of the
    built-in function; the prototype object has no [length]. *)
Definition nativeLength (name : string) : option nat :=
  if String.eqb name "__proto__" then None
  else if String.eqb name "__defineGetter__" then Some 2
  else if String.eqb name "__defineSetter__" then Some 2
  else if String.eqb name "toString" then Some 0
  else if String.eqb name "valueOf" then Some 0
  else if String.eqb name "toLocaleString" then Some 0
  else Some 1.

(** A text without markup: assigned to [innerHTML] it makes no element. *)
Definition noMarkup (s : string) : bool :=
  forallb (fun c => negb (Ascii.nat_of_ascii c =? 60)%nat)
          (String.list_ascii_of_string s).

(** A text pasted between two [quote] characters of a CSS selector stands
    for itself when it holds neither the quote, nor a backslash, nor a
    line break, nor the null character. *)
Definition plainBetween (quote : nat) (s : string) : bool :=
  forallb (fun c : Ascii.ascii =>
             let n := Ascii.nat_of_ascii c in
             negb ((n =? quote)%nat || (n =? 92)%nat || (n =? 10)%nat
                   || (n =? 12)%nat || (n =? 13)%nat || (n =? 0)%nat))
          (String.list_ascii_of_string s).

End JS.

(** ** The preload bridge (confirm window) *)

Module Bridge.

Section Receive.
(** The IPC event object, the values carried by a message and what a
    callback does with them are left abstract. *)
Variables (event arg effect : Type).

(** A callback of the page: [func(...args)]. *)
Definition callback : Type := list arg -> effect.

(** A listener as [ipcRenderer.on] stores it. *)
Definition handler : Type := event -> list arg -> effect.

Record listener : Type := Listener {
  on_channel : string;
  on_handler : handler;
}.

(** [ipcRenderer]: the listeners registered so far, oldest first. *)
Definition ipcRenderer : Type := list listener.

Definition ipcRenderer_on (channel : string) (h : handler)
    (ipc : ipcRenderer) : ipcRenderer :=
  ipc ++ [Listener channel h].

(** [( event, ...args ) => func( ...args )] *)
Definition forward (func : callback) : handler := fun _ args => func args.

Definition l10n_validChannels : list string :=
  ["fromMain_getText_return"; "fromMain_l10n_refresh"].

Definition l10n_receive (channel : string) (func : callback)
    (ipc : ipcRenderer) : ipcRenderer :=
  let validChannels := l10n_validChannels in
  if JS.includes validChannels channel
  then ipcRenderer_on channel (forward func) ipc
  else ipc.

Definition mods_validChannels : list string :=
  ["fromMain_confirmList"].

Definition mods_receive (channel : string) (func : callback)
    (ipc : ipcRenderer) : ipcRenderer :=
  let validChannels := mods_validChannels in
  if JS.includes validChannels channel
  then ipcRenderer_on channel (forward func) ipc
  else ipc.

End Receive.

Arguments Listener {event arg effect}.
Arguments on_channel {event arg effect}.
Arguments on_handler {event arg effect}.
Arguments forward {event arg effect}.
Arguments ipcRenderer_on {event arg effect}.
Arguments l10n_receive {event arg effect}.
Arguments mods_receive {event arg effect}.

End Bridge.

(** ** The notes window ([notes_ui.js]) *)

Module Notes.

(** Calls made on the bridge objects [window.mods] and [l10n]. *)
Inductive call : Type :=
| setNote (id value : string) (collection : option string)
| getText_send (names : list string).

(** The window: the module variable [thisCollection], the part of the
    document the script reads and writes, and the bridge calls issued so
    far (oldest first).  Element ids are unique in a document, so the
    [input] elements are a map from id to current value. *)
Record window : Type := Window {
  thisCollection  : option string;
  collection_name : string;
  inputs          : gmap string string;
  l10n_names      : list string;
  sent            : list call;
}.

Definition send (c : call) (w : window) : window :=
  Window (thisCollection w) (collection_name w) (inputs w) (l10n_names w)
         (sent w ++ [c]).

Definition clientGetL10NEntries (w : window) : window :=
  let l10nSendItems := fold_left (fun s n => JS.Set_add n s) (l10n_names w) [] in
  send (getText_send l10nSendItems) w.

Definition processL10N (w : window) : window := clientGetL10NEntries w.

Section Push.
(** [allNotes] and the notes of a collection are plain objects.  When
    [allNotes] only inherits [collection], the inputs are filled from the
    members of a built-in of the engine: [builtin name id] is the member
    [id] of what [Object.prototype] holds under [name], as the text an
    input shows for it; [Some None] when there is no such member, [None]
    when reading it throws. *)
Variable builtin : string -> string -> option (option string).

(** The value an input of the given id takes; [None] when reading it
    throws. *)
Definition thisValue (collection : string)
    (allNotes : gmap string (gmap string string)) (id : string)
    : option string :=
  match JS.get allNotes collection with
  | JS.Undefined => Some ""
  | JS.Own notes =>
      Some (match JS.get notes id with
            | JS.Own value => value
            | JS.Inherited member => JS.nativeText member
            | JS.Undefined => ""
            end)
  | JS.Inherited name => default "" <$> builtin name id
  end.

(** The [fromMain_collectionName] callback; [None] when it throws. *)
Definition fromMain_collectionName (collection collectionName : string)
    (allNotes : gmap string (gmap string string)) (w : window)
    : option window :=
  if bool_decide (map_Forall
                    (fun id _ => is_Some (thisValue collection allNotes id))
                    (inputs w))
  then Some (processL10N
               (Window (Some collection) collectionName
                       (map_imap (fun id _ => thisValue collection allNotes id)
                                 (inputs w))
                       (l10n_names w) (sent w)))
  else None.
End Push.

(** [clientSetNote(id)].  [fsgUtil.byId] of an id that is not in the
    document is [null], and reading [.value] of it throws: [None]. *)
Definition clientSetNote (id : string) (w : window) : option window :=
  match inputs w !! id with
  | None => None
  | Some value => Some (send (setNote id value (thisCollection w)) w)
  end.

(** The user types [value] into the field [id]; only a field of the page
    can be typed into. *)
Definition userEdit (id value : string) (w : window) : window :=
  Window (thisCollection w) (collection_name w)
         (alter (fun _ => value) id (inputs w))
         (l10n_names w) (sent w).

End Notes.

(** ** The savegame detail window ([savegame_ui.js]) *)

Module Savegame.

(** *** The data pushed by the host *)

(** An installed mod, as far as the handler reads it. *)
Record modRecord : Type := ModRecord {
  shortName    : string;         (* fileDetail.shortName *)
  storeItems   : Z;              (* modDesc.storeItems *)
  scriptFiles  : Z;              (* modDesc.scriptFiles *)
  desc_version : option string;  (* modDesc.version *)
  l10n_title   : string;         (* l10n.title *)
  uuid         : option string;  (* uuid, [None] for null *)
}.

(** An entry of [savegame.mods]; [farms] is a [Set], listed in
    insertion order. *)
Record saveMod : Type := SaveMod {
  save_version : option string;
  save_title   : option string;
  save_farms   : list string;
}.

Record savegame : Type := SaveGame {
  errorList  : list (string * string);
  save_mods  : gmap string saveMod;
  mapMod     : option string;
  singleFarm : bool;
}.

(** [modCollect]: [opts.collectKey], [opts.thisSaveGame],
    [modList[key].mods] as [Object.values] lists it, [modHub.list.mods]
    and the two name tables. *)
Record modCollect : Type := ModCollect {
  collectKey                 : option string;
  thisSaveGame               : savegame;
  modList                    : gmap string (list modRecord);
  modHub                     : gmap string Z;
  collectionToName           : gmap string string;
  collectionToFolderRelative : gmap string string;
}.

(** *** Module-level state *)

Module Select.
Record t : Type := Make {
  inactive : list string;
  unused   : list string;
  nohub    : list string;
  active   : list string;
}.
Definition empty : t := Make [] [] [] [].
Definition push_inactive (k : string) (s : t) : t :=
  Make (inactive s ++ [k]) (unused s) (nohub s) (active s).
Definition push_unused (k : string) (s : t) : t :=
  Make (inactive s) (unused s ++ [k]) (nohub s) (active s).
Definition push_nohub (k : string) (s : t) : t :=
  Make (inactive s) (unused s) (nohub s ++ [k]) (active s).
Definition push_active (k : string) (s : t) : t :=
  Make (inactive s) (unused s) (nohub s) (active s ++ [k]).
(** [selectList[type]]: one of the four lists, or what the object
    inherits. *)
Definition get (s : t) (type : string) : JS.property (list string) :=
  if String.eqb type "inactive" then JS.Own (inactive s)
  else if String.eqb type "unused" then JS.Own (unused s)
  else if String.eqb type "nohub" then JS.Own (nohub s)
  else if String.eqb type "active" then JS.Own (active s)
  else if JS.includes JS.prototypeNames type then JS.Inherited type
  else JS.Undefined.
End Select.

Module Count.
Record t : Type := Make {
  dlc        : nat;
  missing    : nat;
  scriptonly : nat;
  isloaded   : nat;
  isused     : nat;
  inactive   : nat;
  unused     : nat;
  nohub      : nat;
  active     : nat;
}.
Definition zero : t := Make 0 0 0 0 0 0 0 0 0.
Definition incr_dlc (c : t) : t :=
  Make (S (dlc c)) (missing c) (scriptonly c) (isloaded c) (isused c)
       (inactive c) (unused c) (nohub c) (active c).
Definition incr_missing (c : t) : t :=
  Make (dlc c) (S (missing c)) (scriptonly c) (isloaded c) (isused c)
       (inactive c) (unused c) (nohub c) (active c).
Definition incr_scriptonly (c : t) : t :=
  Make (dlc c) (missing c) (S (scriptonly c)) (isloaded c) (isused c)
       (inactive c) (unused c) (nohub c) (active c).
Definition incr_isloaded (c : t) : t :=
  Make (dlc c) (missing c) (scriptonly c) (S (isloaded c)) (isused c)
       (inactive c) (unused c) (nohub c) (active c).
Definition incr_isused (c : t) : t :=
  Make (dlc c) (missing c) (scriptonly c) (isloaded c) (S (isused c))
       (inactive c) (unused c) (nohub c) (active c).
(** The four assignments that close a completed pass. *)
Definition set_lengths (n_nohub n_inactive n_unused n_active : nat) (c : t) : t :=
  Make (dlc c) (missing c) (scriptonly c) (isloaded c) (isused c)
       n_inactive n_unused n_nohub n_active.
(** [selectCount[labelName]]: one of the nine counters, or what the
    object inherits. *)
Definition get (c : t) (labelName : string) : JS.property nat :=
  if String.eqb labelName "dlc" then JS.Own (dlc c)
  else if String.eqb labelName "missing" then JS.Own (missing c)
  else if String.eqb labelName "scriptonly" then JS.Own (scriptonly c)
  else if String.eqb labelName "isloaded" then JS.Own (isloaded c)
  else if String.eqb labelName "isused" then JS.Own (isused c)
  else if String.eqb labelName "inactive" then JS.Own (inactive c)
  else if String.eqb labelName "unused" then JS.Own (unused c)
  else if String.eqb labelName "nohub" then JS.Own (nohub c)
  else if String.eqb labelName "active" then JS.Own (active c)
  else if JS.includes JS.prototypeNames labelName then JS.Inherited labelName
  else JS.Undefined.
End Count.

(** *** The record derived for one mod name ([thisModDetail]) *)

Record modDetail : Type := ModDetail {
  title           : option string;
  version         : option string;
  scriptOnly      : bool;
  isLoaded        : bool;
  isUsed          : bool;
  isPresent       : bool;
  isDLC           : bool;
  usedBy          : option (list string);
  versionMismatch : bool;
  isModHub        : bool;
}.

Definition set_title (v : option string) (d : modDetail) : modDetail :=
  ModDetail v (version d) (scriptOnly d) (isLoaded d) (isUsed d) (isPresent d)
            (isDLC d) (usedBy d) (versionMismatch d) (isModHub d).
Definition set_version (v : option string) (d : modDetail) : modDetail :=
  ModDetail (title d) v (scriptOnly d) (isLoaded d) (isUsed d) (isPresent d)
            (isDLC d) (usedBy d) (versionMismatch d) (isModHub d).
Definition set_scriptOnly (v : bool) (d : modDetail) : modDetail :=
  ModDetail (title d) (version d) v (isLoaded d) (isUsed d) (isPresent d)
            (isDLC d) (usedBy d) (versionMismatch d) (isModHub d).
Definition set_isLoaded (v : bool) (d : modDetail) : modDetail :=
  ModDetail (title d) (version d) (scriptOnly d) v (isUsed d) (isPresent d)
            (isDLC d) (usedBy d) (versionMismatch d) (isModHub d).
Definition set_isUsed (v : bool) (d : modDetail) : modDetail :=
  ModDetail (title d) (version d) (scriptOnly d) (isLoaded d) v (isPresent d)
            (isDLC d) (usedBy d) (versionMismatch d) (isModHub d).
Definition set_isPresent (v : bool) (d : modDetail) : modDetail :=
  ModDetail (title d) (version d) (scriptOnly d) (isLoaded d) (isUsed d) v
            (isDLC d) (usedBy d) (versionMismatch d) (isModHub d).
Definition set_isDLC (v : bool) (d : modDetail) : modDetail :=
  ModDetail (title d) (version d) (scriptOnly d) (isLoaded d) (isUsed d)
            (isPresent d) v (usedBy d) (versionMismatch d) (isModHub d).
Definition set_usedBy (v : option (list string)) (d : modDetail) : modDetail :=
  ModDetail (title d) (version d) (scriptOnly d) (isLoaded d) (isUsed d)
            (isPresent d) (isDLC d) v (versionMismatch d) (isModHub d).
Definition set_versionMismatch (v : bool) (d : modDetail) : modDetail :=
  ModDetail (title d) (version d) (scriptOnly d) (isLoaded d) (isUsed d)
            (isPresent d) (isDLC d) (usedBy d) v (isModHub d).

(** [mod[badge] === true] for the four names of [badges]. *)
Definition flag (d : modDetail) (badge : string) : bool :=
  if String.eqb badge "versionMismatch" then versionMismatch d
  else if String.eqb badge "scriptOnly" then scriptOnly d
  else if String.eqb badge "isUsed" then isUsed d
  else if String.eqb badge "isLoaded" then isLoaded d
  else false.

(** [a === b] where [b] may be null. *)
Definition same (a : string) (b : option string) : bool :=
  match b with
  | Some b' => String.eqb a b'
  | None => false
  end.

(** [a !== b] on two values that are strings or null. *)
Definition differ (a b : option string) : bool :=
  match a, b with
  | Some a', Some b' => negb (String.eqb a' b')
  | None, None => false
  | _, _ => true
  end.

Section Derive.
(** [fsgUtil.escapeSpecial] is defined elsewhere in the application; it
    is a parameter of the development. *)
Variable escapeSpecial : string -> string.

(** Lines 75 to 128 of the handler: the record of [thisMod] when these
    lines run to their end, which they do when [savegame.mods] and
    [haveModSet] each hold [thisMod] as a key of their own or know no
    property of that name at all: the two cases of each [match] below.
    When one of the two objects only inherits a property of that name,
    the [typeof] test passes and line 103 or 111 throws before a record
    exists; [throwsAt] below decides that, and the loop asks it first. *)
Definition thisModDetail (mc : modCollect)
    (haveModSet : gmap string modRecord) (thisMod : string) : modDetail :=
  let savegame := thisSaveGame mc in
  let d := ModDetail None None false false false false false None false
             (JS.defined (JS.get (modHub mc) thisMod)) in
  let d := if JS.startsWith thisMod "pdlc_"
           then set_isPresent true (set_isDLC true d) else d in
  let d := if same thisMod (mapMod savegame)
           then set_isLoaded true (set_isUsed true d) else d in
  let d := match save_mods savegame !! thisMod with
           | Some e =>
               let d := set_version (save_version e) d in
               let d := set_title (save_title e) d in
               let d := set_isLoaded true d in
               if (0 <? length (save_farms e))%nat
               then set_usedBy (Some (save_farms e)) (set_isUsed true d)
               else d
           | None => d
           end in
  let d := match haveModSet !! thisMod with
           | Some have =>
               let d := set_isPresent true d in
               let d := if (storeItems have <? 1)%Z && (0 <? scriptFiles have)%Z
                        then let d := set_scriptOnly true d in
                             if isLoaded d then set_isUsed true d else d
                        else d in
               let d := match version d with
                        | None => set_version (desc_version have) d
                        | Some _ =>
                            if differ (version d) (desc_version have)
                            then set_versionMismatch true d else d
                        end in
               set_title (Some (escapeSpecial (l10n_title have))) d
           | None => d
           end in
  let d := if same thisMod (mapMod savegame)
           then set_usedBy None (set_isLoaded true (set_isUsed true d)) else d in
  d.
End Derive.

(** *** Templates

    Modelled from the spec: [fsgUtil.useTemplate] and [fsgUtil.badge]
    are defined elsewhere in the application.  A rendered template is kept as
    the template name with the values passed to it, a badge as the
    arguments of [fsgUtil.badge]; the spec's list entry "carries a badge"
    when the entry holds a badge of that name. *)

Record badge : Type := Badge {
  badge_class : string;
  badge_name  : string;
  badge_l10n  : bool;
}.

Definition fsgUtil_badge (cls name : string) (l10n : bool) : badge :=
  Badge cls name l10n.

Module Line.
(** The values handed to the [savegame_mod] template. *)
Record t : Type := Make {
  colorClass    : string;
  hubID         : JS.property Z;
  hubIDHide     : string;
  name          : string;
  title         : option string;
  hideShowFarms : string;
  farms         : string;
  badges        : list badge;
}.
End Line.

Inductive item : Type :=
| savegame_error (errors : string)
| savegame_mod (line : Line.t).

(** The [switch ( true )] of [makeLine]. *)
Definition colorClassOf (mod_ : modDetail) : string :=
  if negb (isPresent mod_) then "list-group-item-danger"
  else if versionMismatch mod_ then "list-group-item-info"
  else if isUsed mod_ then "list-group-item-success"
  else if isLoaded mod_ then "list-group-item-warning"
  else "list-group-item-secondary".

(** One turn of [for ( const badge of badges )]. *)
Definition badgeStep (mod_ : modDetail)
    (acc : list (string * string) * Count.t) (badge : string)
    : list (string * string) * Count.t :=
  let '(displayBadge, selectCount) := acc in
  if flag mod_ badge then
    let selectCount :=
      if String.eqb badge "scriptOnly" then Count.incr_scriptonly selectCount
      else selectCount in
    let selectCount :=
      if String.eqb badge "isUsed" then Count.incr_isused selectCount
      else selectCount in
    let selectCount :=
      if String.eqb badge "isLoaded" then Count.incr_isloaded selectCount
      else selectCount in
    (displayBadge ++ [(JS.toLowerCase badge, "dark")], selectCount)
  else acc.

Definition displayBadgeOf (mod_ : modDetail) (selectCount : Count.t)
    : list (string * string) * Count.t :=
  let badges := ["versionMismatch"; "scriptOnly"; "isUsed"; "isLoaded"] in
  let displayBadge : list (string * string) := [] in
  let displayBadge :=
    if negb (isModHub mod_) && negb (isDLC mod_)
    then displayBadge ++ [("nohub", "info")] else displayBadge in
  let '(displayBadge, selectCount) :=
    if isDLC mod_
    then (displayBadge ++ [("dlc", "info")], Count.incr_dlc selectCount)
    else (displayBadge, selectCount) in
  let '(displayBadge, selectCount) :=
    if negb (isPresent mod_)
    then (displayBadge ++ [("missing", "danger")], Count.incr_missing selectCount)
    else (displayBadge, selectCount) in
  let displayBadge :=
    if negb (isUsed mod_)
    then displayBadge ++ [("unused", "warning")] else displayBadge in
  let displayBadge :=
    if negb (isLoaded mod_)
    then displayBadge ++ [("inactive", "warning")] else displayBadge in
  fold_left (badgeStep mod_) badges (displayBadge, selectCount).

(** [makeLine]: the entry of one record, and [selectCount] after the
    increments made on the way. *)
Definition makeLine (name : string) (mod_ : modDetail) (singleFarm : bool)
    (hubID : JS.property Z) (selectCount : Count.t) : item * Count.t :=
  let colorClass := colorClassOf mod_ in
  let '(displayBadge, selectCount) := displayBadgeOf mod_ selectCount in
  (savegame_mod
     (Line.Make
        colorClass
        hubID
        (if JS.defined hubID then "" else "d-none")
        name
        (title mod_)
        (if bool_decide (is_Some (usedBy mod_)) && negb singleFarm
         then "" else "d-none")
        (match usedBy mod_ with
         | Some farms => JS.join ", " farms
         | None => ""
         end)
        (map (fun part : string * string =>
                fsgUtil_badge (part.2 +:+ " bg-gradient rounded-1 ms-1")
                              ("savegame_" +:+ part.1) true)
             displayBadge)),
   selectCount).

(** *** The document

    Modelled from the spec: the page itself ([savegame.html]) is not one
    of the three files embedded here.  It is taken to hold the list container whose
    children are the rendered entries (the entries of the [savegame_mod]
    template being the [.mod-item] elements, shown unless they carry the
    class [d-none]), the counter labels, each with its [for] attribute
    and the text of its [.quantity] child, and the check boxes. *)

Record node : Type := Node {
  content : item;
  d_none  : bool;
}.

Record label : Type := Label {
  for_     : string;
  quantity : string;
}.

Record checkbox : Type := Checkbox {
  cb_id          : string;
  cb_filter_only : bool;   (* carries the class [filter_only] *)
  cb_checked     : bool;
}.

Record document : Type := Document {
  collection_name     : string;
  collection_location : string;
  modListHTML         : list node;
  labels              : list label;
  checkboxes          : list checkbox;
}.

Definition set_modListHTML (l : list node) (d : document) : document :=
  Document (collection_name d) (collection_location d) l (labels d) (checkboxes d).
Definition set_labels (l : list label) (d : document) : document :=
  Document (collection_name d) (collection_location d) (modListHTML d) l (checkboxes d).

(** Setting [innerHTML] to the joined templates: fresh nodes, none hidden. *)
Definition parse (html : list item) : list node :=
  map (fun it => Node it false) html.

(** A value read from a plain object and written to [innerHTML]. *)
Definition shown {A} (print : A -> string) (v : JS.property A) : string :=
  match v with
  | JS.Own a => print a
  | JS.Inherited name => JS.nativeText name
  | JS.Undefined => "undefined"
  end.

(** Calls on globals defined outside this file.  [selectInMain] is called
    with an array of keys, or ([selectInMainBuiltin]) with a member that
    [selectList] inherits from [Object.prototype]; what the bridge then
    does with its argument is not in this file. *)
Inductive call : Type :=
| processL10N
| selectInMain (keys : list string)
| selectInMainBuiltin (name : string).

Record window : Type := Window {
  thisCollection : option string;
  selectList     : Select.t;
  selectCount    : Count.t;
  dom            : document;
}.

Definition updateCounts (selectCount : Count.t) (d : document) : document :=
  set_labels
    (map (fun element =>
            if JS.startsWith (for_ element) "check_savegame" then
              let labelName := JS.removeFirst "check_savegame_" (for_ element) in
              Label (for_ element) (shown pretty (Count.get selectCount labelName))
            else element)
         (labels d))
    d.

(** [clientSelectMain(type)].  For a type that [selectList] only
    inherits, [.length] is the number of parameters of the built-in
    function, and that function is what [selectInMain] is called with;
    the prototype object has no [length], and [undefined > 0] is false.
    For any other type [selectList[type]] is [undefined] and reading
    [.length] throws: [None]. *)
Definition clientSelectMain (type : string) (w : window) : option (list call) :=
  match Select.get (selectList w) type with
  | JS.Own l => Some (if (0 <? length l)%nat then [selectInMain l] else [])
  | JS.Inherited name =>
      Some (match JS.nativeLength name with
            | Some n => if (0 <? n)%nat then [selectInMainBuiltin name] else []
            | None => []
            end)
  | JS.Undefined => None
  end.

(** The [fromMain_collectionName] callback. *)
Definition fromMain_collectionName (mc : modCollect) (w : window)
    : window * list call :=
  let thisCollection := collectKey mc in
  let d := dom w in
  let d := Document
             (shown id (JS.get (collectionToName mc) (JS.toKey thisCollection)))
             (shown id (JS.get (collectionToFolderRelative mc)
                               (JS.toKey thisCollection)))
             (modListHTML d) (labels d) (checkboxes d) in
  (Window thisCollection (selectList w) (selectCount w) d, [processL10N]).

(** *** The [fromMain_saveInfo] callback *)

(** What the loop over the sorted names carries: the two module objects,
    the local [modSetHTML], and (for the statements below only) the
    records derived so far. *)
Record pass : Type := Pass {
  pass_selectList  : Select.t;
  pass_selectCount : Count.t;
  pass_modSetHTML  : list item;
  pass_derived     : list (string * modDetail);
}.

(** How a call of the handler ends: it runs to its last line, it leaves
    through the [return] of line 74, or it throws: reading [.mods] of an
    unknown collection at line 66, or reading through an inherited
    property at line 103 or 111. *)
Inductive status : Type := Completed | Returned | Threw.

Record outcome : Type := Outcome {
  how      : status;
  records  : list (string * modDetail);
  rendered : list item;
  calls    : list call;
  after    : window;
}.

(** Lines 66 to 69, [haveModSet]: the records by short name, a later
    record replacing an earlier one of the same name.  Under the name
    [__proto__] the map holds the record that line 67 made the prototype
    of the object (see [haveGet]). *)
Definition haveModSetOf (mods : list modRecord) : gmap string modRecord :=
  fold_left (fun have thisMod => <[shortName thisMod := thisMod]> have) mods ∅.

Definition fullModSetOf (mods : list modRecord) (savegame : savegame)
    : list string :=
  let fullModSet :=
    fold_left (fun s thisMod => JS.Set_add (shortName thisMod) s) mods [] in
  fold_left (fun s thisMod => JS.Set_add thisMod s)
            (map_to_list (save_mods savegame)).*1 fullModSet.

Definition sortedNames (mods : list modRecord) (savegame : savegame)
    : list string :=
  JS.sort (fullModSetOf mods savegame).

Definition errorItem (errorList : list (string * string)) : item :=
  let errors :=
    map (fun error : string * string =>
           "<l10n name=" +:+ JS.dquote +:+ error.1 +:+ JS.dquote
             +:+ "></l10n> " +:+ error.2)
        errorList in
  savegame_error (JS.join ", " errors).

(** The loop variables as lines 41 to 64 leave them. *)
Definition passStart (savegame : savegame) : pass :=
  Pass Select.empty Count.zero
       (if (0 <? length (errorList savegame))%nat
        then [errorItem (errorList savegame)] else [])
       [].

(** The properties of an installed mod's record, those of [modRecord]. *)
Definition modRecordProps : list string :=
  ["fileDetail"; "modDesc"; "l10n"; "uuid"].

(** [haveModSet[thisMod]].  The object starts as [{}], so besides the
    keys stored at line 67 it knows what [Object.prototype] holds.  The
    assignment [haveModSet['__proto__'] = thisMod] stores no key: it
    makes the record the prototype of [haveModSet], so that the name
    reads back as the record (as the map has it) and the record's own
    properties are inherited as well. *)
Definition haveGet (haveModSet : gmap string modRecord) (thisMod : string)
    : JS.property modRecord :=
  match haveModSet !! thisMod with
  | Some have => JS.Own have
  | None =>
      if JS.includes JS.prototypeNames thisMod then JS.Inherited thisMod
      else if bool_decide (is_Some (haveModSet !! "__proto__"))
              && JS.includes modRecordProps thisMod
      then JS.Inherited thisMod
      else JS.Undefined
  end.

(** Whether lines 75 to 128 throw for [thisMod].  An inherited
    [savegame.mods[thisMod]] passes the test of line 98, has no [farms],
    and reading [.size] of [undefined] throws (line 103); an inherited
    [haveModSet[thisMod]] passes the test of line 108, has no [modDesc],
    and reading [.storeItems] of [undefined] throws (line 111).  Nothing
    is pushed or counted before line 130. *)
Definition throwsAt (mc : modCollect) (haveModSet : gmap string modRecord)
    (thisMod : string) : bool :=
  match JS.get (save_mods (thisSaveGame mc)) thisMod with
  | JS.Inherited _ => true
  | _ =>
      match haveGet haveModSet thisMod with
      | JS.Inherited _ => true
      | _ => false
      end
  end.

Section Handler.
Variable escapeSpecial : string -> string.

(** Lines 75 to 147 when they run to their end. *)
Definition loopBody (mc : modCollect) (thisCollection : option string)
    (haveModSet : gmap string modRecord) (thisMod : string) (p : pass) : pass :=
  let savegame := thisSaveGame mc in
  let d := thisModDetail escapeSpecial mc haveModSet thisMod in
  let thisUUID := have ← haveModSet !! thisMod; uuid have in
  let sl := pass_selectList p in
  let sl :=
    match thisUUID with
    | Some thisUUID =>
        let key := JS.toKey thisCollection +:+ "--" +:+ thisUUID in
        let sl := if negb (isUsed d) then Select.push_unused key sl else sl in
        let sl := if negb (isLoaded d) then Select.push_inactive key sl else sl in
        let sl := if negb (isModHub d) then Select.push_nohub key sl else sl in
        let sl := if isLoaded d then Select.push_active key sl else sl in
        sl
    | None => sl
    end in
  let '(line, sc) :=
    makeLine thisMod d (singleFarm savegame) (JS.get (modHub mc) thisMod)
             (pass_selectCount p) in
  Pass sl sc (pass_modSetHTML p ++ [line]) (pass_derived p ++ [(thisMod, d)]).

(** The body of the loop after line 74: [None] when it throws. *)
Definition eachMod (mc : modCollect) (thisCollection : option string)
    (haveModSet : gmap string modRecord) (thisMod : string) (p : pass)
    : option pass :=
  if throwsAt mc haveModSet thisMod then None
  else Some (loopBody mc thisCollection haveModSet thisMod p).

(** [for ( const thisMod of ... )]: how the loop was left, and the loop
    variables at that point. *)
Fixpoint forEachMod (mc : modCollect) (thisCollection : option string)
    (haveModSet : gmap string modRecord) (names : list string) (p : pass)
    : status * pass :=
  match names with
  | [] => (Completed, p)
  | thisMod :: rest =>
      if JS.endsWith thisMod ".csv" then (Returned, p)
      else match eachMod mc thisCollection haveModSet thisMod p with
           | None => (Threw, p)
           | Some p => forEachMod mc thisCollection haveModSet rest p
           end
  end.

Definition fromMain_saveInfo (mc : modCollect) (w : window) : outcome :=
  let savegame := thisSaveGame mc in
  let selectList := Select.empty in
  let selectCount := Count.zero in
  let modSetHTML :=
    if (0 <? length (errorList savegame))%nat
    then [errorItem (errorList savegame)] else [] in
  match modList mc !! JS.toKey (thisCollection w) with
  | None =>
      Outcome Threw [] modSetHTML []
              (Window (thisCollection w) selectList selectCount (dom w))
  | Some mods =>
      let haveModSet := haveModSetOf mods in
      match forEachMod mc (thisCollection w) haveModSet
              (sortedNames mods savegame)
              (Pass selectList selectCount modSetHTML []) with
      | (Completed, p) =>
          let d := set_modListHTML (parse (pass_modSetHTML p)) (dom w) in
          let selectList := pass_selectList p in
          let selectCount :=
            Count.set_lengths
              (length (Select.nohub selectList))
              (length (Select.inactive selectList))
              (length (Select.unused selectList))
              (length (Select.active selectList))
              (pass_selectCount p) in
          let d := updateCounts selectCount d in
          Outcome Completed (pass_derived p) (pass_modSetHTML p) [processL10N]
                  (Window (thisCollection w) selectList selectCount d)
      | (stopped, p) =>
          Outcome stopped (pass_derived p) (pass_modSetHTML p) []
                  (Window (thisCollection w) (pass_selectList p)
                          (pass_selectCount p) (dom w))
      end
  end.
End Handler.

(** Whether the loop ends at [thisMod]: at line 74, or by a throw. *)
Definition stopsAt (mc : modCollect) (haveModSet : gmap string modRecord)
    (thisMod : string) : bool :=
  JS.endsWith thisMod ".csv" || throwsAt mc haveModSet thisMod.

(** The names the loop gets past: those sorted before the first name it
    ends at. *)
Fixpoint reached (mc : modCollect) (haveModSet : gmap string modRecord)
    (names : list string) : list string :=
  match names with
  | [] => []
  | thisMod :: rest =>
      if stopsAt mc haveModSet thisMod then []
      else thisMod :: reached mc haveModSet rest
  end.

(** How the loop over [names] is left. *)
Fixpoint ending (mc : modCollect) (haveModSet : gmap string modRecord)
    (names : list string) : status :=
  match names with
  | [] => Completed
  | thisMod :: rest =>
      if JS.endsWith thisMod ".csv" then Returned
      else if throwsAt mc haveModSet thisMod then Threw
      else ending mc haveModSet rest
  end.

(** The name an entry was rendered for. *)
Definition itemName (it : item) : option string :=
  match it with
  | savegame_mod line => Some (Line.name line)
  | savegame_error _ => None
  end.

(** *** [clientChangeFilter] *)

Definition filters : list string :=
  ["dlc"; "missing"; "scriptonly"; "isloaded"; "isused"; "inactive";
   "unused"; "nohub"].

(** [fsgUtil.byId] among the check boxes. *)
Definition byId (id : string) (d : document) : option checkbox :=
  List.find (fun cb => String.eqb (cb_id cb) id) (checkboxes d).

(** Whether the check box of the filter [key] is in the page and checked. *)
Definition isChecked (d : document) (key : string) : bool :=
  match byId ("check_savegame_" +:+ key) d with
  | Some cb => cb_checked cb
  | None => false
  end.

(** The page holds the check box of every filter, each with the class
    [filter_only]. *)
Definition filterPage (d : document) : Prop :=
  forall key, key ∈ filters ->
    exists cb, byId ("check_savegame_" +:+ key) d = Some cb /\
               cb_filter_only cb = true.

(** [modItem.querySelector(`[name=...]`) !== null] *)
Definition hasBadge (line : Line.t) (badgeName : string) : bool :=
  existsb (fun b => String.eqb (badge_name b) badgeName) (Line.badges line).

(** [filters.filter((key) => byId(...).checked)]; [None] when one of the
    check boxes is not in the page and reading [.checked] throws. *)
Fixpoint activeFiltersOf (d : document) (keys : list string)
    : option (list string) :=
  match keys with
  | [] => Some []
  | key :: rest =>
      match byId ("check_savegame_" +:+ key) d with
      | None => None
      | Some cb =>
          match activeFiltersOf d rest with
          | None => None
          | Some rest' => Some (if cb_checked cb then key :: rest' else rest')
          end
      end
  end.

(** The inner loop with its [break]. *)
Definition allBadgesFound (line : Line.t) (activeFilters : list string) : bool :=
  forallb (fun thisFilter => hasBadge line ("savegame_" +:+ thisFilter))
          activeFilters.

Definition onModItems (f : Line.t -> bool -> bool) (l : list node) : list node :=
  map (fun n =>
         match content n with
         | savegame_mod line => Node (content n) (f line (d_none n))
         | savegame_error _ => n
         end) l.

Definition clientChangeFilter (d : document) : option document :=
  let filtersActive :=
    length (List.filter (fun cb => cb_filter_only cb && cb_checked cb)
                        (checkboxes d)) in
  if (filtersActive =? 0)%nat then
    Some (set_modListHTML (onModItems (fun _ _ => false) (modListHTML d)) d)
  else
    match activeFiltersOf d filters with
    | None => None
    | Some activeFilters =>
        Some (set_modListHTML
                (onModItems
                   (fun line _ => negb (allBadgesFound line activeFilters))
                   (modListHTML d))
                d)
    end.

End Savegame.

(** * Example data *)

Definition notes_example : Notes.window :=
  Notes.Window (Some "collection_1")
               "My mods"
               {[ "notes_username" := "old"; "notes_server" := "" ]}
               ["notes_title"]
               [].

Module Sample.
Import Savegame.

Definition installed (name version : string) (id : option string) : modRecord :=
  ModRecord name 3 0 (Some version) name id.

(** A first savegame: [alpha] is installed in another version and used
    by farm 1, [zeta] is the map, used by two farms and not installed. *)
Definition firstSave : savegame :=
  SaveGame []
    {[ "alpha" := SaveMod (Some "1.0.0.0") (Some "Alpha") ["1"];
       "zeta"  := SaveMod (Some "2.0.0.0") (Some "Zeta map") ["1"; "2"] ]}
    (Some "zeta") false.

Definition firstMods : list modRecord :=
  [installed "alpha" "1.1.0.0" (Some "uuid-a");
   installed "pdlc_pumps" "1.0.0.0" None].

Definition first : modCollect :=
  ModCollect (Some "col_1") firstSave {[ "col_1" := firstMods ]}
             {[ "alpha" := 42%Z ]} ∅ ∅.

(** A second savegame of the same collection, whose recorded mods hold
    a name with the reserved suffix. *)
Definition secondSave : savegame :=
  SaveGame []
    {[ "beta.csv" := SaveMod None None [];
       "zeta"     := SaveMod (Some "2.0.0.0") (Some "Zeta map") [] ]}
    None false.

Definition secondMods : list modRecord :=
  [installed "alpha" "1.1.0.0" (Some "uuid-a")].

Definition second : modCollect :=
  ModCollect (Some "col_1") secondSave {[ "col_1" := secondMods ]} ∅ ∅ ∅.

Definition page : document :=
  Document "" "" []
    [Label "check_savegame_isused" "0"; Label "check_savegame_active" "0"]
    [Checkbox "check_savegame_dlc" true false;
     Checkbox "check_savegame_missing" true false;
     Checkbox "check_savegame_scriptonly" true false;
     Checkbox "check_savegame_isloaded" true false;
     Checkbox "check_savegame_isused" true false;
     Checkbox "check_savegame_inactive" true false;
     Checkbox "check_savegame_unused" true false;
     Checkbox "check_savegame_nohub" true false].

Definition start : window :=
  Window (Some "col_1") Select.empty Count.zero page.

(** The page after the first savegame was rendered and the user checked
    the filters [isused] and [isloaded]. *)
Definition filtered : document :=
  let d := dom (after (fromMain_saveInfo id first start)) in
  Document (collection_name d) (collection_location d) (modListHTML d)
    (labels d)
    [Checkbox "check_savegame_dlc" true false;
     Checkbox "check_savegame_missing" true false;
     Checkbox "check_savegame_scriptonly" true false;
     Checkbox "check_savegame_isloaded" true true;
     Checkbox "check_savegame_isused" true true;
     Checkbox "check_savegame_inactive" true false;
     Checkbox "check_savegame_unused" true false;
     Checkbox "check_savegame_nohub" true false].
End Sample.

(** * The rest of the three files *)

(** ** The localization relay ([notes_ui.js], lines 18 to 32) *)

Module Relay.

(** An [l10n] element of the page: its [name] attribute and the text last
    written to it.  The elements are those of the page as loaded, none
    inside another; a text is taken to hold no markup of its own
    ([JS.noMarkup]), so that writing it adds no element. *)
Record l10nElement : Type := L10n {
  l10n_name : string;
  innerHTML : string;
}.

(** The names [clientGetL10NEntries] reads, in document order. *)
Definition names (page : list l10nElement) : list string :=
  l10n_name <$> page.

(** [.forEach((item) => { item.innerHTML = text })] on the elements of
    the page that are [matched]. *)
Definition forEach_innerHTML (matched : l10nElement -> bool) (text : string)
    (page : list l10nElement) : list l10nElement :=
  map (fun item => if matched item then L10n (l10n_name item) text else item)
      page.

Section Return.
(** The callback pastes the name between double quotes into the selector
    [l10n[name=...]].  For a plain name the selector is one attribute
    test and matches the elements of exactly that name.  For a name with
    a double quote, a backslash or a line break it is the engine that
    says what the pasted text means: [pasted name] is [None] for a
    syntax error, which [querySelectorAll] throws, and otherwise the
    test the selector makes of an element. *)
Variable pasted : string -> option (l10nElement -> bool).

Definition query (name : string) : option (l10nElement -> bool) :=
  if JS.plainBetween 34 name
  then Some (fun item => String.eqb (l10n_name item) name)
  else pasted name.

(** The [fromMain_getText_return] callback: [data[0]] is the name asked
    for, [data[1]] its text; every matched element takes the text.
    [None]: the selector was refused and the callback threw, the page
    being as before. *)
Definition fromMain_getText_return (data : string * string)
    (page : list l10nElement) : option (list l10nElement) :=
  matched ← query data.1;
  Some (forEach_innerHTML matched data.2 page).
End Return.

(** The [fromMain_l10n_refresh] callback. *)
Definition fromMain_l10n_refresh (w : Notes.window) : Notes.window :=
  Notes.processL10N w.

End Relay.

(** ** The preferences window preload (the first script of the bridge file) *)

Module Prefs.

(** An element of the page: whether it has the class [i18n], its
    [data-i18n] attribute ([None] when it has none, which [getAttribute]
    reads as null) and the text last written to it.  The elements are
    those of the page as loaded, none inside another; a text is taken to
    hold no markup of its own ([JS.noMarkup]), so that writing it adds
    no element. *)
Record element : Type := Element {
  class_i18n : bool;
  data_i18n  : option string;
  innerHTML  : string;
}.

(** Messages sent with [ipcRenderer.send]. *)
Inductive message : Type :=
| setMoveFolder
| i18n_translate (thisStringID : option string).

(** [ipc.chooseMoveFolder] *)
Definition chooseMoveFolder (outbox : list message) : list message :=
  outbox ++ [setMoveFolder].

(** [sendSet.add(x)], the members being strings or null. *)
Definition Set_add (x : option string) (s : list (option string))
    : list (option string) :=
  if bool_decide (x ∈ s) then s else s ++ [x].

(** The [trigger-i18n] listener. *)
Definition trigger_i18n (page : list element) (outbox : list message)
    : list message :=
  let sendSet :=
    fold_left (fun s item => Set_add (data_i18n item) s)
              (List.filter class_i18n page) [] in
  fold_left (fun out thisStringID => out ++ [i18n_translate thisStringID])
            sendSet outbox.

(** [changeThese.forEach((changeThis) => { changeThis.innerHTML = newText })]
    on the elements of the page that are among [changeThese]. *)
Definition forEach_innerHTML (changeThese : element -> bool) (newText : string)
    (page : list element) : list element :=
  map (fun changeThis =>
         if changeThese changeThis
         then Element (class_i18n changeThis) (data_i18n changeThis) newText
         else changeThis)
      page.

Section Return.
(** The listener pastes the id between single quotes into the selector
    [[data-i18n=...]].  For a plain id the selector is one attribute
    test, on the attribute alone.  For an id with a single quote, a
    backslash or a line break the engine says what the pasted text
    means: [pasted id] is [None] for a syntax error, which
    [querySelectorAll] throws, and otherwise the test the selector makes
    of an element. *)
Variable pasted : string -> option (element -> bool).

Definition querySelectorAll (dataPoint : string) : option (element -> bool) :=
  if JS.plainBetween 39 dataPoint
  then Some (fun item => bool_decide (data_i18n item = Some dataPoint))
  else pasted dataPoint.

(** The [i18n-translate-return] listener.  [None]: the selector was
    refused and the listener threw, the page being as before. *)
Definition i18n_translate_return (dataPoint newText : string)
    (page : list element) : option (list element) :=
  changeThese ← querySelectorAll dataPoint;
  Some (forEach_innerHTML changeThese newText page).
End Return.

End Prefs.

(** ** Successive subscriptions, and what a pass selects and counts *)

Module Pages.

Section Subscribe.
Variables (event arg effect : Type).

(** The page calling [l10n.receive] once per pair, in order. *)
Definition l10n_subscribe (subs : list (string * Bridge.callback arg effect))
    (ipc : Bridge.ipcRenderer event arg effect)
    : Bridge.ipcRenderer event arg effect :=
  fold_left (fun ipc sub => Bridge.l10n_receive sub.1 sub.2 ipc) subs ipc.

(** The page calling [mods.receive] once per pair, in order. *)
Definition mods_subscribe (subs : list (string * Bridge.callback arg effect))
    (ipc : Bridge.ipcRenderer event arg effect)
    : Bridge.ipcRenderer event arg effect :=
  fold_left (fun ipc sub => Bridge.mods_receive sub.1 sub.2 ipc) subs ipc.
End Subscribe.

Arguments l10n_subscribe {event arg effect}.
Arguments mods_subscribe {event arg effect}.

(** The key pushed for [thisMod] at lines 130 to 145, when it has one. *)
Definition selectKey (thisCollection : option string)
    (haveModSet : gmap string Savegame.modRecord) (thisMod : string)
    : option string :=
  match haveModSet !! thisMod ≫= Savegame.uuid with
  | Some thisUUID => Some (JS.toKey thisCollection +:+ "--" +:+ thisUUID)
  | None => None
  end.

(** The keys of the records that satisfy [cond], in order. *)
Definition keysWhere (cond : Savegame.modDetail -> bool)
    (thisCollection : option string)
    (haveModSet : gmap string Savegame.modRecord)
    (records : list (string * Savegame.modDetail)) : list string :=
  omap (fun r : string * Savegame.modDetail =>
          if cond r.2 then selectKey thisCollection haveModSet r.1 else None)
       records.

(** How many records satisfy [cond]. *)
Definition countWhere (cond : Savegame.modDetail -> bool)
    (records : list (string * Savegame.modDetail)) : nat :=
  length (List.filter (fun r : string * Savegame.modDetail => cond r.2) records).

(** The nine names [selectCount] has a counter for. *)
Definition counterNames : list string :=
  ["dlc"; "missing"; "scriptonly"; "isloaded"; "isused"; "inactive";
   "unused"; "nohub"; "active"].

(** A filter check box of the page is checked and carries [filter_only]. *)
Definition someFilterChecked (d : Savegame.document) : bool :=
  existsb (fun cb => Savegame.cb_filter_only cb && Savegame.cb_checked cb)
          (Savegame.checkboxes d).

(** An entry carries exactly one of the badges [unused] and [isused], and
    exactly one of [inactive] and [isloaded]. *)
Definition oppositeBadges (it : Savegame.item) : Prop :=
  match it with
  | Savegame.savegame_mod line =>
      Savegame.hasBadge line "savegame_unused"
        = negb (Savegame.hasBadge line "savegame_isused") /\
      Savegame.hasBadge line "savegame_inactive"
        = negb (Savegame.hasBadge line "savegame_isloaded")
  | Savegame.savegame_error _ => True
  end.

End Pages.

(** ** More sample data *)

Module More.
Import Savegame.

(** A window whose current collection no snapshot below knows. *)
Definition elsewhere : window :=
  Window (Some "col_9") (Select.Make ["col_9--x"] [] [] [])
         (Count.Make 0 0 0 0 0 1 0 0 0) Sample.page.

(** The first savegame with two errors reported by the host. *)
Definition withErrors : modCollect :=
  ModCollect (Some "col_1")
    (SaveGame [("SAVEGAME_UNREADABLE", "careerSavegame.xml");
               ("SAVEGAME_UNREADABLE", "farms.xml")]
       (save_mods Sample.firstSave) (mapMod Sample.firstSave) false)
    {[ "col_1" := Sample.firstMods ]} {[ "alpha" := 42%Z ]} ∅ ∅.

(** A collection with a mod the savegame does not load and a script-only
    mod it loads without any farm using it. *)
Definition idleMods : list modRecord :=
  [ModRecord "idle" 4 0 (Some "1.0.0.0") "Idle" (Some "uuid-i");
   ModRecord "script" 0 2 (Some "1.0.0.0") "Script" (Some "uuid-s");
   ModRecord "loose" 1 0 (Some "1.0.0.0") "Loose" None].

(** The page with the filters [isused] and [unused] both checked. *)
Definition contradictory : window :=
  Window (Some "col_1") Select.empty Count.zero
    (Document "" "" [] []
       [Checkbox "check_savegame_dlc" true false;
        Checkbox "check_savegame_missing" true false;
        Checkbox "check_savegame_scriptonly" true false;
        Checkbox "check_savegame_isloaded" true false;
        Checkbox "check_savegame_isused" true true;
        Checkbox "check_savegame_inactive" true false;
        Checkbox "check_savegame_unused" true true;
        Checkbox "check_savegame_nohub" true false]).

(** A savegame of the second sample collection that records a mod named
    like a member of [Object.prototype], which the collection does not
    hold, and a name with the reserved suffix. *)
Definition builtin : modCollect :=
  ModCollect (Some "col_1")
    (SaveGame []
       {[ "constructor" := SaveMod (Some "1.0.0.0") (Some "Constructor") [];
          "x.csv"       := SaveMod None None [] ]}
       None false)
    {[ "col_1" := Sample.secondMods ]} ∅ ∅ ∅.

(** Notes stored by the host: the second collection has a user name and
    no server. *)
Definition allNotes : gmap string (gmap string string) :=
  {[ "collection_2" := {[ "notes_username" := "giants" ]} ]}.

(** An engine whose built-ins have no member of any name. *)
Definition noMember (name id : string) : option (option string) := Some None.

(** A page with two elements of one name and one of another. *)
Definition texts : list Relay.l10nElement :=
  [Relay.L10n "title" ""; Relay.L10n "save" ""; Relay.L10n "title" "old"].

(** A page where the id [app_title] is on an element with the class and
    on one without it. *)
Definition prefsPage : list Prefs.element :=
  [Prefs.Element true (Some "app_title") "";
   Prefs.Element false (Some "app_title") "";
   Prefs.Element true (Some "it's") "";
   Prefs.Element true None ""].

(** An engine that refuses every selector that is not one attribute test. *)
Definition refuseName (name : string) : option (Relay.l10nElement -> bool) :=
  None.

Definition refuseId (id : string) : option (Prefs.element -> bool) := None.

Definition idle : modCollect :=
  ModCollect (Some "col_1")
    (SaveGame [] {[ "script" := SaveMod (Some "1.0.0.0") (Some "Script") [] ]}
              None true)
    {[ "col_1" := idleMods ]} ∅
    {[ "col_1" := "My mods" ]} ∅.
End More.

(** * Properties *)

(** ** The bridge *)

Lemma includes_In (l : list string) (x : string) :
  JS.includes l x = true <-> In x l.
Proof.
  unfold JS.includes. rewrite existsb_exists. split.
  - intros (y & Hy & Heq). apply String.eqb_eq in Heq. by subst.
  - intros Hx. exists x. split; [done | apply String.eqb_refl].
Qed.

Lemma includes_not_In (l : list string) (x : string) :
  JS.includes l x = false <-> ~ In x l.
Proof.
  rewrite <- includes_In. destruct (JS.includes l x); split; congruence.
Qed.

Section BridgeFacts.
Context {event arg effect : Type}.
Implicit Types (func : Bridge.callback arg effect)
               (ipc : Bridge.ipcRenderer event arg effect).

Lemma l10n_receive_cases channel func ipc :
  (In channel Bridge.l10n_validChannels /\
   Bridge.l10n_receive channel func ipc
     = ipc ++ [Bridge.Listener channel (Bridge.forward func)])
  \/
  (~ In channel Bridge.l10n_validChannels /\
   Bridge.l10n_receive channel func ipc = ipc).
Proof.
  unfold Bridge.l10n_receive, Bridge.ipcRenderer_on.
  destruct (JS.includes Bridge.l10n_validChannels channel) eqn:E.
  - left. by apply includes_In in E.
  - right. by apply includes_not_In in E.
Qed.

Lemma mods_receive_cases channel func ipc :
  (In channel Bridge.mods_validChannels /\
   Bridge.mods_receive channel func ipc
     = ipc ++ [Bridge.Listener channel (Bridge.forward func)])
  \/
  (~ In channel Bridge.mods_validChannels /\
   Bridge.mods_receive channel func ipc = ipc).
Proof.
  unfold Bridge.mods_receive, Bridge.ipcRenderer_on.
  destruct (JS.includes Bridge.mods_validChannels channel) eqn:E.
  - left. by apply includes_In in E.
  - right. by apply includes_not_In in E.
Qed.
End BridgeFacts.

(** C8.  For both bridges of the preload script, [receive channel func]
    appends exactly one listener, for [channel] and forwarding to [func],
    when [channel] is in the bridge's hard-coded list of valid channels;
    for every other channel name the listener table is returned as it was.
    So a listener is registered if and only if the channel is allowed. *)
Theorem receive_registers_iff_allowed
    (event arg effect : Type) (channel : string)
    (func : Bridge.callback arg effect)
    (ipc : Bridge.ipcRenderer event arg effect) :
  ((In channel Bridge.l10n_validChannels /\
    Bridge.l10n_receive channel func ipc
      = ipc ++ [Bridge.Listener channel (Bridge.forward func)])
   \/
   (~ In channel Bridge.l10n_validChannels /\
    Bridge.l10n_receive channel func ipc = ipc))
  /\
  ((In channel Bridge.mods_validChannels /\
    Bridge.mods_receive channel func ipc
      = ipc ++ [Bridge.Listener channel (Bridge.forward func)])
   \/
   (~ In channel Bridge.mods_validChannels /\
    Bridge.mods_receive channel func ipc = ipc)).
Proof.
  split; [apply l10n_receive_cases | apply mods_receive_cases].
Qed.

(** A channel of another window is refused by the confirm window's bridge. *)
Example mods_receive_refuses_saveInfo :
  Bridge.mods_receive (event := unit) (arg := unit) (effect := unit)
    "fromMain_saveInfo" (fun _ => tt) [] = [].
Proof. reflexivity. Qed.

(** ** The notes window *)

(** C7.  When the user edits the bound field [id] (an input of the page)
    to [value] and [clientSetNote id] runs, the call succeeds and adds
    exactly one call to those already made on the bridge: [setNote] with
    the field id, the new value and the current [thisCollection].  Nothing
    else in the window changes. *)
Theorem clientSetNote_sends_one_note (id value : string) (w : Notes.window) :
  is_Some (Notes.inputs w !! id) ->
  exists w',
    Notes.clientSetNote id (Notes.userEdit id value w) = Some w' /\
    Notes.sent w' =
      Notes.sent w ++ [Notes.setNote id value (Notes.thisCollection w)] /\
    Notes.thisCollection w' = Notes.thisCollection w /\
    Notes.inputs w' = <[id := value]> (Notes.inputs w).
Proof.
  intros [old Hold]. unfold Notes.clientSetNote, Notes.userEdit. simpl.
  rewrite lookup_alter_eq, Hold. simpl.
  eexists. split; [reflexivity |]. simpl. repeat split.
  apply map_eq. intros k. destruct (decide (k = id)) as [-> | Hk].
  - by rewrite lookup_alter_eq, lookup_insert_eq, Hold.
  - by rewrite lookup_alter_ne, lookup_insert_ne.
Qed.

Lemma clientSetNote_sends_one_note_witness :
  is_Some (Notes.inputs notes_example !! "notes_username") /\
  exists w',
    Notes.clientSetNote "notes_username"
      (Notes.userEdit "notes_username" "farmer" notes_example) = Some w' /\
    Notes.sent w' = [Notes.setNote "notes_username" "farmer" (Some "collection_1")] /\
    Notes.thisCollection w' = Some "collection_1" /\
    Notes.inputs w' = <[ "notes_username" := "farmer" ]> (Notes.inputs notes_example).
Proof.
  split.
  - exists "old". vm_compute. reflexivity.
  - apply (clientSetNote_sends_one_note "notes_username" "farmer" notes_example).
    exists "old". vm_compute. reflexivity.
Defined.

(** An id that is not in the page sends nothing: the handler throws. *)
Example clientSetNote_unbound :
  Notes.clientSetNote "nowhere" notes_example = None.
Proof. vm_compute. reflexivity. Qed.

(** ** The savegame window: the record of one name *)

Section DetailFacts.
Import Savegame.
Variable escapeSpecial : string -> string.
Implicit Types (mc : modCollect) (have : gmap string modRecord)
               (thisMod : string).

Lemma same_refl (a : string) : same a (Some a) = true.
Proof. apply String.eqb_refl. Qed.

Lemma thisModDetail_mapMod mc have thisMod :
  mapMod (thisSaveGame mc) = Some thisMod ->
  let d := thisModDetail escapeSpecial mc have thisMod in
  isUsed d = true /\ isLoaded d = true /\ usedBy d = None.
Proof.
  intros Hmap. unfold thisModDetail. rewrite Hmap, same_refl. simpl. done.
Qed.

Lemma thisModDetail_pdlc mc have thisMod :
  JS.startsWith thisMod "pdlc_" = true ->
  isPresent (thisModDetail escapeSpecial mc have thisMod) = true /\
  isDLC (thisModDetail escapeSpecial mc have thisMod) = true.
Proof.
  intros Hp. unfold thisModDetail. rewrite Hp.
  repeat case_match; split; reflexivity.
Qed.

Lemma thisModDetail_versionMismatch mc have thisMod m e v1 v2 :
  have !! thisMod = Some m ->
  save_mods (thisSaveGame mc) !! thisMod = Some e ->
  save_version e = Some v1 ->
  desc_version m = Some v2 ->
  versionMismatch (thisModDetail escapeSpecial mc have thisMod)
    = negb (String.eqb v1 v2).
Proof.
  intros Hm He Hv1 Hv2. unfold thisModDetail. rewrite Hm, He, Hv1, Hv2.
  repeat case_match; simpl in *; simplify_eq; congruence.
Qed.

(** A savegame entry without a version takes the installed version and
    is never flagged, whatever the installed version is. *)
Lemma thisModDetail_null_version mc have thisMod m e :
  have !! thisMod = Some m ->
  save_mods (thisSaveGame mc) !! thisMod = Some e ->
  save_version e = None ->
  versionMismatch (thisModDetail escapeSpecial mc have thisMod) = false /\
  version (thisModDetail escapeSpecial mc have thisMod) = desc_version m.
Proof.
  intros Hm He Hv. unfold thisModDetail. rewrite Hm, He, Hv.
  repeat case_match; simpl in *; simplify_eq; split; congruence.
Qed.
End DetailFacts.

Lemma makeLine_present (name : string) (d : Savegame.modDetail)
    (singleFarm : bool) (hubID : JS.property Z) (sc : Savegame.Count.t) :
  Savegame.isPresent d = true ->
  exists line sc',
    Savegame.makeLine name d singleFarm hubID sc
      = (Savegame.savegame_mod line, sc') /\
    Savegame.Line.name line = name /\
    Savegame.Line.colorClass line <> "list-group-item-danger" /\
    Savegame.hasBadge line "savegame_missing" = false /\
    Savegame.Count.missing sc' = Savegame.Count.missing sc.
Proof.
  destruct d as [t v so il iu ip dl ub vm mh]. simpl. intros ->.
  unfold Savegame.makeLine.
  destruct (Savegame.displayBadgeOf _ sc) as [db sc'] eqn:E.
  eexists _, _. split; [reflexivity |]. split; [reflexivity |].
  revert E.
  destruct so, il, iu, dl, vm, mh; vm_compute; intros [= <- <-]; done.
Qed.

(** C2.  Whatever the installed collection [have], the savegame's entries
    and their farms are, the record derived for the name that is the
    savegame's [mapMod] has [isUsed = true], [isLoaded = true] and
    [usedBy = null]. *)
Theorem mapMod_is_used_and_loaded
    (escapeSpecial : string -> string) (mc : Savegame.modCollect)
    (have : gmap string Savegame.modRecord) (thisMod : string) :
  Savegame.mapMod (Savegame.thisSaveGame mc) = Some thisMod ->
  let d := Savegame.thisModDetail escapeSpecial mc have thisMod in
  Savegame.isUsed d = true /\
  Savegame.isLoaded d = true /\
  Savegame.usedBy d = None.
Proof. apply thisModDetail_mapMod. Qed.

Lemma mapMod_is_used_and_loaded_witness :
  Savegame.mapMod (Savegame.thisSaveGame Sample.first) = Some "zeta" /\
  let d := Savegame.thisModDetail id Sample.first
             (Savegame.haveModSetOf Sample.firstMods) "zeta" in
  Savegame.isUsed d = true /\
  Savegame.isLoaded d = true /\
  Savegame.usedBy d = None.
Proof.
  split.
  - reflexivity.
  - apply (mapMod_is_used_and_loaded id Sample.first
             (Savegame.haveModSetOf Sample.firstMods) "zeta").
    reflexivity.
Defined.

(** C3.  For a name that has an installed mod [m] and a savegame entry
    [e], both carrying a version string, the derived record has
    [versionMismatch = true] when the two strings differ and
    [versionMismatch = false] when they are the same string. *)
Theorem versionMismatch_iff_versions_differ
    (escapeSpecial : string -> string) (mc : Savegame.modCollect)
    (have : gmap string Savegame.modRecord) (thisMod : string)
    (m : Savegame.modRecord) (e : Savegame.saveMod) (v1 v2 : string) :
  have !! thisMod = Some m ->
  Savegame.save_mods (Savegame.thisSaveGame mc) !! thisMod = Some e ->
  Savegame.save_version e = Some v1 ->
  Savegame.desc_version m = Some v2 ->
  let d := Savegame.thisModDetail escapeSpecial mc have thisMod in
  (v1 <> v2 -> Savegame.versionMismatch d = true) /\
  (v1 = v2 -> Savegame.versionMismatch d = false).
Proof.
  intros Hm He Hv1 Hv2 d. subst d.
  rewrite (thisModDetail_versionMismatch escapeSpecial mc have thisMod m e v1 v2)
    by assumption.
  destruct (String.eqb_spec v1 v2); simpl; split; congruence.
Qed.

Lemma versionMismatch_iff_versions_differ_witness :
  let have := Savegame.haveModSetOf Sample.firstMods in
  let m := Sample.installed "alpha" "1.1.0.0" (Some "uuid-a") in
  let e := Savegame.SaveMod (Some "1.0.0.0") (Some "Alpha") ["1"] in
  have !! "alpha" = Some m /\
  Savegame.save_mods (Savegame.thisSaveGame Sample.first) !! "alpha" = Some e /\
  Savegame.save_version e = Some "1.0.0.0" /\
  Savegame.desc_version m = Some "1.1.0.0" /\
  let d := Savegame.thisModDetail id Sample.first have "alpha" in
  ("1.0.0.0" <> "1.1.0.0" -> Savegame.versionMismatch d = true) /\
  ("1.0.0.0" = "1.1.0.0" -> Savegame.versionMismatch d = false).
Proof.
  intros have m e.
  assert (H1 : have !! "alpha" = Some m) by (vm_compute; reflexivity).
  assert (H2 : Savegame.save_mods (Savegame.thisSaveGame Sample.first)
                 !! "alpha" = Some e) by (vm_compute; reflexivity).
  assert (H3 : Savegame.save_version e = Some "1.0.0.0") by reflexivity.
  assert (H4 : Savegame.desc_version m = Some "1.1.0.0") by reflexivity.
  repeat (split; [assumption |]).
  exact (versionMismatch_iff_versions_differ id Sample.first have "alpha"
           m e "1.0.0.0" "1.1.0.0" H1 H2 H3 H4).
Defined.

(** C10.  For a name that starts with [pdlc_], whatever the installed
    collection and the savegame hold (so also when the name is in
    neither), the derived record has [isPresent = true]; the entry
    [makeLine] renders for it does not have the color class
    [list-group-item-danger], carries no [savegame_missing] badge, and
    leaves the [missing] counter as it was. *)
Theorem pdlc_is_present_never_missing
    (escapeSpecial : string -> string) (mc : Savegame.modCollect)
    (have : gmap string Savegame.modRecord) (thisMod : string)
    (singleFarm : bool) (hubID : JS.property Z) (sc : Savegame.Count.t) :
  JS.startsWith thisMod "pdlc_" = true ->
  let d := Savegame.thisModDetail escapeSpecial mc have thisMod in
  Savegame.isPresent d = true /\
  exists line sc',
    Savegame.makeLine thisMod d singleFarm hubID sc
      = (Savegame.savegame_mod line, sc') /\
    Savegame.Line.colorClass line <> "list-group-item-danger" /\
    Savegame.hasBadge line "savegame_missing" = false /\
    Savegame.Count.missing sc' = Savegame.Count.missing sc.
Proof.
  intros Hp d.
  destruct (thisModDetail_pdlc escapeSpecial mc have thisMod Hp) as [Hpres _].
  split; [exact Hpres |].
  destruct (makeLine_present thisMod d singleFarm hubID sc Hpres)
    as (line & sc' & Hl & _ & Hc & Hb & Hm).
  by exists line, sc'.
Qed.

(** The witness takes a DLC name that is neither installed nor recorded in
    the savegame. *)
Lemma pdlc_is_present_never_missing_witness :
  JS.startsWith "pdlc_forestry" "pdlc_" = true /\
  Sample.firstSave.(Savegame.save_mods) !! "pdlc_forestry" = None /\
  Savegame.haveModSetOf Sample.firstMods !! "pdlc_forestry" = None /\
  let d := Savegame.thisModDetail id Sample.first
             (Savegame.haveModSetOf Sample.firstMods) "pdlc_forestry" in
  Savegame.isPresent d = true /\
  exists line sc',
    Savegame.makeLine "pdlc_forestry" d false JS.Undefined Savegame.Count.zero
      = (Savegame.savegame_mod line, sc') /\
    Savegame.Line.colorClass line <> "list-group-item-danger" /\
    Savegame.hasBadge line "savegame_missing" = false /\
    Savegame.Count.missing sc' = Savegame.Count.missing Savegame.Count.zero.
Proof.
  split; [reflexivity |].
  split; [vm_compute; reflexivity |].
  split; [vm_compute; reflexivity |].
  apply (pdlc_is_present_never_missing id Sample.first
           (Savegame.haveModSetOf Sample.firstMods) "pdlc_forestry"
           false JS.Undefined Savegame.Count.zero).
  reflexivity.
Defined.

(** ** The savegame window: the loop over the sorted names *)

Lemma sortedNames_sorted (mods : list Savegame.modRecord) (sg : Savegame.savegame) :
  StronglySorted String.le (Savegame.sortedNames mods sg).
Proof. apply StronglySorted_merge_sort; apply _. Qed.

Lemma Set_add_elem_of (x y : string) (s : list string) :
  y ∈ JS.Set_add x s <-> y = x \/ y ∈ s.
Proof.
  unfold JS.Set_add. destruct (JS.includes s x) eqn:E.
  - apply includes_In, list_elem_of_In in E. split; [by right |].
    by intros [-> | H].
  - rewrite elem_of_app, list_elem_of_singleton. tauto.
Qed.

Lemma Set_add_NoDup (x : string) (s : list string) :
  NoDup s -> NoDup (JS.Set_add x s).
Proof.
  intros Hs. unfold JS.Set_add. destruct (JS.includes s x) eqn:E; [done |].
  apply includes_not_In in E. rewrite <- list_elem_of_In in E.
  apply NoDup_app. split; [done |]. split; [| apply NoDup_singleton].
  intros y Hy ->%list_elem_of_singleton. done.
Qed.

Lemma fold_Set_add_elem_of {A} (f : A -> string) (l : list A)
    (s : list string) (y : string) :
  y ∈ fold_left (fun s a => JS.Set_add (f a) s) l s <-> y ∈ f <$> l \/ y ∈ s.
Proof.
  revert s. induction l as [| a l IH]; intros s; simpl.
  - rewrite elem_of_nil. tauto.
  - rewrite IH, Set_add_elem_of, elem_of_cons. tauto.
Qed.

Lemma fold_Set_add_NoDup {A} (f : A -> string) (l : list A) (s : list string) :
  NoDup s -> NoDup (fold_left (fun s a => JS.Set_add (f a) s) l s).
Proof.
  revert s. induction l as [| a l IH]; intros s Hs; simpl; [done |].
  by apply IH, Set_add_NoDup.
Qed.

(** The sorted names are the union of the installed short names and the
    names recorded in the savegame, each once. *)
Lemma sortedNames_union (mods : list Savegame.modRecord)
    (sg : Savegame.savegame) (n : string) :
  n ∈ Savegame.sortedNames mods sg <->
  n ∈ Savegame.shortName <$> mods \/ is_Some (Savegame.save_mods sg !! n).
Proof.
  unfold Savegame.sortedNames, JS.sort. rewrite merge_sort_Permutation.
  unfold Savegame.fullModSetOf.
  rewrite (fold_Set_add_elem_of id), (fold_Set_add_elem_of Savegame.shortName).
  rewrite list_fmap_id, elem_of_nil.
  assert (n ∈ (map_to_list (Savegame.save_mods sg)).*1
          <-> is_Some (Savegame.save_mods sg !! n)) as ->.
  { rewrite list_elem_of_fmap. split.
    - intros ([k v] & -> & Hkv). apply elem_of_map_to_list in Hkv. by exists v.
    - intros [v Hv]. exists (n, v). split; [done |].
      by apply elem_of_map_to_list. }
  tauto.
Qed.

Lemma sortedNames_NoDup (mods : list Savegame.modRecord) (sg : Savegame.savegame) :
  NoDup (Savegame.sortedNames mods sg).
Proof.
  unfold Savegame.sortedNames, JS.sort. rewrite merge_sort_Permutation.
  unfold Savegame.fullModSetOf.
  apply (fold_Set_add_NoDup id), (fold_Set_add_NoDup Savegame.shortName).
  apply NoDup_nil_2.
Qed.

(** [haveModSet] keeps, for each short name, the last installed mod of
    that name. *)
Lemma haveModSetOf_lookup (mods : list Savegame.modRecord) (n : string)
    (m : Savegame.modRecord) :
  Savegame.haveModSetOf mods !! n = Some m ->
  m ∈ mods /\ Savegame.shortName m = n.
Proof.
  unfold Savegame.haveModSetOf.
  assert (forall (have : gmap string Savegame.modRecord),
            fold_left (fun have thisMod =>
                         <[Savegame.shortName thisMod := thisMod]> have)
                      mods have !! n = Some m ->
            (m ∈ mods /\ Savegame.shortName m = n) \/ have !! n = Some m) as H.
  { induction mods as [| a mods IH]; intros have Hl; simpl in Hl; [by right |].
    destruct (IH _ Hl) as [[Hin Hn] | Hins].
    - left. split; [by apply list_elem_of_further | done].
    - destruct (decide (Savegame.shortName a = n)) as [Heq | Hne].
      + rewrite <- Heq, lookup_insert_eq in Hins. simplify_eq.
        left. split; [apply list_elem_of_here | done].
      + rewrite lookup_insert_ne in Hins by done. by right. }
  intros Hl. destruct (H ∅ Hl) as [? | He]; [done |].
  by rewrite lookup_empty in He.
Qed.

Lemma haveModSetOf_is_Some (mods : list Savegame.modRecord) (n : string) :
  n ∈ Savegame.shortName <$> mods ->
  is_Some (Savegame.haveModSetOf mods !! n).
Proof.
  unfold Savegame.haveModSetOf.
  assert (forall (have : gmap string Savegame.modRecord),
            n ∈ Savegame.shortName <$> mods \/ is_Some (have !! n) ->
            is_Some (fold_left (fun have thisMod =>
                         <[Savegame.shortName thisMod := thisMod]> have)
                      mods have !! n)) as H.
  { induction mods as [| a mods IH]; intros have Hn; simpl.
    - destruct Hn as [Hn | Hn]; [by apply elem_of_nil in Hn | done].
    - apply IH. rewrite fmap_cons, elem_of_cons in Hn.
      destruct Hn as [[-> | Hn] | Hn]; [| by left |].
      + right. rewrite lookup_insert_eq. by eexists.
      + right. destruct (decide (Savegame.shortName a = n)) as [<- | Hne].
        * rewrite lookup_insert_eq. by eexists.
        * by rewrite lookup_insert_ne. }
  intros Hn. apply H. by left.
Qed.

Lemma stopsAt_false (mc : Savegame.modCollect)
    (have : gmap string Savegame.modRecord) (n : string) :
  Savegame.stopsAt mc have n = false <->
  JS.endsWith n ".csv" = false /\ Savegame.throwsAt mc have n = false.
Proof. unfold Savegame.stopsAt. apply orb_false_iff. Qed.

Lemma reached_all (mc : Savegame.modCollect)
    (have : gmap string Savegame.modRecord) (names : list string) :
  Forall (fun n => Savegame.stopsAt mc have n = false) names ->
  Savegame.reached mc have names = names /\
  Savegame.ending mc have names = Savegame.Completed.
Proof.
  induction 1 as [| n names Hn _ [IH1 IH2]]; [done |].
  simpl. rewrite Hn, IH1. apply stopsAt_false in Hn as [-> ->]. done.
Qed.

Lemma ending_Completed (mc : Savegame.modCollect)
    (have : gmap string Savegame.modRecord) (names : list string) :
  Savegame.ending mc have names = Savegame.Completed ->
  Forall (fun n => Savegame.stopsAt mc have n = false) names.
Proof.
  induction names as [| n names IH]; [by constructor |].
  simpl. destruct (JS.endsWith n ".csv") eqn:E1; [done |].
  destruct (Savegame.throwsAt mc have n) eqn:E2; [done |].
  intros H. constructor; [| by apply IH].
  by apply stopsAt_false.
Qed.

Lemma ending_csv (mc : Savegame.modCollect)
    (have : gmap string Savegame.modRecord) (names : list string) (c : string) :
  c ∈ names -> JS.endsWith c ".csv" = true ->
  Savegame.ending mc have names <> Savegame.Completed.
Proof.
  intros Hc Hcsv Hend. apply ending_Completed in Hend.
  rewrite Forall_forall in Hend. specialize (Hend c Hc).
  apply stopsAt_false in Hend as [? _]. congruence.
Qed.

(** In a sorted list the pass leaves through the [return] when nothing
    sorted up to a name with the suffix throws. *)
Lemma ending_Returned (mc : Savegame.modCollect)
    (have : gmap string Savegame.modRecord) (names : list string) (c : string) :
  StronglySorted String.le names ->
  c ∈ names -> JS.endsWith c ".csv" = true ->
  (forall m, m ∈ names -> String.le m c -> Savegame.throwsAt mc have m = false) ->
  Savegame.ending mc have names = Savegame.Returned.
Proof.
  induction 1 as [| x l Hl IH Hx]; intros Hc Hcsv Hthrow.
  - by apply elem_of_nil in Hc.
  - simpl. destruct (JS.endsWith x ".csv") eqn:Ex; [done |].
    apply elem_of_cons in Hc as [-> | Hc]; [congruence |].
    rewrite Forall_forall in Hx.
    rewrite (Hthrow x); [| by left | by apply Hx].
    apply IH; [done | done |].
    intros m Hm. apply Hthrow. by right.
Qed.

(** In a sorted list nothing at or after a name with the suffix is reached. *)
Lemma reached_before_csv (mc : Savegame.modCollect)
    (have : gmap string Savegame.modRecord) (names : list string) (c n : string) :
  StronglySorted String.le names ->
  c ∈ names -> JS.endsWith c ".csv" = true -> String.le c n ->
  n ∉ Savegame.reached mc have names.
Proof.
  induction 1 as [| x l Hl IH Hx]; intros Hc Hcsv Hle; [by apply not_elem_of_nil |].
  simpl. destruct (Savegame.stopsAt mc have x) eqn:Ex; [apply not_elem_of_nil |].
  apply stopsAt_false in Ex as [Ex _].
  apply elem_of_cons in Hc as [-> | Hc]; [congruence |].
  intros [-> | Hn]%elem_of_cons.
  - rewrite Forall_forall in Hx. specialize (Hx c Hc).
    assert (c = x) by (by apply (anti_symm String.le)). congruence.
  - by apply IH.
Qed.

Section LoopFacts.
Import Savegame.
Variable escapeSpecial : string -> string.
Variables (mc : modCollect) (tc : option string)
          (have : gmap string modRecord).


Lemma forEachMod_reached (names : list string) (p : pass) :
  forEachMod escapeSpecial mc tc have names p
    = (ending mc have names,
       fold_left (fun p thisMod => loopBody escapeSpecial mc tc have thisMod p)
                 (reached mc have names) p).
Proof.
  revert p. induction names as [| n names IH]; intros p; [done |].
  simpl. unfold stopsAt, eachMod.
  destruct (JS.endsWith n ".csv"); [done |]. simpl.
  destruct (throwsAt mc have n); [done |]. apply IH.
Qed.

Lemma loopBody_derived (thisMod : string) (p : pass) :
  pass_derived (loopBody escapeSpecial mc tc have thisMod p)
    = pass_derived p ++ [(thisMod, thisModDetail escapeSpecial mc have thisMod)].
Proof.
  unfold loopBody. destruct (makeLine _ _ _ _ _). reflexivity.
Qed.

Lemma loopBody_html (thisMod : string) (p : pass) :
  exists it,
    pass_modSetHTML (loopBody escapeSpecial mc tc have thisMod p)
      = pass_modSetHTML p ++ [it] /\
    itemName it = Some thisMod.
Proof.
  unfold loopBody, makeLine. destruct (displayBadgeOf _ _).
  eexists. split; reflexivity.
Qed.

Lemma loop_derived (names : list string) (p : pass) :
  (pass_derived (fold_left (fun p thisMod => loopBody escapeSpecial mc tc have thisMod p) names p)).*1 = (pass_derived p).*1 ++ names.
Proof.
  revert p. induction names as [| n names IH]; intros p; simpl.
  - by rewrite app_nil_r.
  - rewrite IH, loopBody_derived, fmap_app. simpl. by rewrite <- app_assoc.
Qed.

Lemma loop_html (names : list string) (p : pass) :
  exists its,
    pass_modSetHTML (fold_left (fun p thisMod => loopBody escapeSpecial mc tc have thisMod p) names p) = pass_modSetHTML p ++ its /\
    itemName <$> its = Some <$> names.
Proof.
  revert p. induction names as [| n names IH]; intros p; simpl.
  - exists []. by rewrite app_nil_r.
  - destruct (IH (loopBody escapeSpecial mc tc have n p)) as (its & -> & Hn).
    destruct (loopBody_html n p) as (it & -> & Hit).
    exists (it :: its). rewrite <- app_assoc. split; [done |].
    by rewrite !fmap_cons, Hit, Hn.
Qed.
End LoopFacts.

(** ** The savegame window: the handler *)

Lemma updateCounts_twice (sc sc' : Savegame.Count.t)
    (l l' : list Savegame.node) (d : Savegame.document) :
  Savegame.updateCounts sc
    (Savegame.set_modListHTML l
       (Savegame.updateCounts sc' (Savegame.set_modListHTML l' d)))
  = Savegame.updateCounts sc (Savegame.set_modListHTML l d).
Proof.
  unfold Savegame.updateCounts, Savegame.set_modListHTML, Savegame.set_labels.
  simpl. f_equal. rewrite map_map. apply map_ext. intros el.
  destruct (JS.startsWith (Savegame.for_ el) "check_savegame") eqn:E; simpl;
    by rewrite E.
Qed.

Section HandlerFacts.
Import Savegame.
Variable escapeSpecial : string -> string.
Implicit Types (mc : modCollect) (w : window).

(** The loop variables when the loop ends, for the collection [mods]. *)
Lemma saveInfo_known mc w mods :
  modList mc !! JS.toKey (thisCollection w) = Some mods ->
  let names := sortedNames mods (thisSaveGame mc) in
  let have := haveModSetOf mods in
  let p := fold_left
             (fun p thisMod =>
                loopBody escapeSpecial mc (thisCollection w) have thisMod p)
             (reached mc have names) (passStart (thisSaveGame mc)) in
  fromMain_saveInfo escapeSpecial mc w =
    match ending mc have names with
    | Completed =>
        let selectCount :=
          Count.set_lengths
            (length (Select.nohub (pass_selectList p)))
            (length (Select.inactive (pass_selectList p)))
            (length (Select.unused (pass_selectList p)))
            (length (Select.active (pass_selectList p)))
            (pass_selectCount p) in
        Outcome Completed (pass_derived p) (pass_modSetHTML p) [processL10N]
                (Window (thisCollection w) (pass_selectList p) selectCount
                        (updateCounts selectCount
                           (set_modListHTML (parse (pass_modSetHTML p)) (dom w))))
    | stopped =>
        Outcome stopped (pass_derived p) (pass_modSetHTML p) []
                (Window (thisCollection w) (pass_selectList p)
                        (pass_selectCount p) (dom w))
    end.
Proof.
  intros Hm names have p. unfold fromMain_saveInfo. rewrite Hm.
  fold (passStart (thisSaveGame mc)). fold names. fold have.
  rewrite forEachMod_reached. fold p.
  by destruct (ending mc have names).
Qed.

Lemma saveInfo_how mc w mods :
  modList mc !! JS.toKey (thisCollection w) = Some mods ->
  how (fromMain_saveInfo escapeSpecial mc w)
  = ending mc (haveModSetOf mods) (sortedNames mods (thisSaveGame mc)).
Proof.
  intros Hm. rewrite (saveInfo_known mc w mods Hm). cbv zeta.
  by destruct (ending _ _ _).
Qed.

Lemma saveInfo_thisCollection mc w :
  thisCollection (after (fromMain_saveInfo escapeSpecial mc w)) = thisCollection w.
Proof.
  unfold fromMain_saveInfo.
  destruct (modList mc !! _); [| done].
  by destruct (forEachMod _ _ _ _ _ _) as [[] ?].
Qed.

(** The document after a pass: untouched, or the list and the counters
    written once. *)
Lemma saveInfo_dom mc w :
  dom (after (fromMain_saveInfo escapeSpecial mc w)) = dom w \/
  exists sc l,
    dom (after (fromMain_saveInfo escapeSpecial mc w))
      = updateCounts sc (set_modListHTML l (dom w)).
Proof.
  unfold fromMain_saveInfo.
  destruct (modList mc !! _); [| by left].
  destruct (forEachMod _ _ _ _ _ _) as [[] ?]; [| by left | by left].
  right. by eexists _, _.
Qed.

(** What a pass leaves in the module variables and what it derives
    depends on the window through [thisCollection] alone. *)
Lemma saveInfo_reset mc w w' :
  thisCollection w' = thisCollection w ->
  let o := fromMain_saveInfo escapeSpecial mc w in
  let o' := fromMain_saveInfo escapeSpecial mc w' in
  how o' = how o /\ records o' = records o /\ rendered o' = rendered o /\
  calls o' = calls o /\
  selectList (after o') = selectList (after o) /\
  selectCount (after o') = selectCount (after o).
Proof.
  intros Htc. unfold fromMain_saveInfo. rewrite Htc.
  destruct (modList mc !! _); [| done].
  by destruct (forEachMod _ _ _ _ _ _) as [[] ?].
Qed.

Lemma saveInfo_twice mc w :
  after (fromMain_saveInfo escapeSpecial mc
           (after (fromMain_saveInfo escapeSpecial mc w)))
  = after (fromMain_saveInfo escapeSpecial mc w).
Proof.
  unfold fromMain_saveInfo at 1.
  rewrite saveInfo_thisCollection.
  unfold fromMain_saveInfo.
  destruct (modList mc !! _) eqn:Hm; [| done].
  destruct (forEachMod _ _ _ _ _ _) as [[] p] eqn:Hp; [| done | done].
  simpl. by rewrite updateCounts_twice.
Qed.

(** A pass that runs to its end gives the same outcome after any other
    pass as on the window that pass started from, and the list container
    then holds the entries it built. *)
Lemma saveInfo_completed_erases mc1 mc2 w :
  let o1 := fromMain_saveInfo escapeSpecial mc1 w in
  let o2 := fromMain_saveInfo escapeSpecial mc2 (after o1) in
  how o2 = Completed ->
  o2 = fromMain_saveInfo escapeSpecial mc2 w /\
  modListHTML (dom (after o2)) = parse (rendered o2).
Proof.
  intros o1 o2 Hhow. subst o2.
  set (w1 := after o1) in *.
  assert (Htc : thisCollection w1 = thisCollection w)
    by apply saveInfo_thisCollection.
  destruct (modList mc2 !! JS.toKey (thisCollection w)) as [mods |] eqn:Hm.
  - assert (Hm1 : modList mc2 !! JS.toKey (thisCollection w1) = Some mods)
      by (by rewrite Htc).
    rewrite (saveInfo_how mc2 w1 mods Hm1) in Hhow.
    rewrite (saveInfo_known mc2 w1 mods Hm1), (saveInfo_known mc2 w mods Hm).
    cbv zeta. rewrite Hhow, Htc. split; [| done].
    f_equal. f_equal.
    destruct (saveInfo_dom mc1 w) as [Hd | (sc & l & Hd)];
      fold o1 in Hd; fold w1 in Hd; rewrite Hd; [done |].
    apply updateCounts_twice.
  - exfalso. revert Hhow. unfold fromMain_saveInfo. by rewrite Htc, Hm.
Qed.
End HandlerFacts.

(** C4.  When the collection of the window is in the snapshot and the
    sorted union of names holds a name [c] that ends in [.csv], the pass
    does not run to its end: it leaves through the [return] of line 74,
    unless a name sorted before [c] made it throw even earlier.  Either
    way, for every name [n] that sorts at or after [c], no record was
    derived for [n], no entry for [n] is among the entries the pass
    built, and the list container is not written. *)
Theorem csv_halts_record_generation
    (escapeSpecial : string -> string) (mc : Savegame.modCollect)
    (w : Savegame.window) (mods : list Savegame.modRecord) (c n : string) :
  Savegame.modList mc !! JS.toKey (Savegame.thisCollection w) = Some mods ->
  c ∈ Savegame.sortedNames mods (Savegame.thisSaveGame mc) ->
  JS.endsWith c ".csv" = true ->
  String.le c n ->
  let o := Savegame.fromMain_saveInfo escapeSpecial mc w in
  Savegame.how o <> Savegame.Completed /\
  ((forall m, m ∈ Savegame.sortedNames mods (Savegame.thisSaveGame mc) ->
      String.le m c ->
      Savegame.throwsAt mc (Savegame.haveModSetOf mods) m = false) ->
   Savegame.how o = Savegame.Returned) /\
  (n ∉ (Savegame.records o).*1) /\
  (Some n ∉ (Savegame.itemName <$> Savegame.rendered o)) /\
  Savegame.modListHTML (Savegame.dom (Savegame.after o))
    = Savegame.modListHTML (Savegame.dom w).
Proof.
  intros Hm Hc Hcsv Hle o. subst o.
  rewrite (saveInfo_how escapeSpecial mc w mods Hm).
  split; [by apply (ending_csv _ _ _ c) |].
  split; [intros Hthrow; apply (ending_Returned _ _ _ c);
            [apply sortedNames_sorted | done | done | exact Hthrow] |].
  pose proof (ending_csv mc (Savegame.haveModSetOf mods) _ c Hc Hcsv) as Hend.
  rewrite (saveInfo_known escapeSpecial mc w mods Hm). cbv zeta.
  pose proof (reached_before_csv mc (Savegame.haveModSetOf mods) _ c n
                (sortedNames_sorted mods _) Hc Hcsv Hle) as Hn.
  assert (Hrec : n ∉ (Savegame.pass_derived
                        (fold_left
                           (fun p thisMod =>
                              Savegame.loopBody escapeSpecial mc
                                (Savegame.thisCollection w)
                                (Savegame.haveModSetOf mods) thisMod p)
                           (Savegame.reached mc (Savegame.haveModSetOf mods)
                              (Savegame.sortedNames mods (Savegame.thisSaveGame mc)))
                           (Savegame.passStart (Savegame.thisSaveGame mc)))).*1).
  { rewrite loop_derived. simpl. exact Hn. }
  assert (Hhtml : Some n ∉ Savegame.itemName <$>
                    Savegame.pass_modSetHTML
                        (fold_left
                           (fun p thisMod =>
                              Savegame.loopBody escapeSpecial mc
                                (Savegame.thisCollection w)
                                (Savegame.haveModSetOf mods) thisMod p)
                           (Savegame.reached mc (Savegame.haveModSetOf mods)
                              (Savegame.sortedNames mods (Savegame.thisSaveGame mc)))
                           (Savegame.passStart (Savegame.thisSaveGame mc)))).
  { destruct (loop_html escapeSpecial mc (Savegame.thisCollection w)
                (Savegame.haveModSetOf mods)
                (Savegame.reached mc (Savegame.haveModSetOf mods)
                   (Savegame.sortedNames mods (Savegame.thisSaveGame mc)))
                (Savegame.passStart (Savegame.thisSaveGame mc)))
      as (its & -> & Hits).
    rewrite fmap_app, Hits. intros [Hin | Hin]%elem_of_app.
    + unfold Savegame.passStart in Hin. simpl in Hin.
      destruct (0 <? _)%nat; simpl in Hin.
      * apply list_elem_of_singleton in Hin. discriminate.
      * by apply not_elem_of_nil in Hin.
    + apply list_elem_of_fmap in Hin as (n' & [= <-] & Hn'). by apply Hn. }
  destruct (Savegame.ending _ _ _); [done | |]; by repeat split.
Qed.

Example second_sortedNames :
  Savegame.sortedNames Sample.secondMods Sample.secondSave
    = ["alpha"; "beta.csv"; "zeta"].
Proof. vm_compute. reflexivity. Qed.

Lemma csv_halts_record_generation_witness :
  Savegame.modList Sample.second
    !! JS.toKey (Savegame.thisCollection Sample.start)
    = Some Sample.secondMods /\
  "beta.csv" ∈ Savegame.sortedNames Sample.secondMods
                 (Savegame.thisSaveGame Sample.second) /\
  JS.endsWith "beta.csv" ".csv" = true /\
  String.le "beta.csv" "zeta" /\
  let o := Savegame.fromMain_saveInfo id Sample.second Sample.start in
  Savegame.how o <> Savegame.Completed /\
  ((forall m, m ∈ Savegame.sortedNames Sample.secondMods
                    (Savegame.thisSaveGame Sample.second) ->
      String.le m "beta.csv" ->
      Savegame.throwsAt Sample.second
        (Savegame.haveModSetOf Sample.secondMods) m = false) ->
   Savegame.how o = Savegame.Returned) /\
  ("zeta" ∉ (Savegame.records o).*1) /\
  (Some "zeta" ∉ (Savegame.itemName <$> Savegame.rendered o)) /\
  Savegame.modListHTML (Savegame.dom (Savegame.after o))
    = Savegame.modListHTML (Savegame.dom Sample.start).
Proof.
  assert (H1 : Savegame.modList Sample.second
                 !! JS.toKey (Savegame.thisCollection Sample.start)
               = Some Sample.secondMods) by (vm_compute; reflexivity).
  assert (H2 : "beta.csv" ∈ Savegame.sortedNames Sample.secondMods
                              (Savegame.thisSaveGame Sample.second))
    by (apply (bool_decide_unpack _); vm_compute; exact I).
  assert (H3 : JS.endsWith "beta.csv" ".csv" = true) by reflexivity.
  assert (H4 : String.le "beta.csv" "zeta") by (vm_compute; exact I).
  repeat (split; [assumption |]).
  exact (csv_halts_record_generation id Sample.second Sample.start
           Sample.secondMods "beta.csv" "zeta" H1 H2 H3 H4).
Defined.

(** The example of the specification: the union alpha, beta.csv, zeta
    stops at beta.csv, and only alpha had its record derived. *)
Example second_records :
  (Savegame.records
     (Savegame.fromMain_saveInfo id Sample.second Sample.start)).*1
  = ["alpha"].
Proof. vm_compute. reflexivity. Qed.

(** A name inherited from [Object.prototype] that sorts before the name
    with the suffix ends the pass first, by a throw at line 111. *)
Example builtin_before_csv :
  Savegame.sortedNames Sample.secondMods (Savegame.thisSaveGame More.builtin)
    = ["alpha"; "constructor"; "x.csv"] /\
  let o := Savegame.fromMain_saveInfo id More.builtin Sample.start in
  Savegame.how o = Savegame.Threw /\
  (Savegame.records o).*1 = ["alpha"] /\
  Savegame.dom (Savegame.after o) = Savegame.dom Sample.start.
Proof. split; [| split; [| split]]; vm_compute; reflexivity. Qed.

(** C9.  When the collection of the window is in the snapshot and the
    sorted union of names holds a name [c] that ends in [.csv], the pass
    does not run to its end (it leaves through the [return], unless a
    name sorted before [c] made it throw even earlier), the whole
    document is as it was before the pass (the list container and every
    counter label included), and neither [updateCounts] nor
    [processL10N] was called. *)
Theorem csv_leaves_document_unchanged
    (escapeSpecial : string -> string) (mc : Savegame.modCollect)
    (w : Savegame.window) (mods : list Savegame.modRecord) (c : string) :
  Savegame.modList mc !! JS.toKey (Savegame.thisCollection w) = Some mods ->
  c ∈ Savegame.sortedNames mods (Savegame.thisSaveGame mc) ->
  JS.endsWith c ".csv" = true ->
  let o := Savegame.fromMain_saveInfo escapeSpecial mc w in
  Savegame.how o <> Savegame.Completed /\
  ((forall m, m ∈ Savegame.sortedNames mods (Savegame.thisSaveGame mc) ->
      String.le m c ->
      Savegame.throwsAt mc (Savegame.haveModSetOf mods) m = false) ->
   Savegame.how o = Savegame.Returned) /\
  Savegame.dom (Savegame.after o) = Savegame.dom w /\
  Savegame.calls o = [].
Proof.
  intros Hm Hc Hcsv o. subst o.
  rewrite (saveInfo_how escapeSpecial mc w mods Hm).
  split; [by apply (ending_csv _ _ _ c) |].
  split; [intros Hthrow; apply (ending_Returned _ _ _ c);
            [apply sortedNames_sorted | done | done | exact Hthrow] |].
  pose proof (ending_csv mc (Savegame.haveModSetOf mods) _ c Hc Hcsv) as Hend.
  rewrite (saveInfo_known escapeSpecial mc w mods Hm). cbv zeta.
  by destruct (Savegame.ending _ _ _).
Qed.

Lemma csv_leaves_document_unchanged_witness :
  let w := Savegame.after
             (Savegame.fromMain_saveInfo id Sample.first Sample.start) in
  Savegame.modList Sample.second !! JS.toKey (Savegame.thisCollection w)
    = Some Sample.secondMods /\
  "beta.csv" ∈ Savegame.sortedNames Sample.secondMods
                 (Savegame.thisSaveGame Sample.second) /\
  JS.endsWith "beta.csv" ".csv" = true /\
  let o := Savegame.fromMain_saveInfo id Sample.second w in
  Savegame.how o <> Savegame.Completed /\
  ((forall m, m ∈ Savegame.sortedNames Sample.secondMods
                    (Savegame.thisSaveGame Sample.second) ->
      String.le m "beta.csv" ->
      Savegame.throwsAt Sample.second
        (Savegame.haveModSetOf Sample.secondMods) m = false) ->
   Savegame.how o = Savegame.Returned) /\
  Savegame.dom (Savegame.after o) = Savegame.dom w /\
  Savegame.calls o = [].
Proof.
  intros w.
  assert (H1 : Savegame.modList Sample.second
                 !! JS.toKey (Savegame.thisCollection w)
               = Some Sample.secondMods) by (vm_compute; reflexivity).
  assert (H2 : "beta.csv" ∈ Savegame.sortedNames Sample.secondMods
                              (Savegame.thisSaveGame Sample.second))
    by (apply (bool_decide_unpack _); vm_compute; exact I).
  assert (H3 : JS.endsWith "beta.csv" ".csv" = true) by reflexivity.
  repeat (split; [assumption |]).
  exact (csv_leaves_document_unchanged id Sample.second w
           Sample.secondMods "beta.csv" H1 H2 H3).
Defined.

(** C6.  Two passes in a row on the same snapshot derive the same records,
    build the same entries and leave the same selection counts and
    selection lists (indeed the same window).  More generally what a pass
    derives and leaves in [selectList] and [selectCount] does not depend
    on what these variables and the document held before: they are reset
    before anything is read. *)
Theorem saveInfo_same_snapshot_same_result
    (escapeSpecial : string -> string) (mc : Savegame.modCollect)
    (w : Savegame.window) :
  let o1 := Savegame.fromMain_saveInfo escapeSpecial mc w in
  let o2 := Savegame.fromMain_saveInfo escapeSpecial mc (Savegame.after o1) in
  (Savegame.records o2 = Savegame.records o1 /\
   Savegame.rendered o2 = Savegame.rendered o1 /\
   Savegame.selectCount (Savegame.after o2)
     = Savegame.selectCount (Savegame.after o1) /\
   Savegame.selectList (Savegame.after o2)
     = Savegame.selectList (Savegame.after o1) /\
   Savegame.after o2 = Savegame.after o1)
  /\
  forall (sl : Savegame.Select.t) (sc : Savegame.Count.t)
         (d : Savegame.document),
    let o' := Savegame.fromMain_saveInfo escapeSpecial mc
                (Savegame.Window (Savegame.thisCollection w) sl sc d) in
    Savegame.records o' = Savegame.records o1 /\
    Savegame.rendered o' = Savegame.rendered o1 /\
    Savegame.selectCount (Savegame.after o')
      = Savegame.selectCount (Savegame.after o1) /\
    Savegame.selectList (Savegame.after o')
      = Savegame.selectList (Savegame.after o1).
Proof.
  intros o1 o2. split.
  - destruct (saveInfo_reset escapeSpecial mc w (Savegame.after o1)
                (saveInfo_thisCollection escapeSpecial mc w))
      as (_ & Hr & Hh & _ & Hl & Hc).
    repeat split; try assumption. apply saveInfo_twice.
  - intros sl sc d o'.
    destruct (saveInfo_reset escapeSpecial mc w
                (Savegame.Window (Savegame.thisCollection w) sl sc d) eq_refl)
      as (_ & Hr & Hh & _ & Hl & Hc).
    repeat split; assumption.
Qed.

(** C1, as amended.  When the second pass runs to its end (it neither
    leaves through the [return] at a name ending in [.csv] nor throws),
    it gives, after a pass on any first snapshot, the very outcome and
    window it gives without that first pass: the selection lists, the
    counts, the list container and the counter labels are those of the
    second snapshot, and the list container holds the entries the second
    pass built and nothing else. *)
Theorem completed_pass_replaces_first
    (escapeSpecial : string -> string) (mc1 mc2 : Savegame.modCollect)
    (w : Savegame.window) :
  let o1 := Savegame.fromMain_saveInfo escapeSpecial mc1 w in
  let o2 := Savegame.fromMain_saveInfo escapeSpecial mc2 (Savegame.after o1) in
  Savegame.how o2 = Savegame.Completed ->
  o2 = Savegame.fromMain_saveInfo escapeSpecial mc2 w /\
  Savegame.selectList (Savegame.after o2)
    = Savegame.selectList
        (Savegame.after (Savegame.fromMain_saveInfo escapeSpecial mc2 w)) /\
  Savegame.selectCount (Savegame.after o2)
    = Savegame.selectCount
        (Savegame.after (Savegame.fromMain_saveInfo escapeSpecial mc2 w)) /\
  Savegame.dom (Savegame.after o2)
    = Savegame.dom
        (Savegame.after (Savegame.fromMain_saveInfo escapeSpecial mc2 w)) /\
  Savegame.modListHTML (Savegame.dom (Savegame.after o2))
    = Savegame.parse (Savegame.rendered o2).
Proof.
  intros o1 o2 Hhow.
  destruct (saveInfo_completed_erases escapeSpecial mc1 mc2 w Hhow)
    as [Heq Hlist].
  fold o1 in Heq, Hlist. fold o2 in Heq, Hlist.
  rewrite <- Heq. by repeat split.
Qed.

(** The witness renders the first sample savegame, three entries, and
    then a savegame of the same collection with other mods. *)
Lemma completed_pass_replaces_first_witness :
  let o1 := Savegame.fromMain_saveInfo id Sample.first Sample.start in
  let o2 := Savegame.fromMain_saveInfo id More.idle (Savegame.after o1) in
  (Savegame.itemName ∘ Savegame.content)
    <$> Savegame.modListHTML (Savegame.dom (Savegame.after o1))
    = [Some "alpha"; Some "pdlc_pumps"; Some "zeta"] /\
  Savegame.how o2 = Savegame.Completed /\
  o2 = Savegame.fromMain_saveInfo id More.idle Sample.start /\
  Savegame.selectList (Savegame.after o2)
    = Savegame.selectList
        (Savegame.after (Savegame.fromMain_saveInfo id More.idle Sample.start)) /\
  Savegame.selectCount (Savegame.after o2)
    = Savegame.selectCount
        (Savegame.after (Savegame.fromMain_saveInfo id More.idle Sample.start)) /\
  Savegame.dom (Savegame.after o2)
    = Savegame.dom
        (Savegame.after (Savegame.fromMain_saveInfo id More.idle Sample.start)) /\
  Savegame.modListHTML (Savegame.dom (Savegame.after o2))
    = Savegame.parse (Savegame.rendered o2).
Proof.
  intros o1 o2.
  assert (H1 : Savegame.how o2 = Savegame.Completed)
    by (vm_compute; reflexivity).
  split; [vm_compute; reflexivity |].
  split; [assumption |].
  exact (completed_pass_replaces_first id Sample.first More.idle
           Sample.start H1).
Defined.

(** C1, as stated, fails: the second snapshot below holds the name
    beta.csv, its pass leaves through the [return], and the list container
    and the counter labels still show the first snapshot (the entry of
    pdlc_pumps, a name the second snapshot does not know), unlike what the
    second pass gives on a window that never saw the first snapshot. *)
Lemma csv_second_pass_keeps_first_content :
  let o1 := Savegame.fromMain_saveInfo id Sample.first Sample.start in
  let o2 := Savegame.fromMain_saveInfo id Sample.second (Savegame.after o1) in
  Savegame.how o1 = Savegame.Completed /\
  Savegame.how o2 = Savegame.Returned /\
  Savegame.modListHTML (Savegame.dom (Savegame.after o2))
    = Savegame.parse (Savegame.rendered o1) /\
  (Savegame.itemName ∘ Savegame.content)
    <$> Savegame.modListHTML (Savegame.dom (Savegame.after o2))
    = [Some "alpha"; Some "pdlc_pumps"; Some "zeta"] /\
  Savegame.sortedNames Sample.secondMods Sample.secondSave
    = ["alpha"; "beta.csv"; "zeta"] /\
  Savegame.labels (Savegame.dom (Savegame.after o2))
    = [Savegame.Label "check_savegame_isused" "2";
       Savegame.Label "check_savegame_active" "1"] /\
  Savegame.after o2
    <> Savegame.after (Savegame.fromMain_saveInfo id Sample.second Sample.start).
Proof.
  intros o1 o2.
  split; [vm_compute; reflexivity |].
  split; [vm_compute; reflexivity |].
  split; [vm_compute; reflexivity |].
  split; [vm_compute; reflexivity |].
  split; [vm_compute; reflexivity |].
  split; [vm_compute; reflexivity |].
  intros H.
  apply (f_equal (fun w => length (Savegame.modListHTML (Savegame.dom w)))) in H.
  vm_compute in H. discriminate.
Qed.

(** ** The savegame window: filtering *)

Section FilterFacts.
Import Savegame.
Implicit Types (d : document) (line : Line.t).

Lemma activeFiltersOf_checked d (keys : list string) :
  (forall key, key ∈ keys ->
     is_Some (byId ("check_savegame_" +:+ key) d)) ->
  activeFiltersOf d keys = Some (List.filter (isChecked d) keys).
Proof.
  induction keys as [| key keys IH]; intros Hk; [done |].
  simpl. unfold isChecked at 1.
  destruct (Hk key) as [cb Hcb]; [apply list_elem_of_here |].
  rewrite Hcb, IH; [done |].
  intros k Hin. apply Hk. by apply list_elem_of_further.
Qed.

Lemma none_checked d :
  filterPage d ->
  length (List.filter (fun cb => cb_filter_only cb && cb_checked cb)
                      (checkboxes d)) = 0 ->
  forall key, key ∈ filters -> isChecked d key = false.
Proof.
  intros Hpage Hlen key Hkey. apply length_zero_iff_nil in Hlen.
  destruct (Hpage key Hkey) as (cb & Hcb & Hfo).
  unfold isChecked. rewrite Hcb.
  destruct (cb_checked cb) eqn:Hch; [| done].
  apply find_some in Hcb as [Hin _].
  assert (In cb (List.filter (fun cb => cb_filter_only cb && cb_checked cb)
                             (checkboxes d))) as Hf.
  { apply filter_In. split; [done |]. by rewrite Hfo, Hch. }
  rewrite Hlen in Hf. destruct Hf.
Qed.

Lemma allBadgesFound_filter d line :
  allBadgesFound line (List.filter (isChecked d) filters) = true <->
  forall key, key ∈ filters -> isChecked d key = true ->
              hasBadge line ("savegame_" +:+ key) = true.
Proof.
  unfold allBadgesFound. rewrite forallb_forall. split.
  - intros H key Hin Hch. apply H, filter_In. split; [| done].
    by apply list_elem_of_In.
  - intros H key [Hin Hch]%filter_In. apply H; [| done].
    by apply list_elem_of_In.
Qed.

Lemma onModItems_lookup (f : Line.t -> bool -> bool) (l : list node)
    (i : nat) (n : node) line :
  l !! i = Some n -> content n = savegame_mod line ->
  onModItems f l !! i = Some (Node (content n) (f line (d_none n))).
Proof.
  intros Hi Hc. unfold onModItems.
  change (map ?g l) with (g <$> l).
  rewrite list_lookup_fmap, Hi. simpl. by rewrite Hc.
Qed.
Lemma onModItems_elem_of (f : Line.t -> bool -> bool) (l : list node)
    (n' : node) line :
  n' ∈ onModItems f l -> content n' = savegame_mod line ->
  exists n, n ∈ l /\ content n = savegame_mod line /\
            d_none n' = f line (d_none n).
Proof.
  unfold onModItems. change (map ?g l) with (g <$> l).
  intros (n & -> & Hn)%list_elem_of_fmap Hc. exists n.
  destruct (content n) eqn:E; simpl in Hc; [congruence |].
  by simplify_eq.
Qed.

Lemma onModItems_length (f : Line.t -> bool -> bool) (l : list node) :
  length (onModItems f l) = length l.
Proof. apply length_map. Qed.
End FilterFacts.

Lemma clientChangeFilter_shown (d : Savegame.document) :
  Savegame.filterPage d ->
  exists d',
    Savegame.clientChangeFilter d = Some d' /\
    length (Savegame.modListHTML d') = length (Savegame.modListHTML d) /\
    (forall i n line,
       Savegame.modListHTML d !! i = Some n ->
       Savegame.content n = Savegame.savegame_mod line ->
       exists n',
         Savegame.modListHTML d' !! i = Some n' /\
         Savegame.content n' = Savegame.content n /\
         (Savegame.d_none n' = false <->
          forall key, key ∈ Savegame.filters ->
            Savegame.isChecked d key = true ->
            Savegame.hasBadge line ("savegame_" +:+ key) = true)) /\
    ((forall key, key ∈ Savegame.filters -> Savegame.isChecked d key = false) ->
     forall n' line,
       n' ∈ Savegame.modListHTML d' ->
       Savegame.content n' = Savegame.savegame_mod line ->
       Savegame.d_none n' = false).
Proof.
  intros Hpage. unfold Savegame.clientChangeFilter.
  destruct (length _ =? 0)%nat eqn:E.
  - apply Nat.eqb_eq in E. pose proof (none_checked d Hpage E) as Hnone.
    eexists. split; [reflexivity |]. simpl.
    split; [apply onModItems_length |]. split.
    + intros i n line Hi Hc. eexists. split; [by eapply onModItems_lookup |].
      simpl. split; [done |]. split; [| done].
      intros _ key Hin Hch. rewrite (Hnone key Hin) in Hch. discriminate.
    + intros _ n' line Hin Hc.
      by destruct (onModItems_elem_of _ _ _ _ Hin Hc) as (n & _ & _ & ->).
  - rewrite activeFiltersOf_checked
      by (intros key Hk; destruct (Hpage key Hk) as (cb & -> & _); by eexists).
    eexists. split; [reflexivity |]. simpl.
    split; [apply onModItems_length |]. split.
    + intros i n line Hi Hc. eexists. split; [by eapply onModItems_lookup |].
      simpl. split; [done |].
      rewrite negb_false_iff. apply allBadgesFound_filter.
    + intros Hnone n' line Hin Hc.
      destruct (onModItems_elem_of _ _ _ _ Hin Hc) as (n & _ & _ & ->).
      apply negb_false_iff, allBadgesFound_filter.
      intros key Hk Hch. rewrite (Hnone key Hk) in Hch. discriminate.
Qed.

(** C5.  On a page that holds the check boxes of the eight filters
    [dlc], [missing], [scriptonly], [isloaded], [isused], [inactive],
    [unused] and [nohub], each with the class [filter_only],
    [clientChangeFilter] succeeds, keeps the entries and their order, and
    leaves every mod entry shown (without [d-none]) exactly when the
    entry carries the badge [savegame_<key>] of every one of the eight
    filters [key] that is checked; in particular every mod entry is shown
    when none of them is checked. *)
Theorem clientChangeFilter_all_checked_badges (d : Savegame.document) :
  (forall key, key ∈ ["dlc"; "missing"; "scriptonly"; "isloaded"; "isused";
                      "inactive"; "unused"; "nohub"] ->
     exists cb,
       Savegame.byId ("check_savegame_" +:+ key) d = Some cb /\
       Savegame.cb_filter_only cb = true) ->
  exists d',
    Savegame.clientChangeFilter d = Some d' /\
    length (Savegame.modListHTML d') = length (Savegame.modListHTML d) /\
    (forall i n line,
       Savegame.modListHTML d !! i = Some n ->
       Savegame.content n = Savegame.savegame_mod line ->
       exists n',
         Savegame.modListHTML d' !! i = Some n' /\
         Savegame.content n' = Savegame.content n /\
         (Savegame.d_none n' = false <->
          forall key, key ∈ ["dlc"; "missing"; "scriptonly"; "isloaded";
                             "isused"; "inactive"; "unused"; "nohub"] ->
            Savegame.isChecked d key = true ->
            Savegame.hasBadge line ("savegame_" +:+ key) = true)) /\
    ((forall key, key ∈ ["dlc"; "missing"; "scriptonly"; "isloaded";
                         "isused"; "inactive"; "unused"; "nohub"] ->
        Savegame.isChecked d key = false) ->
     forall n' line,
       n' ∈ Savegame.modListHTML d' ->
       Savegame.content n' = Savegame.savegame_mod line ->
       Savegame.d_none n' = false).
Proof. exact (clientChangeFilter_shown d). Qed.

Lemma clientChangeFilter_all_checked_badges_witness :
  (forall key, key ∈ ["dlc"; "missing"; "scriptonly"; "isloaded"; "isused";
                      "inactive"; "unused"; "nohub"] ->
     exists cb,
       Savegame.byId ("check_savegame_" +:+ key) Sample.filtered = Some cb /\
       Savegame.cb_filter_only cb = true) /\
  exists d',
    Savegame.clientChangeFilter Sample.filtered = Some d' /\
    length (Savegame.modListHTML d') = length (Savegame.modListHTML Sample.filtered) /\
    (forall i n line,
       Savegame.modListHTML Sample.filtered !! i = Some n ->
       Savegame.content n = Savegame.savegame_mod line ->
       exists n',
         Savegame.modListHTML d' !! i = Some n' /\
         Savegame.content n' = Savegame.content n /\
         (Savegame.d_none n' = false <->
          forall key, key ∈ ["dlc"; "missing"; "scriptonly"; "isloaded";
                             "isused"; "inactive"; "unused"; "nohub"] ->
            Savegame.isChecked Sample.filtered key = true ->
            Savegame.hasBadge line ("savegame_" +:+ key) = true)) /\
    ((forall key, key ∈ ["dlc"; "missing"; "scriptonly"; "isloaded";
                         "isused"; "inactive"; "unused"; "nohub"] ->
        Savegame.isChecked Sample.filtered key = false) ->
     forall n' line,
       n' ∈ Savegame.modListHTML d' ->
       Savegame.content n' = Savegame.savegame_mod line ->
       Savegame.d_none n' = false).
Proof.
  assert (Hpage : forall key,
            key ∈ ["dlc"; "missing"; "scriptonly"; "isloaded"; "isused";
                   "inactive"; "unused"; "nohub"] ->
            exists cb,
              Savegame.byId ("check_savegame_" +:+ key) Sample.filtered
                = Some cb /\
              Savegame.cb_filter_only cb = true).
  { intros key Hkey.
    repeat (apply elem_of_cons in Hkey as [-> | Hkey];
            [eexists; split; [vm_compute; reflexivity | reflexivity] |]).
    by apply not_elem_of_nil in Hkey. }
  split.
  - exact Hpage.
  - exact (clientChangeFilter_all_checked_badges Sample.filtered Hpage).
Defined.

(** With [isused] and [isloaded] checked the entry of pdlc_pumps, which
    bears neither badge, is hidden: the filters do hide. *)
Example filtered_hides_pdlc :
  exists d' n,
    Savegame.clientChangeFilter Sample.filtered = Some d' /\
    Savegame.modListHTML d' !! 1 = Some n /\
    Savegame.itemName (Savegame.content n) = Some "pdlc_pumps" /\
    Savegame.d_none n = true.
Proof. eexists _, _. repeat split; vm_compute; reflexivity. Qed.

(** With [isused] and [isloaded] checked, alpha and zeta (used and loaded)
    stay shown and pdlc_pumps (neither) is hidden. *)
Example filtered_shows_used_and_loaded :
  (fun n => (Savegame.itemName (Savegame.content n), Savegame.d_none n))
    <$> (default [] (Savegame.modListHTML
                       <$> Savegame.clientChangeFilter Sample.filtered))
  = [(Some "alpha", false); (Some "pdlc_pumps", true); (Some "zeta", false)].
Proof. vm_compute. reflexivity. Qed.

(** * Further properties *)

(** ** The record of one name, field by field *)

Section DetailFields.
Import Savegame.
Variable escapeSpecial : string -> string.
Implicit Types (mc : modCollect) (have : gmap string modRecord)
               (thisMod : string).

Lemma thisModDetail_flags mc have thisMod :
  let d := thisModDetail escapeSpecial mc have thisMod in
  let savegame := thisSaveGame mc in
  isDLC d = JS.startsWith thisMod "pdlc_" /\
  isPresent d =
    JS.startsWith thisMod "pdlc_" || bool_decide (is_Some (have !! thisMod)) /\
  isLoaded d =
    same thisMod (mapMod savegame)
    || bool_decide (is_Some (save_mods savegame !! thisMod)) /\
  scriptOnly d =
    match have !! thisMod with
    | Some m => (storeItems m <? 1)%Z && (0 <? scriptFiles m)%Z
    | None => false
    end /\
  isUsed d =
    same thisMod (mapMod savegame)
    || match save_mods savegame !! thisMod with
       | Some e => (0 <? length (save_farms e))%nat
       | None => false
       end
    || scriptOnly d && isLoaded d /\
  isModHub d = JS.defined (JS.get (modHub mc) thisMod).
Proof.
  unfold thisModDetail.
  destruct (JS.startsWith thisMod "pdlc_"),
           (same thisMod (mapMod (thisSaveGame mc))),
           (save_mods (thisSaveGame mc) !! thisMod) as [e |],
           (have !! thisMod) as [m |]; simpl;
    repeat case_match; simpl in *; simplify_eq; repeat split;
    try reflexivity; try (symmetry; by apply bool_decide_eq_true_2; eexists);
    try (symmetry; apply bool_decide_eq_false_2; by intros [? ?]).
Qed.

Lemma thisModDetail_values mc have thisMod :
  let d := thisModDetail escapeSpecial mc have thisMod in
  let savegame := thisSaveGame mc in
  version d =
    match save_mods savegame !! thisMod ≫= save_version with
    | Some v => Some v
    | None => have !! thisMod ≫= desc_version
    end /\
  title d =
    match have !! thisMod with
    | Some m => Some (escapeSpecial (l10n_title m))
    | None => save_mods savegame !! thisMod ≫= save_title
    end /\
  usedBy d =
    (if same thisMod (mapMod savegame) then None
     else match save_mods savegame !! thisMod with
          | Some e =>
              if (0 <? length (save_farms e))%nat
              then Some (save_farms e) else None
          | None => None
          end) /\
  versionMismatch d =
    match save_mods savegame !! thisMod ≫= save_version, have !! thisMod with
    | Some v, Some m => differ (Some v) (desc_version m)
    | _, _ => false
    end.
Proof.
  unfold thisModDetail.
  destruct (JS.startsWith thisMod "pdlc_"),
           (same thisMod (mapMod (thisSaveGame mc))),
           (save_mods (thisSaveGame mc) !! thisMod) as [[[v |] t f] |],
           (have !! thisMod) as [m |]; simpl;
    repeat case_match; simpl in *; simplify_eq; repeat split;
    first [reflexivity | congruence].
Qed.
End DetailFields.

Lemma same_iff (a : string) (b : option string) :
  Savegame.same a b = true <-> b = Some a.
Proof.
  destruct b as [b |]; simpl; [| split; discriminate].
  rewrite String.eqb_eq. split; congruence.
Qed.

Lemma bool_decide_is_Some {A} (o : option A) :
  bool_decide (is_Some o) = true <-> is_Some o.
Proof. apply bool_decide_eq_true. Qed.

Lemma thisModDetail_used_loaded
    (escapeSpecial : string -> string) (mc : Savegame.modCollect)
    (have : gmap string Savegame.modRecord) (thisMod : string) :
  Savegame.isUsed (Savegame.thisModDetail escapeSpecial mc have thisMod) = true ->
  Savegame.isLoaded (Savegame.thisModDetail escapeSpecial mc have thisMod) = true.
Proof.
  destruct (thisModDetail_flags escapeSpecial mc have thisMod)
    as (_ & _ & Hl & _ & Hu & _).
  rewrite Hu, Hl.
  destruct (Savegame.same _ _); [done |].
  destruct (Savegame.save_mods _ !! thisMod) as [e |]; simpl.
  - by intros _.
  - rewrite andb_true_iff. by intros [_ ?].
Qed.

(** X1.  A record flagged used is also flagged loaded: each of the three
    places that set [isUsed] runs only when [isLoaded] is, or is about to
    be, set. *)
Theorem used_record_is_loaded
    (escapeSpecial : string -> string) (mc : Savegame.modCollect)
    (have : gmap string Savegame.modRecord) (thisMod : string) :
  Savegame.isUsed (Savegame.thisModDetail escapeSpecial mc have thisMod) = true ->
  Savegame.isLoaded (Savegame.thisModDetail escapeSpecial mc have thisMod) = true.
Proof. apply thisModDetail_used_loaded. Qed.

Lemma used_record_is_loaded_witness :
  Savegame.isUsed
    (Savegame.thisModDetail id Sample.first
       (Savegame.haveModSetOf Sample.firstMods) "alpha") = true /\
  Savegame.isLoaded
    (Savegame.thisModDetail id Sample.first
       (Savegame.haveModSetOf Sample.firstMods) "alpha") = true.
Proof.
  assert (H : Savegame.isUsed
                (Savegame.thisModDetail id Sample.first
                   (Savegame.haveModSetOf Sample.firstMods) "alpha") = true)
    by (vm_compute; reflexivity).
  split; [exact H |].
  exact (used_record_is_loaded id Sample.first
           (Savegame.haveModSetOf Sample.firstMods) "alpha" H).
Defined.

(** X2.  A record is present exactly when its name starts with [pdlc_] or
    the collection holds an installed mod of that name; what the savegame
    records plays no part. *)
Theorem present_iff_dlc_or_installed
    (escapeSpecial : string -> string) (mc : Savegame.modCollect)
    (have : gmap string Savegame.modRecord) (thisMod : string) :
  Savegame.isPresent (Savegame.thisModDetail escapeSpecial mc have thisMod) = true
  <->
  JS.startsWith thisMod "pdlc_" = true \/ is_Some (have !! thisMod).
Proof.
  destruct (thisModDetail_flags escapeSpecial mc have thisMod)
    as (_ & -> & _).
  by rewrite orb_true_iff, bool_decide_is_Some.
Qed.

(** X3.  A record is loaded exactly when its name is the savegame's map
    mod or the savegame records a mod of that name. *)
Theorem loaded_iff_map_or_recorded
    (escapeSpecial : string -> string) (mc : Savegame.modCollect)
    (have : gmap string Savegame.modRecord) (thisMod : string) :
  Savegame.isLoaded (Savegame.thisModDetail escapeSpecial mc have thisMod) = true
  <->
  Savegame.mapMod (Savegame.thisSaveGame mc) = Some thisMod \/
  is_Some (Savegame.save_mods (Savegame.thisSaveGame mc) !! thisMod).
Proof.
  destruct (thisModDetail_flags escapeSpecial mc have thisMod)
    as (_ & _ & -> & _).
  by rewrite orb_true_iff, bool_decide_is_Some, same_iff.
Qed.

(** X4.  A record is used exactly when its name is the map mod, or the
    savegame records it with at least one farm, or it is loaded and its
    installed mod is script-only (no store item, at least one script). *)
Theorem used_iff_map_farms_or_script
    (escapeSpecial : string -> string) (mc : Savegame.modCollect)
    (have : gmap string Savegame.modRecord) (thisMod : string) :
  Savegame.isUsed (Savegame.thisModDetail escapeSpecial mc have thisMod) = true
  <->
  Savegame.mapMod (Savegame.thisSaveGame mc) = Some thisMod \/
  (exists e, Savegame.save_mods (Savegame.thisSaveGame mc) !! thisMod = Some e /\
             Savegame.save_farms e <> []) \/
  (Savegame.isLoaded (Savegame.thisModDetail escapeSpecial mc have thisMod) = true /\
   exists m, have !! thisMod = Some m /\
             (Savegame.storeItems m < 1)%Z /\ (0 < Savegame.scriptFiles m)%Z).
Proof.
  destruct (thisModDetail_flags escapeSpecial mc have thisMod)
    as (_ & _ & _ & Hs & -> & _).
  rewrite !orb_true_iff, andb_true_iff, same_iff, Hs.
  assert (match Savegame.save_mods (Savegame.thisSaveGame mc) !! thisMod with
          | Some e => (0 <? length (Savegame.save_farms e))%nat
          | None => false
          end = true
          <-> exists e, Savegame.save_mods (Savegame.thisSaveGame mc) !! thisMod
                          = Some e /\ Savegame.save_farms e <> []) as ->.
  { destruct (Savegame.save_mods _ !! thisMod) as [e |].
    - rewrite Nat.ltb_lt. split.
      + intros Hlen. exists e. split; [done |]. intros Hnil.
        rewrite Hnil in Hlen. simpl in Hlen. lia.
      + intros (e' & [= <-] & Hne). destruct (Savegame.save_farms e); [done |].
        simpl. lia.
    - split; [done |]. by intros (? & ? & _). }
  assert (match have !! thisMod with
          | Some m => (Savegame.storeItems m <? 1)%Z && (0 <? Savegame.scriptFiles m)%Z
          | None => false
          end = true
          <-> exists m, have !! thisMod = Some m /\
                (Savegame.storeItems m < 1)%Z /\ (0 < Savegame.scriptFiles m)%Z) as ->.
  { destruct (have !! thisMod) as [m |].
    - rewrite andb_true_iff, !Z.ltb_lt. split.
      + intros ?. by exists m.
      + by intros (m' & [= <-] & ?).
    - split; [done |]. by intros (? & ? & _). }
  tauto.
Qed.

(** X5.  A record is flagged as a version mismatch exactly when the name
    has both an installed mod and a savegame entry, the savegame entry
    records a version, and the installed version is not that string
    (an installed mod without a version counts as different). *)
Theorem versionMismatch_iff
    (escapeSpecial : string -> string) (mc : Savegame.modCollect)
    (have : gmap string Savegame.modRecord) (thisMod : string) :
  Savegame.versionMismatch
    (Savegame.thisModDetail escapeSpecial mc have thisMod) = true
  <->
  exists m e v,
    have !! thisMod = Some m /\
    Savegame.save_mods (Savegame.thisSaveGame mc) !! thisMod = Some e /\
    Savegame.save_version e = Some v /\
    Savegame.desc_version m <> Some v.
Proof.
  destruct (thisModDetail_values escapeSpecial mc have thisMod)
    as (_ & _ & _ & ->).
  destruct (Savegame.save_mods _ !! thisMod) as [e |]; simpl.
  - destruct (Savegame.save_version e) as [v |] eqn:Hv.
    + destruct (have !! thisMod) as [m |].
      * split.
        -- intros Hd. exists m, e, v. repeat split; try done.
           intros Heq. rewrite Heq in Hd. simpl in Hd.
           by rewrite String.eqb_refl in Hd.
        -- intros (m' & e' & v' & [= <-] & [= <-] & Hv' & Hne).
           rewrite Hv in Hv'. injection Hv' as <-.
           destruct (Savegame.desc_version m) as [v2 |]; simpl; [| done].
           destruct (String.eqb_spec v v2); [congruence | done].
      * split; [done |]. by intros (? & ? & ? & ? & _).
    + split; [done |]. intros (? & e' & ? & _ & [= <-] & ? & _). congruence.
  - split; [done |]. by intros (? & ? & ? & _ & ? & _).
Qed.

(** X6.  A record names the farms that use it exactly when its name is not
    the map mod and the savegame records it with a non-empty set of farms,
    which is then the set shown. *)
Theorem usedBy_iff
    (escapeSpecial : string -> string) (mc : Savegame.modCollect)
    (have : gmap string Savegame.modRecord) (thisMod : string)
    (farms : list string) :
  Savegame.usedBy (Savegame.thisModDetail escapeSpecial mc have thisMod)
    = Some farms
  <->
  Savegame.mapMod (Savegame.thisSaveGame mc) <> Some thisMod /\
  farms <> [] /\
  exists e, Savegame.save_mods (Savegame.thisSaveGame mc) !! thisMod = Some e /\
            Savegame.save_farms e = farms.
Proof.
  destruct (thisModDetail_values escapeSpecial mc have thisMod)
    as (_ & _ & -> & _).
  destruct (Savegame.same thisMod _) eqn:Hs.
  - apply same_iff in Hs. split; [done |]. by intros [? _].
  - assert (Savegame.mapMod (Savegame.thisSaveGame mc) <> Some thisMod) as Hne.
    { intros H. apply same_iff in H. congruence. }
    destruct (Savegame.save_mods _ !! thisMod) as [e |].
    + destruct (0 <? length (Savegame.save_farms e))%nat eqn:Hl.
      * apply Nat.ltb_lt in Hl. split.
        -- intros [= <-]. split; [done |]. split; [| by exists e].
           intros Hnil. rewrite Hnil in Hl. simpl in Hl. lia.
        -- by intros (_ & _ & e' & [= <-] & <-).
      * apply Nat.ltb_ge in Hl. split; [done |].
        intros (_ & Hnil & e' & [= <-] & <-).
        destruct (Savegame.save_farms e); [done | simpl in Hl; lia].
    + split; [done |]. by intros (_ & _ & ? & ? & _).
Qed.

(** X7.  The title shown is the installed mod's title passed through
    [escapeSpecial] when the name is installed, and otherwise the title the
    savegame records, as it is; the version is the one the savegame
    records when it records one, and otherwise the installed one. *)
Theorem title_and_version_sources
    (escapeSpecial : string -> string) (mc : Savegame.modCollect)
    (have : gmap string Savegame.modRecord) (thisMod : string) :
  let d := Savegame.thisModDetail escapeSpecial mc have thisMod in
  let recorded := Savegame.save_mods (Savegame.thisSaveGame mc) !! thisMod in
  Savegame.title d =
    match have !! thisMod with
    | Some m => Some (escapeSpecial (Savegame.l10n_title m))
    | None => recorded ≫= Savegame.save_title
    end /\
  Savegame.version d =
    match recorded ≫= Savegame.save_version with
    | Some v => Some v
    | None => have !! thisMod ≫= Savegame.desc_version
    end.
Proof.
  intros d recorded.
  destruct (thisModDetail_values escapeSpecial mc have thisMod)
    as (Hv & Ht & _).
  split; [exact Ht | exact Hv].
Qed.

(** ** Entries and counters of [makeLine] *)

Lemma makeLine_badges_of_flags
    (name : string) (d : Savegame.modDetail) (singleFarm : bool)
    (hubID : JS.property Z) (sc : Savegame.Count.t) :
  exists line,
    (Savegame.makeLine name d singleFarm hubID sc).1 = Savegame.savegame_mod line /\
    Savegame.Line.name line = name /\
    Savegame.hasBadge line "savegame_nohub"
      = negb (Savegame.isModHub d) && negb (Savegame.isDLC d) /\
    Savegame.hasBadge line "savegame_dlc" = Savegame.isDLC d /\
    Savegame.hasBadge line "savegame_missing" = negb (Savegame.isPresent d) /\
    Savegame.hasBadge line "savegame_unused" = negb (Savegame.isUsed d) /\
    Savegame.hasBadge line "savegame_inactive" = negb (Savegame.isLoaded d) /\
    Savegame.hasBadge line "savegame_versionmismatch"
      = Savegame.versionMismatch d /\
    Savegame.hasBadge line "savegame_scriptonly" = Savegame.scriptOnly d /\
    Savegame.hasBadge line "savegame_isused" = Savegame.isUsed d /\
    Savegame.hasBadge line "savegame_isloaded" = Savegame.isLoaded d.
Proof.
  destruct d as [t v so il iu ip dl ub vm mh].
  unfold Savegame.makeLine.
  destruct (Savegame.displayBadgeOf _ sc) as [db sc'] eqn:E.
  eexists. split; [reflexivity |]. split; [reflexivity |].
  revert E.
  destruct so, il, iu, ip, dl, vm, mh; vm_compute; intros [= <- <-];
    repeat split.
Qed.

Lemma makeLine_counts_of_flags
    (name : string) (d : Savegame.modDetail) (singleFarm : bool)
    (hubID : JS.property Z) (sc : Savegame.Count.t) :
  let sc' := (Savegame.makeLine name d singleFarm hubID sc).2 in
  let one (b : bool) : nat := if b then 1 else 0 in
  Savegame.Count.dlc sc' = Savegame.Count.dlc sc + one (Savegame.isDLC d) /\
  Savegame.Count.missing sc'
    = Savegame.Count.missing sc + one (negb (Savegame.isPresent d)) /\
  Savegame.Count.scriptonly sc'
    = Savegame.Count.scriptonly sc + one (Savegame.scriptOnly d) /\
  Savegame.Count.isused sc' = Savegame.Count.isused sc + one (Savegame.isUsed d) /\
  Savegame.Count.isloaded sc'
    = Savegame.Count.isloaded sc + one (Savegame.isLoaded d) /\
  Savegame.Count.inactive sc' = Savegame.Count.inactive sc /\
  Savegame.Count.unused sc' = Savegame.Count.unused sc /\
  Savegame.Count.nohub sc' = Savegame.Count.nohub sc /\
  Savegame.Count.active sc' = Savegame.Count.active sc.
Proof.
  destruct d as [t v so il iu ip dl ub vm mh].
  destruct sc as [c1 c2 c3 c4 c5 c6 c7 c8 c9].
  unfold Savegame.makeLine.
  destruct (Savegame.displayBadgeOf _ _) as [db sc'] eqn:E.
  revert E.
  destruct so, il, iu, ip, dl, vm, mh; cbn; intros [= <- <-]; cbn;
    repeat split; lia.
Qed.

(** X8.  The badges of an entry are read off the record: [nohub] when the
    mod is neither on the hub nor a DLC, [dlc], [missing], [unused] and
    [inactive] for the flag or its negation, and one lower-cased badge for
    each of the four true flags.  So every one of the eight filters has a
    badge of its name, an entry carries exactly one of [unused] and
    [isused], and exactly one of [inactive] and [isloaded]. *)
Theorem makeLine_badges
    (name : string) (d : Savegame.modDetail) (singleFarm : bool)
    (hubID : JS.property Z) (sc : Savegame.Count.t) :
  exists line,
    (Savegame.makeLine name d singleFarm hubID sc).1 = Savegame.savegame_mod line /\
    Savegame.Line.name line = name /\
    Savegame.hasBadge line "savegame_nohub"
      = negb (Savegame.isModHub d) && negb (Savegame.isDLC d) /\
    Savegame.hasBadge line "savegame_dlc" = Savegame.isDLC d /\
    Savegame.hasBadge line "savegame_missing" = negb (Savegame.isPresent d) /\
    Savegame.hasBadge line "savegame_unused" = negb (Savegame.isUsed d) /\
    Savegame.hasBadge line "savegame_inactive" = negb (Savegame.isLoaded d) /\
    Savegame.hasBadge line "savegame_versionmismatch"
      = Savegame.versionMismatch d /\
    Savegame.hasBadge line "savegame_scriptonly" = Savegame.scriptOnly d /\
    Savegame.hasBadge line "savegame_isused" = Savegame.isUsed d /\
    Savegame.hasBadge line "savegame_isloaded" = Savegame.isLoaded d.
Proof. apply makeLine_badges_of_flags. Qed.

(** X9.  [makeLine] adds one to [dlc], [missing], [scriptonly], [isused]
    and [isloaded] for a record that is a DLC, not present, script-only,
    used, loaded, and never touches the other four counters. *)
Theorem makeLine_counts
    (name : string) (d : Savegame.modDetail) (singleFarm : bool)
    (hubID : JS.property Z) (sc : Savegame.Count.t) :
  let sc' := (Savegame.makeLine name d singleFarm hubID sc).2 in
  let one (b : bool) : nat := if b then 1 else 0 in
  Savegame.Count.dlc sc' = Savegame.Count.dlc sc + one (Savegame.isDLC d) /\
  Savegame.Count.missing sc'
    = Savegame.Count.missing sc + one (negb (Savegame.isPresent d)) /\
  Savegame.Count.scriptonly sc'
    = Savegame.Count.scriptonly sc + one (Savegame.scriptOnly d) /\
  Savegame.Count.isused sc' = Savegame.Count.isused sc + one (Savegame.isUsed d) /\
  Savegame.Count.isloaded sc'
    = Savegame.Count.isloaded sc + one (Savegame.isLoaded d) /\
  Savegame.Count.inactive sc' = Savegame.Count.inactive sc /\
  Savegame.Count.unused sc' = Savegame.Count.unused sc /\
  Savegame.Count.nohub sc' = Savegame.Count.nohub sc /\
  Savegame.Count.active sc' = Savegame.Count.active sc.
Proof. apply makeLine_counts_of_flags. Qed.

(** ** What a pass selects and counts *)

Section PassFacts.
Import Savegame.
Variable escapeSpecial : string -> string.
Variables (mc : modCollect) (tc : option string) (have : gmap string modRecord).

Lemma countWhere_app (cond : modDetail -> bool)
    (l k : list (string * modDetail)) :
  Pages.countWhere cond (l ++ k)
    = Pages.countWhere cond l + Pages.countWhere cond k.
Proof. unfold Pages.countWhere. by rewrite List.filter_app, length_app. Qed.

Lemma keysWhere_app (cond : modDetail -> bool)
    (l k : list (string * modDetail)) :
  Pages.keysWhere cond tc have (l ++ k)
    = Pages.keysWhere cond tc have l ++ Pages.keysWhere cond tc have k.
Proof. unfold Pages.keysWhere. apply omap_app. Qed.

Lemma countWhere_cons (cond : modDetail -> bool)
    (x : string * modDetail) (l : list (string * modDetail)) :
  Pages.countWhere cond (x :: l)
    = Pages.countWhere cond [x] + Pages.countWhere cond l.
Proof. apply (countWhere_app cond [x] l). Qed.

Lemma keysWhere_cons (cond : modDetail -> bool)
    (x : string * modDetail) (l : list (string * modDetail)) :
  Pages.keysWhere cond tc have (x :: l)
    = Pages.keysWhere cond tc have [x] ++ Pages.keysWhere cond tc have l.
Proof. apply (keysWhere_app cond [x] l). Qed.

(** One turn of the loop, on the lists and on the counters. *)
Lemma loopBody_selectList (thisMod : string) (p : pass) :
  let p' := loopBody escapeSpecial mc tc have thisMod p in
  let r := [(thisMod, thisModDetail escapeSpecial mc have thisMod)] in
  Select.unused (pass_selectList p')
    = Select.unused (pass_selectList p)
      ++ Pages.keysWhere (fun d => negb (isUsed d)) tc have r /\
  Select.inactive (pass_selectList p')
    = Select.inactive (pass_selectList p)
      ++ Pages.keysWhere (fun d => negb (isLoaded d)) tc have r /\
  Select.nohub (pass_selectList p')
    = Select.nohub (pass_selectList p)
      ++ Pages.keysWhere (fun d => negb (isModHub d)) tc have r /\
  Select.active (pass_selectList p')
    = Select.active (pass_selectList p)
      ++ Pages.keysWhere isLoaded tc have r.
Proof.
  unfold loopBody, Pages.keysWhere, Pages.selectKey. simpl.
  destruct (makeLine _ _ _ _ _) as [line sc].
  destruct (have !! thisMod ≫= uuid) as [u |]; simpl.
  - destruct (isUsed _), (isLoaded _), (isModHub _); simpl;
      by rewrite ?app_nil_r.
  - destruct (isUsed _), (isLoaded _), (isModHub _); simpl;
      by rewrite ?app_nil_r.
Qed.

Lemma loopBody_selectCount (thisMod : string) (p : pass) :
  let p' := loopBody escapeSpecial mc tc have thisMod p in
  let r := [(thisMod, thisModDetail escapeSpecial mc have thisMod)] in
  Count.dlc (pass_selectCount p')
    = Count.dlc (pass_selectCount p) + Pages.countWhere isDLC r /\
  Count.missing (pass_selectCount p')
    = Count.missing (pass_selectCount p)
      + Pages.countWhere (fun d => negb (isPresent d)) r /\
  Count.scriptonly (pass_selectCount p')
    = Count.scriptonly (pass_selectCount p) + Pages.countWhere scriptOnly r /\
  Count.isused (pass_selectCount p')
    = Count.isused (pass_selectCount p) + Pages.countWhere isUsed r /\
  Count.isloaded (pass_selectCount p')
    = Count.isloaded (pass_selectCount p) + Pages.countWhere isLoaded r /\
  Count.inactive (pass_selectCount p') = Count.inactive (pass_selectCount p) /\
  Count.unused (pass_selectCount p') = Count.unused (pass_selectCount p) /\
  Count.nohub (pass_selectCount p') = Count.nohub (pass_selectCount p) /\
  Count.active (pass_selectCount p') = Count.active (pass_selectCount p).
Proof.
  pose proof (makeLine_counts_of_flags thisMod
                (thisModDetail escapeSpecial mc have thisMod)
                (singleFarm (thisSaveGame mc)) (JS.get (modHub mc) thisMod)
                (pass_selectCount p)) as H.
  unfold loopBody. destruct (makeLine _ _ _ _ _) as [line sc]. simpl in *.
  unfold Pages.countWhere. simpl.
  destruct H as (-> & -> & -> & -> & -> & -> & -> & -> & ->).
  repeat split; try reflexivity; by case_match.
Qed.

(** The records the loop derives for [names]. *)
Lemma loop_records (names : list string) (p : pass) :
  pass_derived
    (fold_left (fun p thisMod => loopBody escapeSpecial mc tc have thisMod p)
               names p)
  = pass_derived p
    ++ ((fun n => (n, thisModDetail escapeSpecial mc have n)) <$> names).
Proof.
  revert p. induction names as [| n names IH]; intros p; simpl.
  - by rewrite app_nil_r.
  - rewrite IH, loopBody_derived. by rewrite <- app_assoc.
Qed.

(** The lists and counters after the loop are those of the start extended
    by what the derived records call for. *)
Lemma loop_selects (names : list string) (p : pass) :
  let p' := fold_left
              (fun p thisMod => loopBody escapeSpecial mc tc have thisMod p)
              names p in
  let r := (fun n => (n, thisModDetail escapeSpecial mc have n)) <$> names in
  Select.unused (pass_selectList p')
    = Select.unused (pass_selectList p)
      ++ Pages.keysWhere (fun d => negb (isUsed d)) tc have r /\
  Select.inactive (pass_selectList p')
    = Select.inactive (pass_selectList p)
      ++ Pages.keysWhere (fun d => negb (isLoaded d)) tc have r /\
  Select.nohub (pass_selectList p')
    = Select.nohub (pass_selectList p)
      ++ Pages.keysWhere (fun d => negb (isModHub d)) tc have r /\
  Select.active (pass_selectList p')
    = Select.active (pass_selectList p)
      ++ Pages.keysWhere isLoaded tc have r /\
  Count.dlc (pass_selectCount p')
    = Count.dlc (pass_selectCount p) + Pages.countWhere isDLC r /\
  Count.missing (pass_selectCount p')
    = Count.missing (pass_selectCount p)
      + Pages.countWhere (fun d => negb (isPresent d)) r /\
  Count.scriptonly (pass_selectCount p')
    = Count.scriptonly (pass_selectCount p) + Pages.countWhere scriptOnly r /\
  Count.isused (pass_selectCount p')
    = Count.isused (pass_selectCount p) + Pages.countWhere isUsed r /\
  Count.isloaded (pass_selectCount p')
    = Count.isloaded (pass_selectCount p) + Pages.countWhere isLoaded r /\
  Count.inactive (pass_selectCount p') = Count.inactive (pass_selectCount p) /\
  Count.unused (pass_selectCount p') = Count.unused (pass_selectCount p) /\
  Count.nohub (pass_selectCount p') = Count.nohub (pass_selectCount p) /\
  Count.active (pass_selectCount p') = Count.active (pass_selectCount p).
Proof.
  revert p. induction names as [| n names IH]; intros p.
  - simpl. rewrite !app_nil_r. unfold Pages.countWhere. simpl.
    repeat split; lia.
  - simpl fold_left. rewrite fmap_cons.
    specialize (IH (loopBody escapeSpecial mc tc have n p)).
    destruct IH as (I1 & I2 & I3 & I4 & I5 & I6 & I7 & I8 & I9 & I10 & I11
                    & I12 & I13).
    destruct (loopBody_selectList n p) as (L1 & L2 & L3 & L4).
    destruct (loopBody_selectCount n p)
      as (C1 & C2 & C3 & C4 & C5 & C6 & C7 & C8 & C9).
    cbv zeta.
    rewrite I1, I2, I3, I4, I5, I6, I7, I8, I9, I10, I11, I12, I13.
    rewrite L1, L2, L3, L4, C1, C2, C3, C4, C5, C6, C7, C8, C9.
    rewrite !(keysWhere_cons _ _ (_ <$> names)),
      !(countWhere_cons _ _ (_ <$> names)), <- !app_assoc.
    repeat split; first [reflexivity | lia].
Qed.
End PassFacts.

Section PassOutcome.
Import Savegame.
Variable escapeSpecial : string -> string.
Implicit Types (mc : modCollect) (w : window).

(** Everything a pass over a known collection leaves, in terms of the
    records of the names it reached. *)
Lemma saveInfo_selects mc w mods :
  modList mc !! JS.toKey (thisCollection w) = Some mods ->
  let o := fromMain_saveInfo escapeSpecial mc w in
  let have := haveModSetOf mods in
  let tc := thisCollection w in
  let names := sortedNames mods (thisSaveGame mc) in
  let sl := selectList (after o) in
  let sc := selectCount (after o) in
  records o
    = (fun n => (n, thisModDetail escapeSpecial mc have n))
        <$> reached mc have names /\
  how o = ending mc have names /\
  Select.unused sl
    = Pages.keysWhere (fun d => negb (isUsed d)) tc have (records o) /\
  Select.inactive sl
    = Pages.keysWhere (fun d => negb (isLoaded d)) tc have (records o) /\
  Select.nohub sl
    = Pages.keysWhere (fun d => negb (isModHub d)) tc have (records o) /\
  Select.active sl = Pages.keysWhere isLoaded tc have (records o) /\
  Count.dlc sc = Pages.countWhere isDLC (records o) /\
  Count.missing sc
    = Pages.countWhere (fun d => negb (isPresent d)) (records o) /\
  Count.scriptonly sc = Pages.countWhere scriptOnly (records o) /\
  Count.isused sc = Pages.countWhere isUsed (records o) /\
  Count.isloaded sc = Pages.countWhere isLoaded (records o).
Proof.
  intros Hm o have tc names sl sc. subst o sl sc.
  rewrite (saveInfo_known escapeSpecial mc w mods Hm). cbv zeta.
  fold names have tc.
  pose proof (loop_records escapeSpecial mc tc have (reached mc have names)
                (passStart (thisSaveGame mc))) as Hr.
  pose proof (loop_selects escapeSpecial mc tc have (reached mc have names)
                (passStart (thisSaveGame mc))) as Hs.
  cbv zeta in Hs. simpl in Hr, Hs.
  destruct Hs as (L1 & L2 & L3 & L4 & C1 & C2 & C3 & C4 & C5 & _).
  destruct (ending mc have names); simpl;
    rewrite Hr; repeat split; assumption.
Qed.

Lemma saveInfo_unknown mc w :
  modList mc !! JS.toKey (thisCollection w) = None ->
  fromMain_saveInfo escapeSpecial mc w
  = Outcome Threw [] (pass_modSetHTML (passStart (thisSaveGame mc))) []
            (Window (thisCollection w) Select.empty Count.zero (dom w)).
Proof. intros Hm. unfold fromMain_saveInfo. by rewrite Hm. Qed.
End PassOutcome.

(** How the loop ends, by the first name it ends at. *)
Lemma ending_Completed_iff (mc : Savegame.modCollect)
    (have : gmap string Savegame.modRecord) (names : list string) :
  Savegame.ending mc have names = Savegame.Completed <->
  Forall (fun n => JS.endsWith n ".csv" = false /\
                   Savegame.throwsAt mc have n = false) names.
Proof.
  split.
  - intros H%ending_Completed. eapply Forall_impl; [exact H |].
    intros n Hn. by apply stopsAt_false.
  - intros H. apply reached_all. eapply Forall_impl; [exact H |].
    intros n Hn. by apply stopsAt_false.
Qed.

Lemma ending_Returned_iff (mc : Savegame.modCollect)
    (have : gmap string Savegame.modRecord) (names : list string) :
  Savegame.ending mc have names = Savegame.Returned <->
  exists before c later,
    names = before ++ c :: later /\
    Forall (fun n => JS.endsWith n ".csv" = false /\
                     Savegame.throwsAt mc have n = false) before /\
    JS.endsWith c ".csv" = true.
Proof.
  split.
  - induction names as [| n names IH]; [done |]. simpl.
    destruct (JS.endsWith n ".csv") eqn:E1.
    + intros _. by exists [], n, names.
    + destruct (Savegame.throwsAt mc have n) eqn:E2; [done |].
      intros (before & c & later & -> & Hb & Hc)%IH.
      exists (n :: before), c, later. split; [done |].
      split; [by constructor | done].
  - intros (before & c & later & -> & Hb & Hc).
    induction Hb as [| n before [E1 E2] _ IH]; simpl.
    + by rewrite Hc.
    + by rewrite E1, E2.
Qed.

Lemma ending_Threw_iff (mc : Savegame.modCollect)
    (have : gmap string Savegame.modRecord) (names : list string) :
  Savegame.ending mc have names = Savegame.Threw <->
  exists before t later,
    names = before ++ t :: later /\
    Forall (fun n => JS.endsWith n ".csv" = false /\
                     Savegame.throwsAt mc have n = false) before /\
    JS.endsWith t ".csv" = false /\
    Savegame.throwsAt mc have t = true.
Proof.
  split.
  - induction names as [| n names IH]; [done |]. simpl.
    destruct (JS.endsWith n ".csv") eqn:E1; [done |].
    destruct (Savegame.throwsAt mc have n) eqn:E2.
    + intros _. by exists [], n, names.
    + intros (before & t & later & -> & Hb & Ht)%IH.
      exists (n :: before), t, later. split; [done |].
      split; [by constructor | done].
  - intros (before & t & later & -> & Hb & Ht1 & Ht2).
    induction Hb as [| n before [E1 E2] _ IH]; simpl.
    + by rewrite Ht1, Ht2.
    + by rewrite E1, E2.
Qed.

(** When a name makes lines 75 to 128 throw: it is no key of one of the
    two objects and yet a property that object inherits. *)
Lemma throwsAt_iff (mc : Savegame.modCollect)
    (have : gmap string Savegame.modRecord) (n : string) :
  Savegame.throwsAt mc have n = true <->
  (Savegame.save_mods (Savegame.thisSaveGame mc) !! n = None /\
   JS.includes JS.prototypeNames n = true) \/
  (have !! n = None /\
   (JS.includes JS.prototypeNames n = true \/
    (is_Some (have !! "__proto__") /\
     JS.includes Savegame.modRecordProps n = true))).
Proof.
  unfold Savegame.throwsAt, Savegame.haveGet, JS.get.
  generalize (JS.includes JS.prototypeNames n)
             (JS.includes Savegame.modRecordProps n).
  intros b1 b2.
  destruct (Savegame.save_mods _ !! n) as [e |],
           (have !! n) as [m |], b1, b2;
    try (case_bool_decide as Hp); cbn [andb];
    split; try done; try (intros _; tauto);
    intros [[? ?] | [? [? | [? ?]]]]; congruence.
Qed.

(** X10.  How a pass ends is decided by the snapshot and the current
    collection alone.  It throws when the snapshot has no mod list for
    the collection.  Otherwise it runs to its end exactly when no name of
    the sorted union ends in [.csv] or makes the body of the loop throw
    (a name that the savegame's mods or the installed mods do not hold
    but inherit as a property); it leaves through the [return] exactly
    when the first name the loop ends at is one ending in [.csv]; and it
    throws exactly when that first name is one that makes the body
    throw. *)
Theorem saveInfo_status
    (escapeSpecial : string -> string) (mc : Savegame.modCollect)
    (w : Savegame.window) :
  let o := Savegame.fromMain_saveInfo escapeSpecial mc w in
  let key := JS.toKey (Savegame.thisCollection w) in
  (Savegame.modList mc !! key = None -> Savegame.how o = Savegame.Threw) /\
  (forall mods, Savegame.modList mc !! key = Some mods ->
     let names := Savegame.sortedNames mods (Savegame.thisSaveGame mc) in
     let have := Savegame.haveModSetOf mods in
     let passes n :=
       JS.endsWith n ".csv" = false /\ Savegame.throwsAt mc have n = false in
     (Savegame.how o = Savegame.Completed <-> Forall passes names) /\
     (Savegame.how o = Savegame.Returned
      <-> exists before c later,
            names = before ++ c :: later /\ Forall passes before /\
            JS.endsWith c ".csv" = true) /\
     (Savegame.how o = Savegame.Threw
      <-> exists before t later,
            names = before ++ t :: later /\ Forall passes before /\
            JS.endsWith t ".csv" = false /\
            Savegame.throwsAt mc have t = true)) /\
  (forall have n,
     Savegame.throwsAt mc have n = true <->
     (Savegame.save_mods (Savegame.thisSaveGame mc) !! n = None /\
      JS.includes JS.prototypeNames n = true) \/
     (have !! n = None /\
      (JS.includes JS.prototypeNames n = true \/
       (is_Some (have !! "__proto__") /\
        JS.includes Savegame.modRecordProps n = true)))).
Proof.
  intros o key. subst o key. split; [| split].
  - intros Hm. by rewrite (saveInfo_unknown escapeSpecial mc w Hm).
  - intros mods Hm names have passes.
    rewrite (saveInfo_how escapeSpecial mc w mods Hm).
    split; [apply ending_Completed_iff |].
    split; [apply ending_Returned_iff | apply ending_Threw_iff].
  - intros have n. apply throwsAt_iff.
Qed.

(** X11.  A push for a collection the snapshot has no mod list for throws
    after the reset: the selection lists and the counters are emptied, no
    record is derived, nothing is called, and the page keeps the list and
    the counter labels it showed before. *)
Theorem saveInfo_unknown_collection
    (escapeSpecial : string -> string) (mc : Savegame.modCollect)
    (w : Savegame.window) :
  Savegame.modList mc !! JS.toKey (Savegame.thisCollection w) = None ->
  let o := Savegame.fromMain_saveInfo escapeSpecial mc w in
  Savegame.how o = Savegame.Threw /\
  Savegame.records o = [] /\
  Savegame.calls o = [] /\
  Savegame.selectList (Savegame.after o) = Savegame.Select.empty /\
  Savegame.selectCount (Savegame.after o) = Savegame.Count.zero /\
  Savegame.dom (Savegame.after o) = Savegame.dom w /\
  Savegame.thisCollection (Savegame.after o) = Savegame.thisCollection w.
Proof.
  intros Hm o. subst o. by rewrite (saveInfo_unknown escapeSpecial mc w Hm).
Qed.

(** X12.  A pass that runs to its end derives one record per name of the
    sorted union, in that order, and replaces the list by one entry per
    record in the same order, preceded by one error entry exactly when the
    savegame lists errors; every entry is shown, whatever filters are still
    checked, and [processL10N] is called once. *)
Theorem completed_pass_entries
    (escapeSpecial : string -> string) (mc : Savegame.modCollect)
    (w : Savegame.window) (mods : list Savegame.modRecord) :
  Savegame.modList mc !! JS.toKey (Savegame.thisCollection w) = Some mods ->
  let o := Savegame.fromMain_saveInfo escapeSpecial mc w in
  let names := Savegame.sortedNames mods (Savegame.thisSaveGame mc) in
  Savegame.how o = Savegame.Completed ->
  (Savegame.records o).*1 = names /\
  Savegame.itemName <$> Savegame.rendered o
    = (if (0 <? length (Savegame.errorList (Savegame.thisSaveGame mc)))%nat
       then [None] else [])
      ++ (Some <$> names) /\
  Savegame.content <$> Savegame.modListHTML (Savegame.dom (Savegame.after o))
    = Savegame.rendered o /\
  Forall (fun n => Savegame.d_none n = false)
         (Savegame.modListHTML (Savegame.dom (Savegame.after o))) /\
  Savegame.checkboxes (Savegame.dom (Savegame.after o))
    = Savegame.checkboxes (Savegame.dom w) /\
  Savegame.calls o = [Savegame.processL10N].
Proof.
  intros Hm o names Hhow. subst o.
  rewrite (saveInfo_how escapeSpecial mc w mods Hm) in Hhow.
  destruct (reached_all _ _ _ (ending_Completed _ _ _ Hhow)) as [Hreach Hend].
  rewrite (saveInfo_known escapeSpecial mc w mods Hm). cbv zeta.
  fold names in Hreach, Hend |- *. rewrite Hend, Hreach. simpl.
  split; [| split; [| split; [| split; [| done]]]].
  - rewrite loop_derived. done.
  - destruct (loop_html escapeSpecial mc (Savegame.thisCollection w)
                (Savegame.haveModSetOf mods) names
                (Savegame.passStart (Savegame.thisSaveGame mc)))
      as (its & -> & Hits).
    rewrite fmap_app, Hits. f_equal. unfold Savegame.passStart. simpl.
    by destruct (0 <? _)%nat.
  - unfold Savegame.parse. change (map ?f ?l) with (f <$> l).
    rewrite <- list_fmap_compose. apply list_fmap_id.
  - unfold Savegame.parse. apply Forall_forall. intros n Hn.
    apply list_elem_of_In, in_map_iff in Hn as (it & <- & _). done.
Qed.

(** X13.  After a pass, however it ends, the counters [dlc], [missing],
    [scriptonly], [isused] and [isloaded] count the derived records that
    are DLC, not present, script-only, used and loaded. *)
Theorem counters_count_records
    (escapeSpecial : string -> string) (mc : Savegame.modCollect)
    (w : Savegame.window) :
  let o := Savegame.fromMain_saveInfo escapeSpecial mc w in
  let sc := Savegame.selectCount (Savegame.after o) in
  Savegame.Count.dlc sc
    = Pages.countWhere Savegame.isDLC (Savegame.records o) /\
  Savegame.Count.missing sc
    = Pages.countWhere (fun d => negb (Savegame.isPresent d)) (Savegame.records o) /\
  Savegame.Count.scriptonly sc
    = Pages.countWhere Savegame.scriptOnly (Savegame.records o) /\
  Savegame.Count.isused sc
    = Pages.countWhere Savegame.isUsed (Savegame.records o) /\
  Savegame.Count.isloaded sc
    = Pages.countWhere Savegame.isLoaded (Savegame.records o).
Proof.
  intros o sc. subst o sc.
  destruct (Savegame.modList mc !! JS.toKey (Savegame.thisCollection w))
    as [mods |] eqn:Hm.
  - destruct (saveInfo_selects escapeSpecial mc w mods Hm)
      as (_ & _ & _ & _ & _ & _ & C1 & C2 & C3 & C4 & C5).
    done.
  - by rewrite (saveInfo_unknown escapeSpecial mc w Hm).
Qed.

(** X14.  The counters [nohub], [inactive], [unused] and [active] are the
    lengths of the four selection lists after a pass that ran to its end;
    after a pass that left early or threw they are zero, whatever the
    lists hold. *)
Theorem list_counters
    (escapeSpecial : string -> string) (mc : Savegame.modCollect)
    (w : Savegame.window) :
  let o := Savegame.fromMain_saveInfo escapeSpecial mc w in
  let sl := Savegame.selectList (Savegame.after o) in
  let sc := Savegame.selectCount (Savegame.after o) in
  match Savegame.how o with
  | Savegame.Completed =>
      Savegame.Count.nohub sc = length (Savegame.Select.nohub sl) /\
      Savegame.Count.inactive sc = length (Savegame.Select.inactive sl) /\
      Savegame.Count.unused sc = length (Savegame.Select.unused sl) /\
      Savegame.Count.active sc = length (Savegame.Select.active sl)
  | _ =>
      Savegame.Count.nohub sc = 0 /\ Savegame.Count.inactive sc = 0 /\
      Savegame.Count.unused sc = 0 /\ Savegame.Count.active sc = 0
  end.
Proof.
  intros o sl sc. subst o sl sc.
  destruct (Savegame.modList mc !! JS.toKey (Savegame.thisCollection w))
    as [mods |] eqn:Hm.
  - rewrite (saveInfo_known escapeSpecial mc w mods Hm). cbv zeta.
    pose proof (loop_selects escapeSpecial mc (Savegame.thisCollection w)
                  (Savegame.haveModSetOf mods)
                  (Savegame.reached mc (Savegame.haveModSetOf mods)
                     (Savegame.sortedNames mods (Savegame.thisSaveGame mc)))
                  (Savegame.passStart (Savegame.thisSaveGame mc))) as Hs.
    cbv zeta in Hs.
    destruct Hs as (_ & _ & _ & _ & _ & _ & _ & _ & _ & H1 & H2 & H3 & H4).
    destruct (Savegame.ending _ _ _); simpl; [done | |];
      by rewrite H1, H2, H3, H4.
  - by rewrite (saveInfo_unknown escapeSpecial mc w Hm).
Qed.

Lemma saveInfo_unknown_collection_witness :
  Savegame.modList Sample.first
    !! JS.toKey (Savegame.thisCollection More.elsewhere) = None /\
  let o := Savegame.fromMain_saveInfo id Sample.first More.elsewhere in
  Savegame.how o = Savegame.Threw /\
  Savegame.records o = [] /\
  Savegame.calls o = [] /\
  Savegame.selectList (Savegame.after o) = Savegame.Select.empty /\
  Savegame.selectCount (Savegame.after o) = Savegame.Count.zero /\
  Savegame.dom (Savegame.after o) = Savegame.dom More.elsewhere /\
  Savegame.thisCollection (Savegame.after o)
    = Savegame.thisCollection More.elsewhere.
Proof.
  assert (H : Savegame.modList Sample.first
                !! JS.toKey (Savegame.thisCollection More.elsewhere) = None)
    by (vm_compute; reflexivity).
  split; [exact H |].
  exact (saveInfo_unknown_collection id Sample.first More.elsewhere H).
Defined.

Lemma completed_pass_entries_witness :
  Savegame.modList More.withErrors
    !! JS.toKey (Savegame.thisCollection Sample.start) = Some Sample.firstMods /\
  let o := Savegame.fromMain_saveInfo id More.withErrors Sample.start in
  let names := Savegame.sortedNames Sample.firstMods
                 (Savegame.thisSaveGame More.withErrors) in
  Savegame.how o = Savegame.Completed /\
  (Savegame.records o).*1 = names /\
  Savegame.itemName <$> Savegame.rendered o
    = (if (0 <? length (Savegame.errorList
                          (Savegame.thisSaveGame More.withErrors)))%nat
       then [None] else [])
      ++ (Some <$> names) /\
  Savegame.content <$> Savegame.modListHTML (Savegame.dom (Savegame.after o))
    = Savegame.rendered o /\
  Forall (fun n => Savegame.d_none n = false)
         (Savegame.modListHTML (Savegame.dom (Savegame.after o))) /\
  Savegame.checkboxes (Savegame.dom (Savegame.after o))
    = Savegame.checkboxes (Savegame.dom Sample.start) /\
  Savegame.calls o = [Savegame.processL10N].
Proof.
  assert (H1 : Savegame.modList More.withErrors
                 !! JS.toKey (Savegame.thisCollection Sample.start)
               = Some Sample.firstMods) by (vm_compute; reflexivity).
  assert (H2 : Savegame.how
                 (Savegame.fromMain_saveInfo id More.withErrors Sample.start)
               = Savegame.Completed) by (vm_compute; reflexivity).
  split; [exact H1 |]. intros o names. split; [exact H2 |].
  exact (completed_pass_entries id More.withErrors Sample.start
           Sample.firstMods H1 H2).
Defined.

Lemma keysWhere_elem_of (cond : Savegame.modDetail -> bool)
    (tc : option string) (have : gmap string Savegame.modRecord)
    (r : list (string * Savegame.modDetail)) (k : string) :
  k ∈ Pages.keysWhere cond tc have r <->
  exists n d, (n, d) ∈ r /\ cond d = true /\ Pages.selectKey tc have n = Some k.
Proof.
  unfold Pages.keysWhere. rewrite list_elem_of_omap. split.
  - intros ([n d] & Hin & Hk). simpl in Hk.
    destruct (cond d) eqn:E; [| done]. by exists n, d.
  - intros (n & d & Hin & Hc & Hk). exists (n, d). split; [done |].
    simpl. by rewrite Hc.
Qed.

Lemma keysWhere_split (cond : Savegame.modDetail -> bool)
    (tc : option string) (have : gmap string Savegame.modRecord)
    (r : list (string * Savegame.modDetail)) :
  length (Pages.keysWhere cond tc have r)
  + length (Pages.keysWhere (fun d => negb (cond d)) tc have r)
  = length (Pages.keysWhere (fun _ => true) tc have r).
Proof.
  unfold Pages.keysWhere. induction r as [| [n d] r IH]; [done |].
  cbn [omap list_omap fst snd] in *.
  destruct (cond d); cbn [negb];
    destruct (Pages.selectKey tc have n); cbn [length]; lia.
Qed.

(** X15.  After a pass over a known collection each selection list holds,
    in the order of the derived records, the keys [collection--uuid] of the
    records whose installed mod has a uuid and that are not used
    ([unused]), not loaded ([inactive]), not on the hub ([nohub]), loaded
    ([active]); a name without an installed mod or without a uuid is in no
    list. *)
Theorem selection_lists_hold_keys
    (escapeSpecial : string -> string) (mc : Savegame.modCollect)
    (w : Savegame.window) (mods : list Savegame.modRecord) :
  Savegame.modList mc !! JS.toKey (Savegame.thisCollection w) = Some mods ->
  let o := Savegame.fromMain_saveInfo escapeSpecial mc w in
  let sl := Savegame.selectList (Savegame.after o) in
  let keys cond :=
    Pages.keysWhere cond (Savegame.thisCollection w)
                    (Savegame.haveModSetOf mods) (Savegame.records o) in
  Savegame.Select.unused sl = keys (fun d => negb (Savegame.isUsed d)) /\
  Savegame.Select.inactive sl = keys (fun d => negb (Savegame.isLoaded d)) /\
  Savegame.Select.nohub sl = keys (fun d => negb (Savegame.isModHub d)) /\
  Savegame.Select.active sl = keys Savegame.isLoaded.
Proof.
  intros Hm o sl keys. subst o sl keys.
  destruct (saveInfo_selects escapeSpecial mc w mods Hm)
    as (_ & _ & L1 & L2 & L3 & L4 & _).
  done.
Qed.

Lemma selection_lists_hold_keys_witness :
  Savegame.modList Sample.first
    !! JS.toKey (Savegame.thisCollection Sample.start) = Some Sample.firstMods /\
  let o := Savegame.fromMain_saveInfo id Sample.first Sample.start in
  let sl := Savegame.selectList (Savegame.after o) in
  let keys cond :=
    Pages.keysWhere cond (Savegame.thisCollection Sample.start)
                    (Savegame.haveModSetOf Sample.firstMods)
                    (Savegame.records o) in
  Savegame.Select.unused sl = keys (fun d => negb (Savegame.isUsed d)) /\
  Savegame.Select.inactive sl = keys (fun d => negb (Savegame.isLoaded d)) /\
  Savegame.Select.nohub sl = keys (fun d => negb (Savegame.isModHub d)) /\
  Savegame.Select.active sl = keys Savegame.isLoaded.
Proof.
  assert (H1 : Savegame.modList Sample.first
                 !! JS.toKey (Savegame.thisCollection Sample.start)
               = Some Sample.firstMods) by (vm_compute; reflexivity).
  split; [exact H1 |].
  exact (selection_lists_hold_keys id Sample.first Sample.start
           Sample.firstMods H1).
Defined.

(** X16.  After a pass over a known collection every key of [inactive] is
    also in [unused], and [active] and [inactive] together hold one key
    per derived record whose installed mod has a uuid. *)
Theorem inactive_within_unused
    (escapeSpecial : string -> string) (mc : Savegame.modCollect)
    (w : Savegame.window) (mods : list Savegame.modRecord) :
  Savegame.modList mc !! JS.toKey (Savegame.thisCollection w) = Some mods ->
  let o := Savegame.fromMain_saveInfo escapeSpecial mc w in
  let sl := Savegame.selectList (Savegame.after o) in
  (forall k, k ∈ Savegame.Select.inactive sl -> k ∈ Savegame.Select.unused sl) /\
  length (Savegame.Select.active sl) + length (Savegame.Select.inactive sl)
  = length (omap (Pages.selectKey (Savegame.thisCollection w)
                                  (Savegame.haveModSetOf mods))
                 (Savegame.records o).*1).
Proof.
  intros Hm o sl. subst o sl.
  destruct (saveInfo_selects escapeSpecial mc w mods Hm)
    as (Hr & _ & -> & -> & _ & -> & _).
  split.
  - intros k (n & d & Hin & Hc & Hk)%keysWhere_elem_of.
    apply keysWhere_elem_of. exists n, d. split; [done |]. split; [| done].
    rewrite Hr in Hin. apply list_elem_of_fmap in Hin as (n' & [= -> ->] & _).
    apply negb_true_iff in Hc. apply negb_true_iff.
    destruct (Savegame.isUsed _) eqn:Hu; [| done].
    apply thisModDetail_used_loaded in Hu. congruence.
  - rewrite keysWhere_split. unfold Pages.keysWhere. f_equal.
    clear Hr. induction (Savegame.records _) as [| [n d] r IH]; [done |].
    cbn [omap list_omap fmap list_fmap fst snd] in *.
    destruct (Pages.selectKey _ _ n); by rewrite IH.
Qed.

Lemma inactive_within_unused_witness :
  Savegame.modList More.idle
    !! JS.toKey (Savegame.thisCollection Sample.start) = Some More.idleMods /\
  let o := Savegame.fromMain_saveInfo id More.idle Sample.start in
  let sl := Savegame.selectList (Savegame.after o) in
  (forall k, k ∈ Savegame.Select.inactive sl -> k ∈ Savegame.Select.unused sl) /\
  length (Savegame.Select.active sl) + length (Savegame.Select.inactive sl)
  = length (omap (Pages.selectKey (Savegame.thisCollection Sample.start)
                                  (Savegame.haveModSetOf More.idleMods))
                 (Savegame.records o).*1).
Proof.
  assert (H1 : Savegame.modList More.idle
                 !! JS.toKey (Savegame.thisCollection Sample.start)
               = Some More.idleMods) by (vm_compute; reflexivity).
  split; [exact H1 |].
  exact (inactive_within_unused id More.idle Sample.start More.idleMods H1).
Defined.

(** In the sample the idle mod is in both lists and the script mod, loaded
    and script-only, is in neither. *)
Example idle_lists :
  let sl := Savegame.selectList
              (Savegame.after
                 (Savegame.fromMain_saveInfo id More.idle Sample.start)) in
  Savegame.Select.inactive sl = ["col_1--uuid-i"] /\
  Savegame.Select.unused sl = ["col_1--uuid-i"] /\
  Savegame.Select.active sl = ["col_1--uuid-s"].
Proof. vm_compute. done. Qed.

(** ** The counter labels *)

Lemma append_cons (a : Ascii.ascii) (p s : string) :
  String a p +:+ s = String a (p +:+ s).
Proof. reflexivity. Qed.

Lemma prefix_empty (s : string) : String.prefix "" s = true.
Proof. by destruct s. Qed.

Lemma prefix_app (p s : string) : String.prefix p (p +:+ s) = true.
Proof.
  induction p as [| a p IH]; [apply prefix_empty |].
  rewrite append_cons. simpl. by destruct (Ascii.ascii_dec a a).
Qed.

Lemma prefix_app_assoc (p q s : string) :
  String.prefix p ((p +:+ q) +:+ s) = true.
Proof.
  induction p as [| a p IH]; [apply prefix_empty |].
  rewrite !append_cons. simpl. by destruct (Ascii.ascii_dec a a).
Qed.

Lemma skip_app (p s : string) : JS.skip (String.length p) (p +:+ s) = s.
Proof. induction p as [| a p IH]; [by destruct s | done]. Qed.

Lemma removeFirst_app (p s : string) : JS.removeFirst p (p +:+ s) = s.
Proof.
  assert (forall t, JS.removeFirst p t
            = if String.prefix p t then JS.skip (String.length p) t
              else match t with
                   | EmptyString => EmptyString
                   | String c t' => String c (JS.removeFirst p t')
                   end) as Hunfold by (by intros []).
  by rewrite Hunfold, prefix_app, skip_app.
Qed.

Lemma includes_elem_of (l : list string) (x : string) :
  JS.includes l x = true <-> x ∈ l.
Proof. by rewrite includes_In, list_elem_of_In. Qed.

Lemma includes_not_elem_of (l : list string) (x : string) :
  JS.includes l x = false <-> x ∉ l.
Proof.
  rewrite <- includes_elem_of. by destruct (JS.includes l x).
Qed.

(** What [selectCount[k]] is, by the name [k]. *)
Lemma Count_get_cases (sc : Savegame.Count.t) (k : string) :
  match Savegame.Count.get sc k with
  | JS.Own _ => k ∈ Pages.counterNames
  | JS.Inherited name =>
      name = k /\ (k ∉ Pages.counterNames) /\ (k ∈ JS.prototypeNames)
  | JS.Undefined => (k ∉ Pages.counterNames) /\ (k ∉ JS.prototypeNames)
  end.
Proof.
  unfold Savegame.Count.get, Pages.counterNames.
  repeat match goal with
         | |- context [String.eqb k ?s] =>
             destruct (String.eqb_spec k s) as [-> | ?];
             [repeat constructor |]
         end.
  assert (k ∉ ["dlc"; "missing"; "scriptonly"; "isloaded"; "isused";
               "inactive"; "unused"; "nohub"; "active"]) as Hk.
  { rewrite !not_elem_of_cons. repeat split; try done. apply not_elem_of_nil. }
  destruct (JS.includes JS.prototypeNames k) eqn:E.
  - apply includes_elem_of in E. done.
  - apply includes_not_elem_of in E. done.
Qed.

Lemma startsWith_check_savegame (k : string) :
  JS.startsWith ("check_savegame_" +:+ k) "check_savegame" = true.
Proof. apply (prefix_app_assoc "check_savegame" "_" k). Qed.

(** X17.  [updateCounts] rewrites the quantity of every label whose [for]
    is [check_savegame_] followed by a name: to the decimal counter when
    the name is one of the nine counters, to the text of the built-in
    member when [selectCount] inherits the name from [Object.prototype],
    and to the text [undefined] for any other name.  Labels whose [for]
    does not start with [check_savegame], the list and the check boxes
    are left alone. *)
Theorem updateCounts_labels (sc : Savegame.Count.t) (d : Savegame.document) :
  let d' := Savegame.updateCounts sc d in
  Savegame.modListHTML d' = Savegame.modListHTML d /\
  Savegame.checkboxes d' = Savegame.checkboxes d /\
  Savegame.for_ <$> Savegame.labels d' = Savegame.for_ <$> Savegame.labels d /\
  (forall i k q,
     Savegame.labels d !! i = Some (Savegame.Label ("check_savegame_" +:+ k) q) ->
     Savegame.labels d' !! i
       = Some (Savegame.Label ("check_savegame_" +:+ k)
                 (match Savegame.Count.get sc k with
                  | JS.Own n => pretty n
                  | JS.Inherited name => JS.nativeText name
                  | JS.Undefined => "undefined"
                  end))) /\
  (forall i el,
     Savegame.labels d !! i = Some el ->
     JS.startsWith (Savegame.for_ el) "check_savegame" = false ->
     Savegame.labels d' !! i = Some el) /\
  (Savegame.Count.get sc "dlc" = JS.Own (Savegame.Count.dlc sc) /\
   Savegame.Count.get sc "missing" = JS.Own (Savegame.Count.missing sc) /\
   Savegame.Count.get sc "scriptonly" = JS.Own (Savegame.Count.scriptonly sc) /\
   Savegame.Count.get sc "isloaded" = JS.Own (Savegame.Count.isloaded sc) /\
   Savegame.Count.get sc "isused" = JS.Own (Savegame.Count.isused sc) /\
   Savegame.Count.get sc "inactive" = JS.Own (Savegame.Count.inactive sc) /\
   Savegame.Count.get sc "unused" = JS.Own (Savegame.Count.unused sc) /\
   Savegame.Count.get sc "nohub" = JS.Own (Savegame.Count.nohub sc) /\
   Savegame.Count.get sc "active" = JS.Own (Savegame.Count.active sc)) /\
  (forall k,
     k ∉ ["dlc"; "missing"; "scriptonly"; "isloaded"; "isused"; "inactive";
          "unused"; "nohub"; "active"] ->
     Savegame.Count.get sc k
     = if bool_decide
            (k ∈ ["constructor"; "__defineGetter__"; "__defineSetter__";
                  "hasOwnProperty"; "__lookupGetter__"; "__lookupSetter__";
                  "isPrototypeOf"; "propertyIsEnumerable"; "toString";
                  "valueOf"; "__proto__"; "toLocaleString"])
       then JS.Inherited k else JS.Undefined) /\
  JS.nativeText "toString" = "function toString() { [native code] }" /\
  JS.nativeText "constructor" = "function Object() { [native code] }" /\
  JS.nativeText "__proto__" = "[object Object]".
Proof.
  intros d'. subst d'. unfold Savegame.updateCounts, Savegame.set_labels.
  simpl. split; [done |]. split; [done |].
  change (map ?f ?l) with (f <$> l).
  split; [| split; [| split; [| split; [| split]]]].
  - rewrite <- list_fmap_compose. apply list_fmap_ext. intros i el _. simpl.
    by destruct (JS.startsWith _ _).
  - intros i k q Hi. rewrite list_lookup_fmap, Hi.
    cbn [fmap option_fmap option_map Savegame.for_].
    rewrite startsWith_check_savegame, removeFirst_app.
    by destruct (Savegame.Count.get sc k).
  - intros i el Hi Hs. rewrite list_lookup_fmap, Hi. simpl. by rewrite Hs.
  - by repeat split.
  - intros k Hk. pose proof (Count_get_cases sc k) as H.
    destruct (Savegame.Count.get sc k) as [n | name |].
    + done.
    + destruct H as (-> & _ & Hp). by rewrite bool_decide_eq_true_2.
    + destruct H as (_ & Hp). by rewrite bool_decide_eq_false_2.
  - by repeat split.
Qed.

(** A label for a name the counters inherit shows the member, not a
    number. *)
Example updateCounts_toString :
  Savegame.labels
    (Savegame.updateCounts Savegame.Count.zero
       (Savegame.Document "" "" []
          [Savegame.Label "check_savegame_toString" "0";
           Savegame.Label "check_savegame_dlc" "7";
           Savegame.Label "check_savegame_other" "7"] []))
  = [Savegame.Label "check_savegame_toString"
       "function toString() { [native code] }";
     Savegame.Label "check_savegame_dlc" "0";
     Savegame.Label "check_savegame_other" "undefined"].
Proof. vm_compute. reflexivity. Qed.

(** ** [fromMain_collectionName] and [clientSelectMain] *)

Lemma get_cases {A : Type} (o : gmap string A) (k : string) :
  JS.get o k
  = match o !! k with
    | Some a => JS.Own a
    | None =>
        if bool_decide (k ∈ JS.prototypeNames)
        then JS.Inherited k else JS.Undefined
    end.
Proof.
  unfold JS.get. destruct (o !! k); [done |].
  destruct (JS.includes JS.prototypeNames k) eqn:E.
  - apply includes_elem_of in E. by rewrite bool_decide_eq_true_2.
  - apply includes_not_elem_of in E. by rewrite bool_decide_eq_false_2.
Qed.

(** X18.  [fromMain_collectionName] makes the pushed [collectKey] the
    current collection, writes the two names (for a key a table does not
    hold: the text of the built-in member when the key names one that
    every object inherits, and the text [undefined] otherwise), asks for
    one localization pass and leaves the lists, counters, list container,
    labels and check boxes as they were; a savegame push that follows
    throws when its snapshot has no mod list for that key. *)
Theorem collectionName_sets_collection
    (escapeSpecial : string -> string) (mc mc' : Savegame.modCollect)
    (w : Savegame.window) :
  let w' := (Savegame.fromMain_collectionName mc w).1 in
  let key := JS.toKey (Savegame.collectKey mc) in
  let written (table : gmap string string) :=
    match table !! key with
    | Some name => name
    | None =>
        if bool_decide
             (key ∈ ["constructor"; "__defineGetter__"; "__defineSetter__";
                     "hasOwnProperty"; "__lookupGetter__"; "__lookupSetter__";
                     "isPrototypeOf"; "propertyIsEnumerable"; "toString";
                     "valueOf"; "__proto__"; "toLocaleString"])
        then JS.nativeText key else "undefined"
    end in
  Savegame.thisCollection w' = Savegame.collectKey mc /\
  (Savegame.fromMain_collectionName mc w).2 = [Savegame.processL10N] /\
  Savegame.collection_name (Savegame.dom w')
    = written (Savegame.collectionToName mc) /\
  Savegame.collection_location (Savegame.dom w')
    = written (Savegame.collectionToFolderRelative mc) /\
  Savegame.selectList w' = Savegame.selectList w /\
  Savegame.selectCount w' = Savegame.selectCount w /\
  Savegame.modListHTML (Savegame.dom w') = Savegame.modListHTML (Savegame.dom w) /\
  Savegame.labels (Savegame.dom w') = Savegame.labels (Savegame.dom w) /\
  Savegame.checkboxes (Savegame.dom w') = Savegame.checkboxes (Savegame.dom w) /\
  (Savegame.modList mc' !! key = None ->
   Savegame.how (Savegame.fromMain_saveInfo escapeSpecial mc' w') = Savegame.Threw).
Proof.
  intros w' key written. subst w' key written. cbv zeta.
  unfold Savegame.fromMain_collectionName. cbn [fst snd Savegame.thisCollection
    Savegame.dom Savegame.collection_name Savegame.collection_location
    Savegame.selectList Savegame.selectCount Savegame.modListHTML
    Savegame.labels Savegame.checkboxes].
  rewrite !get_cases.
  split; [done |]. split; [done |].
  unfold JS.prototypeNames.
  split; [destruct (_ !! _); [done |]; by destruct (bool_decide _) |].
  split; [destruct (_ !! _); [done |]; by destruct (bool_decide _) |].
  repeat (split; [done |]).
  intros Hm. by rewrite saveInfo_unknown.
Qed.

(** X19.  [clientSelectMain] calls [selectInMain] once with the whole
    list when the type is one of the four lists and the list is not
    empty, and calls nothing when it is empty.  For a type that
    [selectList] inherits from [Object.prototype] it does not throw
    either: it calls nothing when the member has no parameter or is the
    prototype object, and hands the member itself to [selectInMain]
    otherwise.  It throws for every other type. *)
Theorem clientSelectMain_cases (type : string) (w : Savegame.window) :
  let sl := Savegame.selectList w in
  let sent (l : list string) :=
    match l with
    | [] => []
    | _ :: _ => [Savegame.selectInMain l]
    end in
  (type = "inactive" ->
   Savegame.clientSelectMain type w = Some (sent (Savegame.Select.inactive sl))) /\
  (type = "unused" ->
   Savegame.clientSelectMain type w = Some (sent (Savegame.Select.unused sl))) /\
  (type = "nohub" ->
   Savegame.clientSelectMain type w = Some (sent (Savegame.Select.nohub sl))) /\
  (type = "active" ->
   Savegame.clientSelectMain type w = Some (sent (Savegame.Select.active sl))) /\
  (type ∈ ["toString"; "valueOf"; "toLocaleString"; "__proto__"] ->
   Savegame.clientSelectMain type w = Some []) /\
  (type ∈ ["constructor"; "hasOwnProperty"; "isPrototypeOf";
           "propertyIsEnumerable"; "__defineGetter__"; "__defineSetter__";
           "__lookupGetter__"; "__lookupSetter__"] ->
   Savegame.clientSelectMain type w = Some [Savegame.selectInMainBuiltin type]) /\
  (Savegame.clientSelectMain type w = None
   <-> type ∉ ["inactive"; "unused"; "nohub"; "active";
               "constructor"; "__defineGetter__"; "__defineSetter__";
               "hasOwnProperty"; "__lookupGetter__"; "__lookupSetter__";
               "isPrototypeOf"; "propertyIsEnumerable"; "toString";
               "valueOf"; "__proto__"; "toLocaleString"]).
Proof.
  intros sl sent. subst sl sent.
  split; [intros ->; unfold Savegame.clientSelectMain; simpl;
          by destruct (Savegame.Select.inactive _) |].
  split; [intros ->; unfold Savegame.clientSelectMain; simpl;
          by destruct (Savegame.Select.unused _) |].
  split; [intros ->; unfold Savegame.clientSelectMain; simpl;
          by destruct (Savegame.Select.nohub _) |].
  split; [intros ->; unfold Savegame.clientSelectMain; simpl;
          by destruct (Savegame.Select.active _) |].
  split.
  { intros H. repeat (apply elem_of_cons in H as [-> | H]; [reflexivity |]).
    by apply not_elem_of_nil in H. }
  split.
  { intros H. repeat (apply elem_of_cons in H as [-> | H]; [reflexivity |]).
    by apply not_elem_of_nil in H. }
  unfold Savegame.clientSelectMain, Savegame.Select.get.
  repeat match goal with
         | |- context [String.eqb type ?s] =>
             destruct (String.eqb_spec type s) as [-> | ?];
             [split; [discriminate
                     | intros H; exfalso; apply H; repeat constructor] |]
         end.
  destruct (JS.includes JS.prototypeNames type) eqn:E.
  - split; [discriminate |]. intros H. exfalso. apply H.
    apply includes_elem_of in E.
    do 4 apply list_elem_of_further. exact E.
  - split; [| done]. intros _. apply includes_not_elem_of in E.
    unfold JS.prototypeNames in E.
    rewrite !not_elem_of_cons. rewrite !not_elem_of_cons in E.
    repeat split; try done; try apply E; try apply not_elem_of_nil.
Qed.

(** The two cases the inherited names add. *)
Example clientSelectMain_builtin :
  Savegame.clientSelectMain "toString" Sample.start = Some [] /\
  Savegame.clientSelectMain "constructor" Sample.start
    = Some [Savegame.selectInMainBuiltin "constructor"] /\
  Savegame.clientSelectMain "other" Sample.start = None.
Proof. repeat split. Qed.
(** ** More on filtering *)

Section MoreFilterFacts.
Import Savegame.
Implicit Types (d : document) (line : Line.t).

Lemma activeFiltersOf_None d (keys : list string) :
  activeFiltersOf d keys = None <->
  exists key, key ∈ keys /\ byId ("check_savegame_" +:+ key) d = None.
Proof.
  induction keys as [| key keys IH]; simpl.
  - split; [done |]. intros (? & []%elem_of_nil & _).
  - destruct (byId ("check_savegame_" +:+ key) d) as [cb |] eqn:Hcb.
    + destruct (activeFiltersOf d keys) as [rest |].
      * split; [done |]. intros (k & [-> | Hk]%elem_of_cons & Hnone).
        -- congruence.
        -- destruct IH as [_ IH].
           discriminate (IH (ex_intro _ k (conj Hk Hnone))).
      * split; [| done]. intros _. destruct IH as [IH _].
        destruct (IH eq_refl) as (k & Hk & Hnone).
        exists k. split; [by apply list_elem_of_further | done].
    + split; [| done]. intros _. exists key.
      split; [apply list_elem_of_here | done].
Qed.

Lemma filtersActive_zero d :
  (length (List.filter (fun cb => cb_filter_only cb && cb_checked cb)
                       (checkboxes d)) =? 0)%nat
  = negb (Pages.someFilterChecked d).
Proof.
  unfold Pages.someFilterChecked.
  induction (checkboxes d) as [| cb l IH]; [done |].
  simpl. destruct (cb_filter_only cb && cb_checked cb); [done | exact IH].
Qed.

Lemma onModItems_content (f : Line.t -> bool -> bool) (l : list node) :
  content <$> onModItems f l = content <$> l.
Proof.
  unfold onModItems. change (map ?g l) with (g <$> l).
  rewrite <- list_fmap_compose. apply list_fmap_ext. intros i n _. simpl.
  destruct (content n) eqn:E; simpl; congruence.
Qed.

Lemma onModItems_twice (f : Line.t -> bool) (l : list node) :
  onModItems (fun line _ => f line) (onModItems (fun line _ => f line) l)
  = onModItems (fun line _ => f line) l.
Proof.
  unfold onModItems. rewrite map_map. apply map_ext. intros n. cbv beta.
  destruct (content n) eqn:E; simpl; rewrite ?E; done.
Qed.

Lemma onModItems_errors (f : Line.t -> bool -> bool) (l : list node)
    (i : nat) (n : node) (errors : string) :
  l !! i = Some n -> content n = savegame_error errors ->
  onModItems f l !! i = Some n.
Proof.
  intros Hi Hc. unfold onModItems. change (map ?g l) with (g <$> l).
  rewrite list_lookup_fmap, Hi. simpl. by rewrite Hc.
Qed.

Lemma activeFiltersOf_checkboxes d0 d (keys : list string) :
  checkboxes d0 = checkboxes d ->
  activeFiltersOf d0 keys = activeFiltersOf d keys.
Proof.
  intros Hcb. induction keys as [| k ks IH]; [done |].
  simpl. unfold byId. by rewrite Hcb, IH.
Qed.

Lemma clientChangeFilter_form d d' :
  clientChangeFilter d = Some d' ->
  exists f : Line.t -> bool,
    d' = set_modListHTML (onModItems (fun line _ => f line) (modListHTML d)) d /\
    forall d0, checkboxes d0 = checkboxes d ->
      clientChangeFilter d0 =
        Some (set_modListHTML
                (onModItems (fun line _ => f line) (modListHTML d0)) d0).
Proof.
  unfold clientChangeFilter. destruct (length _ =? 0)%nat eqn:E.
  - intros [= <-]. exists (fun _ => false). split; [done |].
    intros d0 Hcb. by rewrite Hcb, E.
  - destruct (activeFiltersOf d filters) as [act |] eqn:Ha; [| done].
    intros [= <-]. exists (fun line => negb (allBadgesFound line act)).
    split; [done |]. intros d0 Hcb. rewrite Hcb, E.
    by rewrite (activeFiltersOf_checkboxes d0 d filters Hcb), Ha.
Qed.
End MoreFilterFacts.

(** X20.  When [clientChangeFilter] succeeds it changes nothing but the
    [d-none] class of mod entries: the entries and their order, the error
    entry, the labels and the check boxes are as before; and running it
    again without touching the check boxes changes nothing more. *)
Theorem clientChangeFilter_frame (d d' : Savegame.document) :
  Savegame.clientChangeFilter d = Some d' ->
  Savegame.content <$> Savegame.modListHTML d'
    = Savegame.content <$> Savegame.modListHTML d /\
  (forall i n errors,
     Savegame.modListHTML d !! i = Some n ->
     Savegame.content n = Savegame.savegame_error errors ->
     Savegame.modListHTML d' !! i = Some n) /\
  Savegame.labels d' = Savegame.labels d /\
  Savegame.checkboxes d' = Savegame.checkboxes d /\
  Savegame.collection_name d' = Savegame.collection_name d /\
  Savegame.collection_location d' = Savegame.collection_location d /\
  Savegame.clientChangeFilter d' = Some d'.
Proof.
  intros H. destruct (clientChangeFilter_form d d' H) as (f & -> & Hagain).
  simpl. split; [apply onModItems_content |].
  split; [intros i n errors; apply onModItems_errors |].
  repeat (split; [done |]).
  rewrite Hagain by done. simpl. by rewrite onModItems_twice.
Qed.

Lemma clientChangeFilter_frame_witness :
  let d := Sample.filtered in
  let d' := default d (Savegame.clientChangeFilter d) in
  Savegame.clientChangeFilter d = Some d' /\
  Savegame.content <$> Savegame.modListHTML d'
    = Savegame.content <$> Savegame.modListHTML d /\
  (forall i n errors,
     Savegame.modListHTML d !! i = Some n ->
     Savegame.content n = Savegame.savegame_error errors ->
     Savegame.modListHTML d' !! i = Some n) /\
  Savegame.labels d' = Savegame.labels d /\
  Savegame.checkboxes d' = Savegame.checkboxes d /\
  Savegame.collection_name d' = Savegame.collection_name d /\
  Savegame.collection_location d' = Savegame.collection_location d /\
  Savegame.clientChangeFilter d' = Some d'.
Proof.
  intros d d'.
  assert (H : Savegame.clientChangeFilter d = Some d')
    by (vm_compute; reflexivity).
  split; [exact H |].
  exact (clientChangeFilter_frame d d' H).
Defined.

(** X21.  [clientChangeFilter] throws exactly when some check box with the
    class [filter_only] is checked and the page lacks the check box of one
    of the eight filters; with no such box checked it never throws,
    whatever the page holds. *)
Theorem clientChangeFilter_throws_iff (d : Savegame.document) :
  Savegame.clientChangeFilter d = None
  <->
  Pages.someFilterChecked d = true /\
  exists key, key ∈ Savegame.filters /\
              Savegame.byId ("check_savegame_" +:+ key) d = None.
Proof.
  unfold Savegame.clientChangeFilter. rewrite filtersActive_zero.
  destruct (Pages.someFilterChecked d); cbn [negb].
  - rewrite <- activeFiltersOf_None.
    destruct (Savegame.activeFiltersOf d Savegame.filters);
      intuition congruence.
  - intuition congruence.
Qed.

Section OppositeBadges.
Import Savegame.
Variable escapeSpecial : string -> string.

Lemma makeLine_opposite (name : string) (d : modDetail) (singleFarm : bool)
    (hubID : JS.property Z) (sc : Count.t) :
  Pages.oppositeBadges (makeLine name d singleFarm hubID sc).1.
Proof.
  destruct (makeLine_badges_of_flags name d singleFarm hubID sc)
    as (line & -> & _ & _ & _ & _ & Hu & Hi & _ & _ & Hu' & Hl').
  simpl. by rewrite Hu, Hi, Hu', Hl'.
Qed.

Lemma loop_opposite (mc : modCollect) (tc : option string)
    (have : gmap string modRecord) (names : list string) (p : pass) :
  Forall Pages.oppositeBadges (pass_modSetHTML p) ->
  Forall Pages.oppositeBadges
    (pass_modSetHTML
       (fold_left (fun p thisMod => loopBody escapeSpecial mc tc have thisMod p)
                  names p)).
Proof.
  revert p. induction names as [| n names IH]; intros p Hp; [done |].
  simpl. apply IH. unfold loopBody.
  pose proof (makeLine_opposite n (thisModDetail escapeSpecial mc have n)
                (singleFarm (thisSaveGame mc)) (JS.get (modHub mc) n)
                (pass_selectCount p)) as Hm.
  destruct (makeLine _ _ _ _ _) as [line sc]. simpl in *.
  apply Forall_app. split; [done |]. by apply Forall_singleton.
Qed.

Lemma saveInfo_opposite (mc : modCollect) (w : window) :
  Forall Pages.oppositeBadges (rendered (fromMain_saveInfo escapeSpecial mc w)).
Proof.
  assert (Forall Pages.oppositeBadges (pass_modSetHTML (passStart (thisSaveGame mc))))
    as Hstart.
  { unfold passStart. simpl. destruct (0 <? _)%nat; [| done].
    by apply Forall_singleton. }
  destruct (modList mc !! JS.toKey (thisCollection w)) as [mods |] eqn:Hm.
  - rewrite (saveInfo_known escapeSpecial mc w mods Hm). cbv zeta.
    destruct (ending _ _ _); simpl; by apply loop_opposite.
  - by rewrite (saveInfo_unknown escapeSpecial mc w Hm).
Qed.
End OppositeBadges.

Lemma filterPage_checkboxes (d0 d : Savegame.document) :
  Savegame.checkboxes d0 = Savegame.checkboxes d ->
  Savegame.filterPage d -> Savegame.filterPage d0.
Proof.
  intros Hcb Hp key Hk. destruct (Hp key Hk) as (cb & Hb & Hf).
  exists cb. unfold Savegame.byId in *. by rewrite Hcb.
Qed.

Lemma isChecked_checkboxes (d0 d : Savegame.document) (key : string) :
  Savegame.checkboxes d0 = Savegame.checkboxes d ->
  Savegame.isChecked d0 key = Savegame.isChecked d key.
Proof.
  intros Hcb. unfold Savegame.isChecked, Savegame.byId. by rewrite Hcb.
Qed.

(** A page where two opposite filters are checked hides every entry that
    carries exactly one badge of each pair. *)
Lemma opposite_filters_hide (d : Savegame.document) :
  Savegame.filterPage d ->
  (Savegame.isChecked d "isused" = true /\ Savegame.isChecked d "unused" = true)
  \/ (Savegame.isChecked d "isloaded" = true /\
      Savegame.isChecked d "inactive" = true) ->
  Forall (fun n => Pages.oppositeBadges (Savegame.content n))
         (Savegame.modListHTML d) ->
  exists d',
    Savegame.clientChangeFilter d = Some d' /\
    forall n' line,
      n' ∈ Savegame.modListHTML d' ->
      Savegame.content n' = Savegame.savegame_mod line ->
      Savegame.d_none n' = true.
Proof.
  intros Hpage Hch Hopp. unfold Savegame.clientChangeFilter.
  destruct (length _ =? 0)%nat eqn:E.
  - apply Nat.eqb_eq in E. pose proof (none_checked d Hpage E) as Hnone.
    exfalso. destruct Hch as [[H _] | [H _]];
      rewrite Hnone in H; try discriminate; unfold Savegame.filters;
      repeat constructor.
  - rewrite activeFiltersOf_checked
      by (intros key Hk; destruct (Hpage key Hk) as (cb & -> & _); by eexists).
    eexists. split; [reflexivity |]. simpl.
    intros n' line Hin Hc.
    destruct (onModItems_elem_of _ _ _ _ Hin Hc) as (n & Hn & Hcn & ->).
    apply negb_true_iff.
    destruct (Savegame.allBadgesFound line _) eqn:Hall; [| done].
    exfalso. rewrite Forall_forall in Hopp. specialize (Hopp n Hn).
    rewrite Hcn in Hopp. simpl in Hopp. destruct Hopp as [Hu Hl].
    pose proof (proj1 (allBadgesFound_filter d line) Hall) as Hbad.
    destruct Hch as [[H1 H2] | [H1 H2]].
    + assert (Savegame.hasBadge line "savegame_isused" = true) as B1
        by (apply (Hbad "isused"); [unfold Savegame.filters; repeat constructor | done]).
      assert (Savegame.hasBadge line "savegame_unused" = true) as B2
        by (apply (Hbad "unused"); [unfold Savegame.filters; repeat constructor | done]).
      by rewrite B1, B2 in Hu.
    + assert (Savegame.hasBadge line "savegame_isloaded" = true) as B1
        by (apply (Hbad "isloaded"); [unfold Savegame.filters; repeat constructor | done]).
      assert (Savegame.hasBadge line "savegame_inactive" = true) as B2
        by (apply (Hbad "inactive"); [unfold Savegame.filters; repeat constructor | done]).
      by rewrite B1, B2 in Hl.
Qed.

(** X22.  When a pass runs to its end on a page where the filters [isused]
    and [unused] are both checked, or [isloaded] and [inactive] both, and
    [clientChangeFilter] then runs, every mod entry of the new list is
    hidden: no entry carries both badges of such a pair. *)
Theorem opposite_filters_hide_every_entry
    (escapeSpecial : string -> string) (mc : Savegame.modCollect)
    (w : Savegame.window) :
  Savegame.filterPage (Savegame.dom w) ->
  (Savegame.isChecked (Savegame.dom w) "isused" = true /\
   Savegame.isChecked (Savegame.dom w) "unused" = true)
  \/ (Savegame.isChecked (Savegame.dom w) "isloaded" = true /\
      Savegame.isChecked (Savegame.dom w) "inactive" = true) ->
  Savegame.how (Savegame.fromMain_saveInfo escapeSpecial mc w)
    = Savegame.Completed ->
  let o := Savegame.fromMain_saveInfo escapeSpecial mc w in
  exists d',
    Savegame.clientChangeFilter (Savegame.dom (Savegame.after o)) = Some d' /\
    Savegame.content <$> Savegame.modListHTML d' = Savegame.rendered o /\
    forall n' line,
      n' ∈ Savegame.modListHTML d' ->
      Savegame.content n' = Savegame.savegame_mod line ->
      Savegame.d_none n' = true.
Proof.
  intros Hpage Hch Hhow o.
  pose proof (saveInfo_opposite escapeSpecial mc w) as Hopp. fold o in Hopp, Hhow.
  assert (Savegame.checkboxes (Savegame.dom (Savegame.after o))
          = Savegame.checkboxes (Savegame.dom w) /\
          Savegame.modListHTML (Savegame.dom (Savegame.after o))
          = Savegame.parse (Savegame.rendered o)) as [Hcb Hlist].
  { subst o. revert Hhow. unfold Savegame.fromMain_saveInfo.
    destruct (Savegame.modList mc !! _); [| done].
    by destruct (Savegame.forEachMod _ _ _ _ _ _) as [[] p]. }
  destruct (opposite_filters_hide (Savegame.dom (Savegame.after o)))
    as (d' & Hd' & Hhide).
  - by apply (filterPage_checkboxes _ (Savegame.dom w)).
  - by rewrite !(isChecked_checkboxes _ (Savegame.dom w) _ Hcb).
  - rewrite Hlist. unfold Savegame.parse. apply Forall_forall.
    intros n (it & <- & Hit)%list_elem_of_In%in_map_iff. simpl.
    rewrite Forall_forall in Hopp. by apply Hopp, list_elem_of_In.
  - exists d'. split; [done |]. split; [| done].
    destruct (clientChangeFilter_form _ _ Hd') as (f & -> & _). simpl.
    rewrite onModItems_content, Hlist. unfold Savegame.parse.
    change (map ?g ?l) with (g <$> l). rewrite <- list_fmap_compose.
    apply list_fmap_id.
Qed.

Lemma opposite_filters_hide_every_entry_witness :
  Savegame.filterPage (Savegame.dom More.contradictory) /\
  ((Savegame.isChecked (Savegame.dom More.contradictory) "isused" = true /\
    Savegame.isChecked (Savegame.dom More.contradictory) "unused" = true)
   \/ (Savegame.isChecked (Savegame.dom More.contradictory) "isloaded" = true /\
       Savegame.isChecked (Savegame.dom More.contradictory) "inactive" = true)) /\
  Savegame.how (Savegame.fromMain_saveInfo id Sample.first More.contradictory)
    = Savegame.Completed /\
  let o := Savegame.fromMain_saveInfo id Sample.first More.contradictory in
  exists d',
    Savegame.clientChangeFilter (Savegame.dom (Savegame.after o)) = Some d' /\
    Savegame.content <$> Savegame.modListHTML d' = Savegame.rendered o /\
    forall n' line,
      n' ∈ Savegame.modListHTML d' ->
      Savegame.content n' = Savegame.savegame_mod line ->
      Savegame.d_none n' = true.
Proof.
  assert (Hpage : Savegame.filterPage (Savegame.dom More.contradictory)).
  { intros key Hkey. unfold Savegame.filters in Hkey.
    repeat (apply elem_of_cons in Hkey as [-> | Hkey];
            [eexists; split; [vm_compute; reflexivity | reflexivity] |]).
    by apply not_elem_of_nil in Hkey. }
  assert (Hch : (Savegame.isChecked (Savegame.dom More.contradictory) "isused"
                   = true /\
                 Savegame.isChecked (Savegame.dom More.contradictory) "unused"
                   = true)
                \/ (Savegame.isChecked (Savegame.dom More.contradictory)
                      "isloaded" = true /\
                    Savegame.isChecked (Savegame.dom More.contradictory)
                      "inactive" = true))
    by (left; split; vm_compute; reflexivity).
  assert (Hhow : Savegame.how
                   (Savegame.fromMain_saveInfo id Sample.first More.contradictory)
                 = Savegame.Completed) by (vm_compute; reflexivity).
  split; [exact Hpage |]. split; [exact Hch |]. split; [exact Hhow |].
  exact (opposite_filters_hide_every_entry id Sample.first More.contradictory
           Hpage Hch Hhow).
Defined.

(** ** The notes window and the localization relay *)

(** X23.  [clientGetL10NEntries] sends one [getText_send] message carrying
    every name of an [l10n] element of the page exactly once, however often
    the name occurs in the page, and changes nothing else. *)
Theorem clientGetL10NEntries_sends_each_name_once (w : Notes.window) :
  exists names,
    Notes.clientGetL10NEntries w
      = Notes.Window (Notes.thisCollection w) (Notes.collection_name w)
                     (Notes.inputs w) (Notes.l10n_names w)
                     (Notes.sent w ++ [Notes.getText_send names]) /\
    NoDup names /\
    forall n, n ∈ names <-> n ∈ Notes.l10n_names w.
Proof.
  unfold Notes.clientGetL10NEntries, Notes.send. eexists. split; [reflexivity |].
  split.
  - apply (fold_Set_add_NoDup id). apply NoDup_nil_2.
  - intros n. rewrite (fold_Set_add_elem_of id), list_fmap_id, elem_of_nil.
    tauto.
Qed.





(** The user name is filled in and the server field emptied. *)
Example notes_push_example :
  Notes.inputs
    <$> Notes.fromMain_collectionName More.noMember "collection_2"
          "Other mods" More.allNotes notes_example
  = Some {[ "notes_username" := "giants"; "notes_server" := "" ]}.
Proof. vm_compute. reflexivity. Qed.



Lemma getText_return_plain
    (pasted : string -> option (Relay.l10nElement -> bool))
    (k v : string) (page : list Relay.l10nElement) :
  JS.plainBetween 34 k = true ->
  Relay.fromMain_getText_return pasted (k, v) page
  = Some (Relay.forEach_innerHTML
            (fun item => String.eqb (Relay.l10n_name item) k) v page).
Proof.
  intros Hk. unfold Relay.fromMain_getText_return, Relay.query. simpl.
  by rewrite Hk.
Qed.

Lemma forEach_innerHTML_names (m : Relay.l10nElement -> bool) (v : string)
    (page : list Relay.l10nElement) :
  Relay.names (Relay.forEach_innerHTML m v page) = Relay.names page.
Proof.
  unfold Relay.names, Relay.forEach_innerHTML.
  change (map ?f ?l) with (f <$> l).
  rewrite <- list_fmap_compose. apply list_fmap_ext. intros i el _. simpl.
  by destruct (m el).
Qed.

(** X26.  For a plain name (one without double quote, backslash or line
    break) the callback does not throw; the returned text is written into
    every [l10n] element of that name and into no other; the names of the
    page stay as they are; a second text for the same name overwrites the
    first; texts for different plain names can arrive in either order;
    and a text for a name the page does not hold changes nothing.  For a
    name whose selector the engine refuses the callback throws and the
    page stays as it is. *)
Theorem getText_return_last_write_wins
    (pasted : string -> option (Relay.l10nElement -> bool))
    (k k' v v' : string) (page : list Relay.l10nElement) :
  JS.plainBetween 34 k = true ->
  JS.plainBetween 34 k' = true ->
  JS.noMarkup v = true ->
  JS.noMarkup v' = true ->
  exists page1,
    Relay.fromMain_getText_return pasted (k, v) page = Some page1 /\
    Relay.names page1 = Relay.names page /\
    (forall i el, page !! i = Some el ->
       page1 !! i
       = Some (if String.eqb (Relay.l10n_name el) k
               then Relay.L10n (Relay.l10n_name el) v else el)) /\
    Relay.fromMain_getText_return pasted (k, v') page1
    = Relay.fromMain_getText_return pasted (k, v') page /\
    (k <> k' ->
     Relay.fromMain_getText_return pasted (k', v') page1
     = Relay.fromMain_getText_return pasted (k', v') page
         ≫= Relay.fromMain_getText_return pasted (k, v)) /\
    (k ∉ Relay.names page -> page1 = page) /\
    (forall name, JS.plainBetween 34 name = false -> pasted name = None ->
       Relay.fromMain_getText_return pasted (name, v) page = None).
Proof.
  intros Hk Hk' _ _. eexists. split; [by apply getText_return_plain |].
  split; [apply forEach_innerHTML_names |].
  rewrite !(getText_return_plain pasted k) by done.
  rewrite !(getText_return_plain pasted k') by done.
  cbn [mbind option_bind]. rewrite (getText_return_plain pasted k) by done.
  unfold Relay.forEach_innerHTML. change (map ?f ?l) with (f <$> l).
  split; [| split; [| split; [| split]]].
  - intros i el Hi. by rewrite list_lookup_fmap, Hi.
  - f_equal. rewrite <- list_fmap_compose. apply list_fmap_ext.
    intros i el _. simpl.
    destruct (String.eqb (Relay.l10n_name el) k) eqn:E1;
      simpl; by rewrite E1.
  - intros Hkk. f_equal. rewrite <- !list_fmap_compose. apply list_fmap_ext.
    intros i el _. simpl.
    destruct (String.eqb (Relay.l10n_name el) k) eqn:E1,
             (String.eqb (Relay.l10n_name el) k') eqn:E2;
      simpl; rewrite ?E1, ?E2; try reflexivity.
    apply String.eqb_eq in E1, E2. congruence.
  - intros Hn. rewrite <- (list_fmap_id page) at 2.
    apply list_fmap_ext. intros i el Hi. simpl.
    destruct (String.eqb_spec (Relay.l10n_name el) k) as [Heq | Hne]; [| done].
    exfalso. apply Hn. apply list_elem_of_fmap. exists el.
    split; [done |]. by eapply list_elem_of_lookup_2.
  - intros name Hname Hp.
    unfold Relay.fromMain_getText_return, Relay.query. simpl.
    by rewrite Hname, Hp.
Qed.

Lemma getText_return_last_write_wins_witness :
  JS.plainBetween 34 "title" = true /\
  JS.plainBetween 34 "save" = true /\
  JS.noMarkup "Mods" = true /\
  JS.noMarkup "Save" = true /\
  exists page1,
    Relay.fromMain_getText_return More.refuseName ("title", "Mods") More.texts
      = Some page1 /\
    Relay.names page1 = Relay.names More.texts /\
    (forall i el, More.texts !! i = Some el ->
       page1 !! i
       = Some (if String.eqb (Relay.l10n_name el) "title"
               then Relay.L10n (Relay.l10n_name el) "Mods" else el)) /\
    Relay.fromMain_getText_return More.refuseName ("title", "Save") page1
    = Relay.fromMain_getText_return More.refuseName ("title", "Save") More.texts /\
    ("title" <> "save" ->
     Relay.fromMain_getText_return More.refuseName ("save", "Save") page1
     = Relay.fromMain_getText_return More.refuseName ("save", "Save") More.texts
         ≫= Relay.fromMain_getText_return More.refuseName ("title", "Mods")) /\
    ("title" ∉ Relay.names More.texts -> page1 = More.texts) /\
    (forall name, JS.plainBetween 34 name = false -> More.refuseName name = None ->
       Relay.fromMain_getText_return More.refuseName (name, "Mods") More.texts
       = None).
Proof.
  split; [reflexivity |]. split; [reflexivity |].
  split; [reflexivity |]. split; [reflexivity |].
  apply (getText_return_last_write_wins More.refuseName "title" "save"
           "Mods" "Save" More.texts); reflexivity.
Defined.

(** The first and the third element take the text; a name with a double
    quote is refused and nothing is written. *)
Example getText_return_texts :
  Relay.fromMain_getText_return More.refuseName ("title", "Mods") More.texts
  = Some [Relay.L10n "title" "Mods"; Relay.L10n "save" "";
          Relay.L10n "title" "Mods"] /\
  Relay.fromMain_getText_return More.refuseName
    ("a" +:+ JS.dquote +:+ "b", "Mods") More.texts = None.
Proof. split; vm_compute; reflexivity. Qed.

(** ** The preferences window preload *)

Lemma Prefs_Set_add_elem_of (x y : option string) (s : list (option string)) :
  y ∈ Prefs.Set_add x s <-> y = x \/ y ∈ s.
Proof.
  unfold Prefs.Set_add. case_bool_decide as E.
  - split; [by right |]. by intros [-> | H].
  - rewrite elem_of_app, list_elem_of_singleton. tauto.
Qed.

Lemma Prefs_Set_add_NoDup (x : option string) (s : list (option string)) :
  NoDup s -> NoDup (Prefs.Set_add x s).
Proof.
  intros Hs. unfold Prefs.Set_add. case_bool_decide as E; [done |].
  apply NoDup_app. split; [done |]. split; [| apply NoDup_singleton].
  intros y Hy ->%list_elem_of_singleton. done.
Qed.

Lemma Prefs_sendSet (items : list Prefs.element) (s : list (option string)) :
  let sendSet :=
    fold_left (fun s item => Prefs.Set_add (Prefs.data_i18n item) s) items s in
  (NoDup s -> NoDup sendSet) /\
  forall x, x ∈ sendSet <-> x ∈ Prefs.data_i18n <$> items \/ x ∈ s.
Proof.
  revert s. induction items as [| it items IH]; intros s; simpl.
  - split; [done |]. intros x. rewrite elem_of_nil. tauto.
  - destruct (IH (Prefs.Set_add (Prefs.data_i18n it) s)) as [IHn IHe].
    split.
    + intros Hs. by apply IHn, Prefs_Set_add_NoDup.
    + intros x. rewrite IHe, Prefs_Set_add_elem_of, elem_of_cons. tauto.
Qed.

Lemma send_each (ids : list (option string)) (outbox : list Prefs.message) :
  fold_left (fun out thisStringID => out ++ [Prefs.i18n_translate thisStringID])
            ids outbox
  = outbox ++ (Prefs.i18n_translate <$> ids).
Proof.
  revert outbox. induction ids as [| x ids IH]; intros outbox; simpl.
  - by rewrite app_nil_r.
  - rewrite IH, <- app_assoc. done.
Qed.

(** X27.  The [trigger-i18n] listener sends one [i18n-translate] message
    for every distinct [data-i18n] value found on an element of class
    [i18n] (null standing for an element without the attribute), each
    value once, after the messages already sent; elements without the
    class are not read. *)
Theorem trigger_i18n_sends_each_id_once
    (page : list Prefs.element) (outbox : list Prefs.message) :
  exists ids,
    Prefs.trigger_i18n page outbox = outbox ++ (Prefs.i18n_translate <$> ids) /\
    NoDup ids /\
    forall x, x ∈ ids <->
      exists el, el ∈ page /\ Prefs.class_i18n el = true /\ Prefs.data_i18n el = x.
Proof.
  unfold Prefs.trigger_i18n. eexists. split; [apply send_each |].
  destruct (Prefs_sendSet (List.filter Prefs.class_i18n page) []) as [Hn He].
  split; [apply Hn, NoDup_nil_2 |].
  intros x. rewrite He, elem_of_nil, list_elem_of_fmap. split.
  - intros [(el & -> & Hin) | []].
    apply list_elem_of_In, filter_In in Hin as [Hin Hc].
    exists el. by rewrite list_elem_of_In.
  - intros (el & Hin & Hc & <-). left. exists el. split; [done |].
    apply list_elem_of_In, filter_In. by rewrite <- list_elem_of_In.
Qed.

Lemma return_filter (m : Prefs.element -> bool) (newText : string)
    (page : list Prefs.element) :
  List.filter Prefs.class_i18n (Prefs.forEach_innerHTML m newText page)
  = Prefs.forEach_innerHTML m newText (List.filter Prefs.class_i18n page).
Proof.
  unfold Prefs.forEach_innerHTML.
  induction page as [| el page IH]; [done |].
  cbn [map List.filter]. rewrite IH.
  destruct (m el) eqn:Em; cbn [Prefs.class_i18n];
    destruct (Prefs.class_i18n el) eqn:E; cbn [map];
    rewrite ?Em, ?E; reflexivity.
Qed.

Lemma return_sendSet (m : Prefs.element -> bool) (newText : string)
    (items : list Prefs.element) (s : list (option string)) :
  fold_left (fun s item => Prefs.Set_add (Prefs.data_i18n item) s)
            (Prefs.forEach_innerHTML m newText items) s
  = fold_left (fun s item => Prefs.Set_add (Prefs.data_i18n item) s) items s.
Proof.
  unfold Prefs.forEach_innerHTML. revert s.
  induction items as [| el items IH]; intros s; [done |].
  simpl. rewrite IH. by destruct (m el).
Qed.

Lemma translate_return_plain
    (pasted : string -> option (Prefs.element -> bool))
    (dataPoint newText : string) (page : list Prefs.element) :
  JS.plainBetween 39 dataPoint = true ->
  Prefs.i18n_translate_return pasted dataPoint newText page
  = Some (Prefs.forEach_innerHTML
            (fun item => bool_decide (Prefs.data_i18n item = Some dataPoint))
            newText page).
Proof.
  intros Hk. unfold Prefs.i18n_translate_return, Prefs.querySelectorAll.
  by rewrite Hk.
Qed.

(** X28.  For a plain id (one without single quote, backslash or line
    break) the [i18n-translate-return] listener does not throw; it writes
    the new text into every element whose [data-i18n] attribute is the
    returned id, whether or not it has the class [i18n], and into no
    other element; classes and attributes are untouched, so a later
    [trigger-i18n] sends the same messages; and a second text for the
    same id overwrites the first.  For an id whose selector the engine
    refuses the listener throws and the page stays as it is. *)
Theorem i18n_translate_return_by_attribute
    (pasted : string -> option (Prefs.element -> bool))
    (dataPoint newText newer : string) (page : list Prefs.element)
    (outbox : list Prefs.message) :
  JS.plainBetween 39 dataPoint = true ->
  JS.noMarkup newText = true ->
  JS.noMarkup newer = true ->
  exists page',
    Prefs.i18n_translate_return pasted dataPoint newText page = Some page' /\
    (forall i el, page !! i = Some el ->
       page' !! i
       = Some (if bool_decide (Prefs.data_i18n el = Some dataPoint)
               then Prefs.Element (Prefs.class_i18n el) (Prefs.data_i18n el)
                                  newText
               else el)) /\
    Prefs.class_i18n <$> page' = Prefs.class_i18n <$> page /\
    Prefs.data_i18n <$> page' = Prefs.data_i18n <$> page /\
    Prefs.trigger_i18n page' outbox = Prefs.trigger_i18n page outbox /\
    Prefs.i18n_translate_return pasted dataPoint newer page'
    = Prefs.i18n_translate_return pasted dataPoint newer page /\
    (forall id, JS.plainBetween 39 id = false -> pasted id = None ->
       Prefs.i18n_translate_return pasted id newText page = None).
Proof.
  intros Hk _ _. eexists. split; [by apply translate_return_plain |].
  rewrite !(translate_return_plain pasted dataPoint) by done.
  split; [| split; [| split; [| split; [| split]]]].
  - intros i el Hi. unfold Prefs.forEach_innerHTML.
    change (map ?f ?l) with (f <$> l). by rewrite list_lookup_fmap, Hi.
  - unfold Prefs.forEach_innerHTML. change (map ?f ?l) with (f <$> l).
    rewrite <- list_fmap_compose. apply list_fmap_ext. intros i el _. simpl.
    by case_bool_decide.
  - unfold Prefs.forEach_innerHTML. change (map ?f ?l) with (f <$> l).
    rewrite <- list_fmap_compose. apply list_fmap_ext. intros i el _. simpl.
    by case_bool_decide.
  - unfold Prefs.trigger_i18n. f_equal.
    rewrite return_filter. apply return_sendSet.
  - f_equal. unfold Prefs.forEach_innerHTML. change (map ?f ?l) with (f <$> l).
    rewrite <- list_fmap_compose. apply list_fmap_ext. intros i el _. simpl.
    destruct (bool_decide (Prefs.data_i18n el = Some dataPoint)) eqn:E;
      simpl; by rewrite E.
  - intros id Hid Hp.
    unfold Prefs.i18n_translate_return, Prefs.querySelectorAll.
    by rewrite Hid, Hp.
Qed.

Lemma i18n_translate_return_by_attribute_witness :
  JS.plainBetween 39 "app_title" = true /\
  JS.noMarkup "Mod Assistant" = true /\
  JS.noMarkup "Assistant" = true /\
  exists page',
    Prefs.i18n_translate_return More.refuseId "app_title" "Mod Assistant"
      More.prefsPage = Some page' /\
    (forall i el, More.prefsPage !! i = Some el ->
       page' !! i
       = Some (if bool_decide (Prefs.data_i18n el = Some "app_title")
               then Prefs.Element (Prefs.class_i18n el) (Prefs.data_i18n el)
                                  "Mod Assistant"
               else el)) /\
    Prefs.class_i18n <$> page' = Prefs.class_i18n <$> More.prefsPage /\
    Prefs.data_i18n <$> page' = Prefs.data_i18n <$> More.prefsPage /\
    Prefs.trigger_i18n page' [] = Prefs.trigger_i18n More.prefsPage [] /\
    Prefs.i18n_translate_return More.refuseId "app_title" "Assistant" page'
    = Prefs.i18n_translate_return More.refuseId "app_title" "Assistant"
        More.prefsPage /\
    (forall id, JS.plainBetween 39 id = false -> More.refuseId id = None ->
       Prefs.i18n_translate_return More.refuseId id "Mod Assistant"
         More.prefsPage = None).
Proof.
  split; [reflexivity |]. split; [reflexivity |]. split; [reflexivity |].
  apply (i18n_translate_return_by_attribute More.refuseId "app_title"
           "Mod Assistant" "Assistant" More.prefsPage []); reflexivity.
Defined.

(** Both elements of the id take the text, with or without the class; an
    id with a single quote is refused and nothing is written. *)
Example i18n_translate_return_page :
  Prefs.i18n_translate_return More.refuseId "app_title" "Mod Assistant"
    More.prefsPage
  = Some [Prefs.Element true (Some "app_title") "Mod Assistant";
          Prefs.Element false (Some "app_title") "Mod Assistant";
          Prefs.Element true (Some "it's") "";
          Prefs.Element true None ""] /\
  Prefs.i18n_translate_return More.refuseId "it's" "Mod Assistant"
    More.prefsPage = None.
Proof. split; vm_compute; reflexivity. Qed.

(** ** Successive subscriptions *)

Section SubscribeFacts.
Context {event arg effect : Type}.
Implicit Types (subs : list (string * Bridge.callback arg effect))
               (ipc : Bridge.ipcRenderer event arg effect).

Lemma l10n_subscribe_channels subs ipc :
  Bridge.on_channel <$> Pages.l10n_subscribe subs ipc
  = (Bridge.on_channel <$> ipc)
    ++ List.filter (JS.includes Bridge.l10n_validChannels) subs.*1.
Proof.
  unfold Pages.l10n_subscribe. revert ipc.
  induction subs as [| [c f] subs IH]; intros ipc.
  - simpl. by rewrite app_nil_r.
  - rewrite fmap_cons. cbn [fold_left List.filter fst snd].
    rewrite IH. unfold Bridge.l10n_receive, Bridge.ipcRenderer_on.
    destruct (JS.includes Bridge.l10n_validChannels c); [| done].
    rewrite fmap_app. cbn [fmap list_fmap Bridge.on_channel].
    by rewrite <- app_assoc.
Qed.

Lemma mods_subscribe_channels subs ipc :
  Bridge.on_channel <$> Pages.mods_subscribe subs ipc
  = (Bridge.on_channel <$> ipc)
    ++ List.filter (JS.includes Bridge.mods_validChannels) subs.*1.
Proof.
  unfold Pages.mods_subscribe. revert ipc.
  induction subs as [| [c f] subs IH]; intros ipc.
  - simpl. by rewrite app_nil_r.
  - rewrite fmap_cons. cbn [fold_left List.filter fst snd].
    rewrite IH. unfold Bridge.mods_receive, Bridge.ipcRenderer_on.
    destruct (JS.includes Bridge.mods_validChannels c); [| done].
    rewrite fmap_app. cbn [fmap list_fmap Bridge.on_channel].
    by rewrite <- app_assoc.
Qed.
End SubscribeFacts.

(** X29.  After any sequence of [receive] calls on a bridge the listener
    table holds, after the listeners it had, one listener per call whose
    channel is in the bridge's list, in call order; refused calls leave no
    trace and a channel subscribed twice is listed twice. *)
Theorem subscriptions_keep_allowed_in_order
    (event arg effect : Type)
    (subs : list (string * Bridge.callback arg effect))
    (ipc : Bridge.ipcRenderer event arg effect) :
  Bridge.on_channel <$> Pages.l10n_subscribe subs ipc
  = (Bridge.on_channel <$> ipc)
    ++ List.filter (JS.includes Bridge.l10n_validChannels) subs.*1
  /\
  Bridge.on_channel <$> Pages.mods_subscribe subs ipc
  = (Bridge.on_channel <$> ipc)
    ++ List.filter (JS.includes Bridge.mods_validChannels) subs.*1.
Proof.
  split; [apply l10n_subscribe_channels | apply mods_subscribe_channels].
Qed.

